(** * Caravan backend: location update path, proximity queries, heatmap and
      recommendations

    A shallow embedding of the request handlers of the Caravan backend
    (an Express application over MySQL, with a PostGIS mirror of each user's
    position) and the properties of its location core.

    Sources embedded here:
    - the monolithic server ([app.post("/api/user/location")],
      [app.get("/api/businesses/nearby")], [app.get("/api/recommendations")],
      [app.get("/api/user/heatmap")]);
    - [userLocationRoute.js] ([router.post("/location")], the variant that
      mirrors the position into PostgreSQL);
    - [geoLocationService.js] ([upsertUserLocation] and its helpers).

    Modelling conventions.
    - A SQL table is the list of its rows, in storage order.
    - A handler is a computation in the monad [Js]: it threads the [World]
      (both stores and the journal of attempted operations) and either returns
      or throws.  State survives a throw, as it does in JavaScript.
    - Every statement sent to a store may fail; which ones do is decided by the
      oracle [faults] of the call's [Env].  A failing statement has no effect.
    - Requests are served one at a time: a transaction is atomic with respect
      to the other requests.
    - Stored coordinates and ratings are rationals.  The distance expression
      of the read queries is evaluated as the server does it, in IEEE
      doubles (the kernel's binary64 floats); the C library's [cos], [sin]
      and [acos], which are no part of the sources, are a parameter.
    - A text is the UTF-8 form of the JavaScript string. *)

From Stdlib Require Import List String Ascii Bool ZArith QArith Floats.
From Stdlib Require Import Lia Sorted Permutation.
Import ListNotations.

Close Scope Q_scope.
Open Scope string_scope.
Open Scope list_scope.

Set Implicit Arguments.

(* ===================================================================== *)
(** * JavaScript values                                                    *)
(* ===================================================================== *)

(** An IEEE double as JavaScript sees it: a finite value (every finite double
    is a rational), NaN, or an infinity. *)
Inductive Double : Type :=
| DNum (q : Q)
| DNaN
| DInfinity (negative : bool).

(** The values a parsed JSON body or a query string can put in a field. *)
Inductive JsVal : Type :=
| JUndefined
| JNull
| JBool (b : bool)
| JNumber (d : Double)
| JString (s : string)
| JObject.

(** [ToBoolean]: what [!v] negates. *)
Definition truthy (v : JsVal) : bool :=
  match v with
  | JUndefined | JNull => false
  | JBool b => b
  | JNumber (DNum q) => negb (Qeq_bool q 0)
  | JNumber DNaN => false
  | JNumber (DInfinity _) => true
  | JString s => negb (String.eqb s "")
  | JObject => true
  end.

(** [typeof v === "number"]. *)
Definition typeof_number (v : JsVal) : bool :=
  match v with
  | JNumber _ => true
  | _ => false
  end.

(** [d < q] and [d > q] on doubles, for a finite [q]; any comparison with NaN
    is false. *)
Definition double_lt (d : Double) (q : Q) : bool :=
  match d with
  | DNum x => negb (Qle_bool q x)
  | DNaN => false
  | DInfinity negative => negative
  end.

Definition double_gt (d : Double) (q : Q) : bool :=
  match d with
  | DNum x => negb (Qle_bool x q)
  | DNaN => false
  | DInfinity negative => negb negative
  end.

(** [s || null] on an optional text field of the body. *)
Definition or_null (s : option string) : option string :=
  match s with
  | Some "" => None
  | other => other
  end.

(** ** [parseInt] on a string, radix omitted

    Leading white space is skipped, then an optional sign, then an optional
    [0x] prefix that selects radix 16; the digits that follow are read as far
    as they go, and the integer they spell is rounded to the nearest
    double. *)

(** The white space of one byte: TAB, LF, VT, FF, CR and the space. *)
Definition is_white_space (c : ascii) : bool :=
  let n := nat_of_ascii c in
  (n =? 32)%nat || (n =? 9)%nat || (n =? 10)%nat || (n =? 11)%nat
  || (n =? 12)%nat || (n =? 13)%nat.

(** U+00A0, the no-break space. *)
Definition is_white_space_2 (a b : ascii) : bool :=
  (nat_of_ascii a =? 194)%nat && (nat_of_ascii b =? 160)%nat.

(** U+1680, U+2000 to U+200A, U+2028, U+2029, U+202F, U+205F, U+3000 and
    U+FEFF. *)
Definition is_white_space_3 (a b c : ascii) : bool :=
  let x := nat_of_ascii a in
  let y := nat_of_ascii b in
  let z := nat_of_ascii c in
  ((x =? 225) && (y =? 154) && (z =? 128))%nat
  || ((x =? 226) && (y =? 128)
      && (((128 <=? z) && (z <=? 138)) || (z =? 168) || (z =? 169)
          || (z =? 175)))%nat
  || ((x =? 226) && (y =? 129) && (z =? 159))%nat
  || ((x =? 227) && (y =? 128) && (z =? 128))%nat
  || ((x =? 239) && (y =? 187) && (z =? 191))%nat.

Fixpoint trim_start (s : string) : string :=
  match s with
  | EmptyString => s
  | String a r1 =>
      if is_white_space a then trim_start r1
      else
        match r1 with
        | EmptyString => s
        | String b r2 =>
            if is_white_space_2 a b then trim_start r2
            else
              match r2 with
              | EmptyString => s
              | String c r3 =>
                  if is_white_space_3 a b c then trim_start r3 else s
              end
        end
  end.

Definition digit_value (c : ascii) : option Z :=
  let n := Z.of_nat (nat_of_ascii c) in
  if (48 <=? n)%Z && (n <=? 57)%Z then Some (n - 48)%Z
  else if (97 <=? n)%Z && (n <=? 122)%Z then Some (n - 87)%Z
  else if (65 <=? n)%Z && (n <=? 90)%Z then Some (n - 55)%Z
  else None.

(** The longest prefix of digits of the radix; [None] while no digit was
    read. *)
Fixpoint parse_digits (radix : Z) (s : string) (acc : option Z) : option Z :=
  match s with
  | EmptyString => acc
  | String c rest =>
      match digit_value c with
      | Some d =>
          if (d <? radix)%Z
          then parse_digits radix rest
                 (Some (match acc with Some a => a * radix + d | None => d end)%Z)
          else acc
      | None => acc
      end
  end.

Definition parse_unsigned (s : string) : option Z :=
  match s with
  | String "0" (String "x" rest) => parse_digits 16 rest None
  | String "0" (String "X" rest) => parse_digits 16 rest None
  | _ => parse_digits 10 s None
  end.

(** The integer the digits spell, sign included; [None] when there is no
    digit. *)
Definition parse_integer (s : string) : option Z :=
  match trim_start s with
  | String "-" rest => option_map Z.opp (parse_unsigned rest)
  | String "+" rest => parse_unsigned rest
  | t => parse_unsigned t
  end.

(** The double nearest to an integer, ties to the even one; an infinity from
    2^1024 on. *)
Definition nearest_double (n : Z) : Double :=
  let a := Z.abs n in
  let shift := (Z.log2 a - 52)%Z in
  if (shift <=? 0)%Z then DNum (inject_Z n)
  else
    let q := Z.shiftr a shift in
    let r := (a - Z.shiftl q shift)%Z in
    let half := Z.shiftl 1 (shift - 1) in
    let q' :=
      if (half <? r)%Z || ((r =? half)%Z && Z.odd q) then (q + 1)%Z else q in
    let v := Z.shiftl q' shift in
    if (Z.shiftl 1 1024 <=? v)%Z then DInfinity (n <? 0)%Z
    else DNum (inject_Z (Z.sgn n * v)).

(** [parseInt(s)] *)
Definition parseInt (s : string) : Double :=
  match parse_integer s with
  | Some n => nearest_double n
  | None => DNaN
  end.

(* ===================================================================== *)
(** * The two stores                                                       *)
(* ===================================================================== *)

(** ** MySQL tables *)

Record LocationRow : Type := mkLocation {
  location_id : Z;
  latitude : Q;
  longitude : Q;
  city : option string;
  state : option string;
  country : option string;
  postal_code : option string
}.

Record UserLocationRow : Type := mkUserLocation {
  user_location_id : Z;
  ul_user_id : Z;
  ul_location_id : Z;
  is_current : bool;
  timestamp : nat
}.

Record BusinessRow : Type := mkBusiness {
  business_id : Z;
  name : string;
  description : string;
  business_type : string;
  rating : Q;
  b_location_id : Z;
  cluster_id : Z
}.

Record UserPreferenceRow : Type := mkPreference {
  up_user_id : Z;
  up_cluster_id : Z
}.

Record UserBusinessLikeRow : Type := mkLike {
  like_user_id : Z;
  like_business_id : Z
}.

Record Tables : Type := mkTables {
  locations : list LocationRow;
  user_locations : list UserLocationRow;
  businesses : list BusinessRow;
  user_preferences : list UserPreferenceRow;
  user_business_likes : list UserBusinessLikeRow
}.

(** ** PostGIS table [user_locations]: one point per user *)

Record GeoRow : Type := mkGeo {
  geo_user_id : Z;
  geo_longitude : Double;
  geo_latitude : Double;
  updated_at : nat
}.

(** ** Operations the handlers attempt, in the order the journal keeps them *)

Inductive Op : Type :=
| MyBeginTransaction
| MyInsertLocation
| MyClearCurrent
| MyInsertUserLocation
| MyCommit
| MyRollback
| MyRelease
| MySelectCurrentLocation
| MySelectNearbyBusinesses
| MySelectPreferences
| MySelectRecommendations
| MySelectHeatmap
| CallUpsertUserLocation
| PgSelectUserLocation
| PgInsertUserLocation
| PgUpdateUserLocation.

Definition Op_eqb (a b : Op) : bool :=
  match a, b with
  | MyBeginTransaction, MyBeginTransaction
  | MyInsertLocation, MyInsertLocation
  | MyClearCurrent, MyClearCurrent
  | MyInsertUserLocation, MyInsertUserLocation
  | MyCommit, MyCommit
  | MyRollback, MyRollback
  | MyRelease, MyRelease
  | MySelectCurrentLocation, MySelectCurrentLocation
  | MySelectNearbyBusinesses, MySelectNearbyBusinesses
  | MySelectPreferences, MySelectPreferences
  | MySelectRecommendations, MySelectRecommendations
  | MySelectHeatmap, MySelectHeatmap
  | CallUpsertUserLocation, CallUpsertUserLocation
  | PgSelectUserLocation, PgSelectUserLocation
  | PgInsertUserLocation, PgInsertUserLocation
  | PgUpdateUserLocation, PgUpdateUserLocation => true
  | _, _ => false
  end.

(** An operation of the mirror: the service call or one of its queries. *)
Definition is_mirror (op : Op) : bool :=
  match op with
  | CallUpsertUserLocation | PgSelectUserLocation | PgInsertUserLocation
  | PgUpdateUserLocation => true
  | _ => false
  end.

(** ** The world a handler runs in

    [committed] is what every connection reads outside a transaction;
    [pending] is the private view of the connection that holds the open
    transaction.  The AUTO_INCREMENT counters are not transactional. *)
Record World : Type := mkWorld {
  committed : Tables;
  pending : option Tables;
  next_location_id : Z;
  next_user_location_id : Z;
  geo : list GeoRow;
  journal : list Op
}.

(** The functions MySQL takes from the C library of its host. *)
Record Libm : Type := mkLibm {
  libm_cos : float -> float;
  libm_sin : float -> float;
  libm_acos : float -> float
}.

(** What a call is given besides its request: the failures the stores will
    raise, the stores' clock, and the C library of the SQL server. *)
Record Env : Type := mkEnv {
  faults : Op -> bool;
  now : nat;
  libm : Libm
}.

(** The column types of [locations.latitude] and [locations.longitude] are
    declared in a schema that is not part of the sources: the value a column
    keeps for a bound JavaScript parameter ([None]: the server rejects it) is a
    parameter of the model. *)
Record Schema : Type := mkSchema {
  col_latitude : JsVal -> option Q;
  col_longitude : JsVal -> option Q
}.

(* ===================================================================== *)
(** * The handler monad                                                    *)
(* ===================================================================== *)

Inductive Outcome (A : Type) : Type :=
| Returned (a : A)
| Thrown (message : string).

Arguments Returned {A} a.
Arguments Thrown {A} message.

(** What does not touch a store: the next step runs on the value returned; a
    throw goes through. *)
Definition and_then {A B : Type} (o : Outcome A) (k : A -> Outcome B)
  : Outcome B :=
  match o with
  | Returned a => k a
  | Thrown message => Thrown message
  end.

Notation "x <~ o ;; k" := (and_then o (fun x => k))
  (at level 61, o at next level, right associativity).

(** A computation over a store [S]: it threads the store and either returns
    or throws; the store survives a throw. *)
Definition Run (S A : Type) : Type := S -> Outcome A * S.

Definition Js (A : Type) : Type := Run World A.

Definition ret {S A : Type} (a : A) : Run S A := fun w => (Returned a, w).

Definition throw {S A : Type} (message : string) : Run S A :=
  fun w => (Thrown message, w).

Definition bind {S A B : Type} (m : Run S A) (k : A -> Run S B) : Run S B :=
  fun w =>
    match m w with
    | (Returned a, w') => k a w'
    | (Thrown message, w') => (Thrown message, w')
    end.

Notation "x <- m ;; k" := (bind m (fun x => k))
  (at level 61, m at next level, right associativity).
Notation "m ;;; k" := (bind m (fun _ => k))
  (at level 61, right associativity).

(** [try { body } catch (error) { handler }] *)
Definition try_catch {S A : Type} (body : Run S A) (handler : string -> Run S A)
  : Run S A :=
  fun w =>
    match body w with
    | (Returned a, w') => (Returned a, w')
    | (Thrown message, w') => handler message w'
    end.

(** [try { body } finally { cleanup }]: the cleanup runs on both exits, also
    after a [return] inside the body. *)
Definition try_finally {S A : Type} (body : Run S A) (cleanup : Run S unit)
  : Run S A :=
  fun w =>
    match body w with
    | (result, w') =>
        match cleanup w' with
        | (Returned _, w'') => (result, w'')
        | (Thrown message, w'') => (Thrown message, w'')
        end
    end.

Definition record_op (op : Op) (w : World) : World :=
  mkWorld (committed w) (pending w) (next_location_id w)
    (next_user_location_id w) (geo w) (journal w ++ [op]).

(** An awaited store operation: it is journalled, then either fails as the
    oracle says, leaving the stores as they were, or runs. *)
Definition attempt {A : Type} (e : Env) (op : Op) (run : Js A) : Js A :=
  fun w =>
    if faults e op
    then (Thrown "store failure", record_op op w)
    else run (record_op op w).

(** An operation that is not awaited for an error ([release], [rollback]). *)
Definition perform_op (op : Op) (run : World -> World) : Js unit :=
  fun w => (Returned tt, run (record_op op w)).

(* ===================================================================== *)
(** * Primary store: the statements of the update path                     *)
(* ===================================================================== *)

Definition with_tables (t : Tables) (w : World) : World :=
  match pending w with
  | Some _ =>
      mkWorld (committed w) (Some t) (next_location_id w)
        (next_user_location_id w) (geo w) (journal w)
  | None =>
      mkWorld t None (next_location_id w) (next_user_location_id w) (geo w)
        (journal w)
  end.

(** The tables the connection sees: its own transaction's, when it has one. *)
Definition view (w : World) : Tables :=
  match pending w with
  | Some t => t
  | None => committed w
  end.

Definition set_pending (p : option Tables) (w : World) : World :=
  mkWorld (committed w) p (next_location_id w) (next_user_location_id w)
    (geo w) (journal w).

Definition set_geo (g : list GeoRow) (w : World) : World :=
  mkWorld (committed w) (pending w) (next_location_id w)
    (next_user_location_id w) g (journal w).

Definition set_locations (l : list LocationRow) (t : Tables) : Tables :=
  mkTables l (user_locations t) (businesses t) (user_preferences t)
    (user_business_likes t).

Definition set_user_locations (l : list UserLocationRow) (t : Tables) : Tables :=
  mkTables (locations t) l (businesses t) (user_preferences t)
    (user_business_likes t).

(** [connection.beginTransaction()] *)
Definition beginTransaction (e : Env) : Js unit :=
  attempt e MyBeginTransaction
    (fun w => (Returned tt, set_pending (Some (committed w)) w)).

(** [INSERT INTO locations (latitude, longitude, city, state, country,
    postal_code) VALUES (?, ?, ?, ?, ?, ?)]; the result is [insertId]. *)
Definition insert_location (sch : Schema) (e : Env)
    (lat lon : JsVal) (cty st ctr pc : option string) : Js Z :=
  attempt e MyInsertLocation
    (fun w =>
       match col_latitude sch lat, col_longitude sch lon with
       | Some la, Some lo =>
           let id := next_location_id w in
           let t := view w in
           let w1 :=
             with_tables
               (set_locations (locations t ++ [mkLocation id la lo cty st ctr pc]) t)
               w in
           (Returned id,
            mkWorld (committed w1) (pending w1) (id + 1)%Z
              (next_user_location_id w1) (geo w1) (journal w1))
       | _, _ => (Thrown "Incorrect value for a coordinate column", w)
       end).

Definition clear_row (userId : Z) (r : UserLocationRow) : UserLocationRow :=
  if (ul_user_id r =? userId)%Z
  then mkUserLocation (user_location_id r) (ul_user_id r) (ul_location_id r)
         false (timestamp r)
  else r.

(** [UPDATE user_locations SET is_current = FALSE WHERE user_id = ?] *)
Definition clear_current (e : Env) (userId : Z) : Js unit :=
  attempt e MyClearCurrent
    (fun w =>
       let t := view w in
       (Returned tt,
        with_tables
          (set_user_locations (map (clear_row userId) (user_locations t)) t) w)).

(** [INSERT INTO user_locations (user_id, location_id, is_current)
    VALUES (?, ?, TRUE)]; the result is [insertId]. *)
Definition insert_user_location (e : Env) (userId locationId : Z) : Js Z :=
  attempt e MyInsertUserLocation
    (fun w =>
       let id := next_user_location_id w in
       let t := view w in
       let w1 :=
         with_tables
           (set_user_locations
              (user_locations t ++ [mkUserLocation id userId locationId true (now e)])
              t)
           w in
       (Returned id,
        mkWorld (committed w1) (pending w1) (next_location_id w1) (id + 1)%Z
          (geo w1) (journal w1))).

(** [connection.commit()] *)
Definition commit (e : Env) : Js unit :=
  attempt e MyCommit
    (fun w =>
       (Returned tt,
        mkWorld (view w) None (next_location_id w) (next_user_location_id w)
          (geo w) (journal w))).

(** [connection.rollback()]; taken not to fail. *)
Definition rollback : Js unit := perform_op MyRollback (set_pending None).

(** [connection.release()] *)
Definition release : Js unit := perform_op MyRelease (fun w => w).

(* ===================================================================== *)
(** * Secondary store: [geoLocationService.js]                            *)
(* ===================================================================== *)

(** [validateCoordinates(latitude, longitude)] *)
Definition validateCoordinates (lat lon : JsVal) : Js unit :=
  match lat, lon with
  | JNumber la, JNumber lo =>
      if double_lt la (-90 # 1) || double_gt la (90 # 1)
      then throw "Latitude must be between -90 and 90 degrees"
      else if double_lt lo (-180 # 1) || double_gt lo (180 # 1)
      then throw "Longitude must be between -180 and 180 degrees"
      else ret tt
  | _, _ => throw "Latitude and longitude must be numbers"
  end.

(** [getUserLocation(userId)]: [result.rows[0]] or [null]. *)
Definition getUserLocation (e : Env) (userId : Z) : Js (option GeoRow) :=
  try_catch
    (attempt e PgSelectUserLocation
       (fun w =>
          (Returned
             (hd_error (filter (fun r => (geo_user_id r =? userId)%Z) (geo w))),
           w)))
    (fun message => throw message).

(** [insertUserLocation(userId, latitude, longitude)]: the point is built as
    [ST_MakePoint(longitude, latitude)]; the result is [result.rows[0]]. *)
Definition insertUserLocation (e : Env) (userId : Z) (lat lon : JsVal)
  : Js (option GeoRow) :=
  try_catch
    (attempt e PgInsertUserLocation
       (fun w =>
          match lat, lon with
          | JNumber la, JNumber lo =>
              let row := mkGeo userId lo la (now e) in
              (Returned (Some row), set_geo (geo w ++ [row]) w)
          | _, _ => (Thrown "invalid input syntax for type double precision", w)
          end))
    (fun message => throw message).

Definition move_row (e : Env) (userId : Z) (la lo : Double) (r : GeoRow) : GeoRow :=
  if (geo_user_id r =? userId)%Z then mkGeo (geo_user_id r) lo la (now e) else r.

(** [updateUserLocation(userId, latitude, longitude)]: overwrites in place;
    the result is the first row the statement returns. *)
Definition updateUserLocation (e : Env) (userId : Z) (lat lon : JsVal)
  : Js (option GeoRow) :=
  try_catch
    (attempt e PgUpdateUserLocation
       (fun w =>
          match lat, lon with
          | JNumber la, JNumber lo =>
              let g := map (move_row e userId la lo) (geo w) in
              (Returned (hd_error (filter (fun r => (geo_user_id r =? userId)%Z) g)),
               set_geo g w)
          | _, _ => (Thrown "invalid input syntax for type double precision", w)
          end))
    (fun message => throw message).

(** [upsertUserLocation(userId, latitude, longitude)]; the call itself is
    journalled on entry. *)
Definition upsertUserLocation (e : Env) (userId : Z) (lat lon : JsVal)
  : Js (option GeoRow) :=
  perform_op CallUpsertUserLocation (fun w => w) ;;;
  try_catch
    (validateCoordinates lat lon ;;;
     existingUser <- getUserLocation e userId ;;
     match existingUser with
     | Some _ => updateUserLocation e userId lat lon
     | None => insertUserLocation e userId lat lon
     end)
    (fun message => throw message).

(* ===================================================================== *)
(** * Requests and responses                                               *)
(* ===================================================================== *)

(** The JSON body of a location update. *)
Record LocationBody : Type := mkBody {
  body_latitude : JsVal;
  body_longitude : JsVal;
  body_city : option string;
  body_state : option string;
  body_country : option string;
  body_postal_code : option string
}.

(** The columns every business query selects. *)
Record BusinessColumns : Type := mkColumns {
  bc_business_id : Z;
  bc_name : string;
  bc_description : string;
  bc_business_type : string;
  bc_rating : Q;
  bc_latitude : Q;
  bc_longitude : Q;
  bc_city : option string;
  bc_state : option string;
  bc_country : option string
}.

(** The [LocationModel] the heatmap sends to the client. *)
Record LocationModel : Type := mkModel {
  lm_location_id : Z;
  lm_latitude : Q;
  lm_longitude : Q;
  lm_city : option string;
  lm_state : option string;
  lm_country : option string;
  lm_postal_code : option string;
  lm_timestamp : nat;
  lm_is_current : bool
}.

(** [postgres: pgResult || { status: "failed" }] *)
Inductive MirrorOutcome : Type :=
| MirrorRow (row : GeoRow)
| MirrorFailed.

(** The JSON bodies the handlers send; the constant [message] of a successful
    update is left out.  A business comes with its [distance] column; in the
    recommendations the column is there only when the query selects it
    ([None] when it does not), and its value may be [NULL] ([Some None]). *)
Inductive Payload : Type :=
| ErrorJson (error : string) (details : option string)
| LocationUpdated (locationId userLocationId : Z)
| LocationUpdatedDual (locationId userLocationId : Z) (postgres : MirrorOutcome)
| Businesses (rows : list (BusinessColumns * float))
| Recommendations (rows : list (BusinessColumns * option (option float)))
| HeatmapJson (locs : list LocationModel) (count : nat)
    (center : option (Q * Q)) (message : option string).

Record Response : Type := mkResponse {
  status : nat;
  payload : Payload
}.

(* ===================================================================== *)
(** * The update handlers                                                  *)
(* ===================================================================== *)

(** [app.post("/api/user/location", authenticateToken, ...)]: [userId] is
    [req.user.id]. *)
Definition post_user_location (sch : Schema) (e : Env) (userId : Z)
    (body : LocationBody) : Js Response :=
  try_finally
    (try_catch
       (if negb (truthy (body_latitude body)) || negb (truthy (body_longitude body))
        then
          release ;;;
          ret (mkResponse 400
                 (ErrorJson "Latitude and longitude are required" None))
        else
          beginTransaction e ;;;
          locationId <-
            insert_location sch e (body_latitude body) (body_longitude body)
              (or_null (body_city body)) (or_null (body_state body))
              (or_null (body_country body)) (or_null (body_postal_code body)) ;;
          clear_current e userId ;;;
          userLocationId <- insert_user_location e userId locationId ;;
          commit e ;;;
          ret (mkResponse 201 (LocationUpdated locationId userLocationId)))
       (fun _ =>
          rollback ;;;
          ret (mkResponse 500 (ErrorJson "Failed to update location" None))))
    release.

(** [try { pgResult = await geoLocationService.upsertUserLocation(...) }
    catch (pgError) { }] with [pgResult] initially [null]. *)
Definition mirror_location (e : Env) (userId : Z) (lat lon : JsVal)
  : Js (option GeoRow) :=
  try_catch (upsertUserLocation e userId lat lon) (fun _ => ret None).

(** [router.post("/location", ...)] of [userLocationRoute.js]: [user_id] comes
    with the body. *)
Definition router_post_location (sch : Schema) (e : Env)
    (user_id : option Z) (body : LocationBody) : Js Response :=
  try_finally
    (try_catch
       (match user_id with
        | Some userId =>
            if (userId =? 0)%Z
            then
              release ;;;
              ret (mkResponse 400
                     (ErrorJson "User ID is required for testing" None))
            else if negb (truthy (body_latitude body))
                    || negb (truthy (body_longitude body))
            then
              release ;;;
              ret (mkResponse 400
                     (ErrorJson "Latitude and longitude are required" None))
            else
              beginTransaction e ;;;
              locationId <-
                insert_location sch e (body_latitude body) (body_longitude body)
                  (or_null (body_city body)) (or_null (body_state body))
                  (or_null (body_country body))
                  (or_null (body_postal_code body)) ;;
              clear_current e userId ;;;
              userLocationId <- insert_user_location e userId locationId ;;
              pgResult <-
                mirror_location e userId (body_latitude body)
                  (body_longitude body) ;;
              commit e ;;;
              ret (mkResponse 201
                     (LocationUpdatedDual locationId userLocationId
                        (match pgResult with
                         | Some row => MirrorRow row
                         | None => MirrorFailed
                         end)))
        | None =>
            release ;;;
            ret (mkResponse 400
                   (ErrorJson "User ID is required for testing" None))
        end)
       (fun message =>
          rollback ;;;
          ret (mkResponse 500
                 (ErrorJson "Failed to update location" (Some message)))))
    release.

(* ===================================================================== *)
(** * Distance and the SQL clauses of the read queries                     *)
(* ===================================================================== *)

(** ** SQL doubles

    MySQL evaluates the distance expression in doubles and calls the C
    library for [cos], [sin] and [acos]: the [libm] of the call's [Env].
    [NULL] is [None]. *)

(** The double a stored or bound decimal number is read as: the nearest
    one. *)
Definition Q2float (q : Q) : float :=
  match Qnum q with
  | Z0 => 0%float
  | Zpos p =>
      SF2Prim
        (SFdiv prec emax (S754_finite false p 0) (S754_finite false (Qden q) 0))
  | Zneg p =>
      SF2Prim
        (SFdiv prec emax (S754_finite true p 0) (S754_finite false (Qden q) 0))
  end.

(** A parameter bound to a placeholder: an integer, or the value of a
    coordinate column as the driver handed it to the handler (a text for a
    DECIMAL column, a number for a DOUBLE one; the radius of the query string
    likewise). *)
Inductive SqlParam : Type :=
| PInt (n : Z)
| PNum (q : Q).

(** The parameter where the statement wants a double. *)
Definition param_double (p : SqlParam) : float :=
  match p with
  | PInt n => Q2float (inject_Z n)
  | PNum q => Q2float q
  end.

(** [column = ?] on an integer column: integers are compared as integers,
    an integer and a text or a decimal number as doubles. *)
Definition int_equals (column : Z) (p : SqlParam) : bool :=
  match p with
  | PInt n => (column =? n)%Z
  | PNum q => (Q2float (inject_Z column) =? Q2float q)%float
  end.

(** The server refuses a result that is not a finite double. *)
Definition check_float_overflow (x : float) : Outcome float :=
  if is_finite x then Returned x
  else Thrown "DOUBLE value is out of range".

Definition M_PI : float := 0x1.921fb54442d18p+1%float.

(** MySQL's [RADIANS]: [value * (M_PI / 180) + 0.0]. *)
Definition sql_radians (x : float) : Outcome float :=
  check_float_overflow (x * (M_PI / 180) + 0)%float.

(** The distance column of the three proximity queries,
    [(6371 * acos(cos(radians(?)) * cos(radians(l.latitude)) *
      cos(radians(l.longitude) - radians(?)) +
      sin(radians(?)) * sin(radians(l.latitude))))],
    with its three placeholders [p1], [p2], [p3] in the order of the text and
    the coordinates of the row.  [ACOS] is [NULL] outside -1..1, and so is the
    product then. *)
Definition distance (lm : Libm) (p1 p2 p3 lat lng : float)
  : Outcome (option float) :=
  r1 <~ sql_radians p1 ;;
  rlat <~ sql_radians lat ;;
  a <~ check_float_overflow (libm_cos lm r1 * libm_cos lm rlat)%float ;;
  rlng <~ sql_radians lng ;;
  r2 <~ sql_radians p2 ;;
  d <~ check_float_overflow (rlng - r2)%float ;;
  b <~ check_float_overflow (a * libm_cos lm d)%float ;;
  r3 <~ sql_radians p3 ;;
  c <~ check_float_overflow (libm_sin lm r3 * libm_sin lm rlat)%float ;;
  x <~ check_float_overflow (b + c)%float ;;
  if (x <? -1)%float || (1 <? x)%float then Returned None
  else
    k <~ check_float_overflow (6371 * libm_acos lm x)%float ;;
    Returned (Some k).

(** The select list evaluated on every row that the [WHERE] clause kept: an
    error on one row fails the statement. *)
Fixpoint select_rows {A B : Type} (f : A -> Outcome B) (rows : list A)
  : Outcome (list B) :=
  match rows with
  | [] => Returned []
  | r :: rest =>
      b <~ f r ;;
      bs <~ select_rows f rest ;;
      Returned (b :: bs)
  end.

(** [HAVING distance < ?]: a row whose distance is [NULL] is dropped. *)
Definition having_below {A : Type} (bound : float)
    (rows : list (A * option float)) : list (A * float) :=
  flat_map
    (fun r =>
       match snd r with
       | Some d => if (d <? bound)%float then [(fst r, d)] else []
       | None => []
       end)
    rows.

(** [ORDER BY]: rows in ascending order of their key under [leb]; rows with
    equal keys keep their order. *)
Section OrderBy.
Variables (A K : Type).
Variable leb : K -> K -> bool.
Variable key : A -> K.

Fixpoint insert_row (x : A) (l : list A) : list A :=
  match l with
  | [] => [x]
  | y :: rest => if leb (key x) (key y) then x :: l else y :: insert_row x rest
  end.

Fixpoint order_by (l : list A) : list A :=
  match l with
  | [] => []
  | x :: rest => insert_row x (order_by rest)
  end.
End OrderBy.

(** [ORDER BY ... DESC] on a rational column. *)
Definition Q_desc (x y : Q) : bool := Qle_bool y x.

(** [ORDER BY distance] on a column that may be [NULL]: [NULL] comes
    first. *)
Definition null_first (x y : option float) : bool :=
  match x, y with
  | None, _ => true
  | Some _, None => false
  | Some a, Some b => (a <=? b)%float
  end.

(** [FROM left JOIN locations l ON left.location_id = l.location_id] *)
Definition join_locations {A : Type} (location_of : A -> Z) (rows : list A)
    (locs : list LocationRow) : list (A * LocationRow) :=
  flat_map
    (fun a =>
       map (fun l => (a, l))
         (filter (fun l => (location_of a =? location_id l)%Z) locs))
    rows.

(** The number of rows [LIMIT ?] asks for.  The driver writes the value of
    [parseInt(limit)] into the statement as JavaScript prints it, and the
    server takes an unsigned integer of at most 64 bits there: [NaN],
    [Infinity], a sign, and the larger numbers (printed in full up to 1e21,
    with an exponent from there on) are refused. *)
Definition limit_count (limit : Double) : option Z :=
  match limit with
  | DNum q =>
      let r := Qred q in
      if (Qden r =? 1)%positive && (0 <=? Qnum r)%Z
         && (Qnum r <=? 18446744073709551615)%Z
      then Some (Qnum r)
      else None
  | _ => None
  end.

(** A statement that ends in [LIMIT ?]: it is refused before it runs when
    the limit is. *)
Definition sql_limit {A : Type} (limit : Double) (rows : Outcome (list A))
  : Outcome (list A) :=
  match limit_count limit with
  | Some n =>
      selected <~ rows ;;
      Returned (firstn (Z.to_nat n) selected)
  | None => Thrown "You have an error in your SQL syntax"
  end.

Definition columns_of (b : BusinessRow) (l : LocationRow) : BusinessColumns :=
  mkColumns (business_id b) (name b) (description b) (business_type b)
    (rating b) (latitude l) (longitude l) (city l) (state l) (country l).

(** [SELECT l.latitude, l.longitude FROM user_locations ul JOIN locations l
    ON ul.location_id = l.location_id WHERE ul.user_id = ? AND
    ul.is_current = TRUE] *)
Definition current_location_rows (userId : Z) (t : Tables) : list (Q * Q) :=
  map (fun r => (latitude (snd r), longitude (snd r)))
    (filter (fun r => (ul_user_id (fst r) =? userId)%Z && is_current (fst r))
       (join_locations ul_location_id (user_locations t) (locations t))).

Definition select_current_location (e : Env) (userId : Z) : Js (list (Q * Q)) :=
  attempt e MySelectCurrentLocation
    (fun w => (Returned (current_location_rows userId (committed w)), w)).

(** The distance column on a row of a join with [locations]. *)
Definition distance_to (lm : Libm) (p1 p2 p3 : SqlParam) (l : LocationRow)
  : Outcome (option float) :=
  distance lm (param_double p1) (param_double p2) (param_double p3)
    (Q2float (latitude l)) (Q2float (longitude l)).

(** The distance from [A] to [B] as the nearby and the heatmap query compute
    it: the latitude of [A] is bound to the first and the third placeholder,
    its longitude to the second, and [B] is the position of the row. *)
Definition distance_between (lm : Libm) (A B : Q * Q) : Outcome (option float) :=
  distance lm (Q2float (fst A)) (Q2float (snd A)) (Q2float (fst A))
    (Q2float (fst B)) (Q2float (snd B)).

(** The nearby query before its [LIMIT], with its placeholders [p1] to [p4]
    in the order of the text: join, distance column, [HAVING distance < ?],
    [ORDER BY distance]. *)
Definition nearby_rows (lm : Libm) (p1 p2 p3 p4 : SqlParam) (t : Tables)
  : Outcome (list (BusinessColumns * float)) :=
  rows <~
    select_rows
      (fun r =>
         d <~ distance_to lm p1 p2 p3 (snd r) ;;
         Returned (columns_of (fst r) (snd r), d))
      (join_locations b_location_id (businesses t) (locations t)) ;;
  Returned (order_by PrimFloat.leb snd (having_below (param_double p4) rows)).

Definition select_nearby_businesses (e : Env) (p1 p2 p3 p4 : SqlParam)
    (p5 : Double) : Js (list (BusinessColumns * float)) :=
  attempt e MySelectNearbyBusinesses
    (fun w =>
       (sql_limit p5 (nearby_rows (libm e) p1 p2 p3 p4 (committed w)), w)).

(** [SELECT cluster_id FROM user_preferences WHERE user_id = ?] *)
Definition select_preferences (e : Env) (userId : Z) : Js (list Z) :=
  attempt e MySelectPreferences
    (fun w =>
       (Returned
          (map up_cluster_id
             (filter (fun p => (up_user_id p =? userId)%Z)
                (user_preferences (committed w)))),
        w)).

(** [b.business_id NOT IN (SELECT business_id FROM user_business_likes
    WHERE user_id = ?)] *)
Definition not_liked (p : SqlParam) (likes : list UserBusinessLikeRow)
    (b : BusinessRow) : bool :=
  negb
    (existsb (fun k => (like_business_id k =? business_id b)%Z)
       (filter (fun k => int_equals (like_user_id k) p) likes)).

(** [WHERE b.cluster_id = ? AND b.business_id NOT IN (...)] over the join,
    with the two placeholders in the order of the text. *)
Definition candidate_rows (p1 p2 : SqlParam) (t : Tables)
  : list (BusinessRow * LocationRow) :=
  filter
    (fun r =>
       int_equals (cluster_id (fst r)) p1
       && not_liked p2 (user_business_likes t) (fst r))
    (join_locations b_location_id (businesses t) (locations t)).

(** The recommendation query without the distance column, before its
    [LIMIT]: [WHERE b.cluster_id = ? AND b.business_id NOT IN (... WHERE
    user_id = ?) ORDER BY b.rating DESC]. *)
Definition recommendations_by_rating (p1 p2 : SqlParam) (t : Tables)
  : list (BusinessColumns * option (option float)) :=
  map (fun c => (c, None))
    (order_by Q_desc bc_rating
       (map (fun r => columns_of (fst r) (snd r)) (candidate_rows p1 p2 t))).

(** The recommendation query with [locationFilter] spliced into its select
    list, before its [LIMIT].  The three placeholders of the distance column
    come first in the text, then the one of [b.cluster_id = ?], then the one
    of [user_id = ?]; the rows are in the order of [ORDER BY distance]. *)
Definition recommendations_by_distance (lm : Libm) (p1 p2 p3 p4 p5 : SqlParam)
    (t : Tables) : Outcome (list (BusinessColumns * option (option float))) :=
  rows <~
    select_rows
      (fun r =>
         d <~ distance_to lm p1 p2 p3 (snd r) ;;
         Returned (columns_of (fst r) (snd r), d))
      (candidate_rows p4 p5 t) ;;
  Returned (map (fun r => (fst r, Some (snd r))) (order_by null_first snd rows)).

(** [pool.query(text, locationParams)]: the parameters are bound to the
    placeholders of the text one after the other.  [locationParams] is
    [[clusterId, userId, parseInt(limit)]], or, when the user has a position,
    [[clusterId, userId, userLat, userLng, userLat, parseInt(limit)]]. *)
Definition select_recommendations (e : Env) (clusterId userId : Z)
    (userLocations : list (Q * Q)) (limit : Double)
  : Js (list (BusinessColumns * option (option float))) :=
  attempt e MySelectRecommendations
    (fun w =>
       (match userLocations with
        | u :: _ =>
            sql_limit limit
              (recommendations_by_distance (libm e)
                 (PInt clusterId) (PInt userId) (PNum (fst u))
                 (PNum (snd u)) (PNum (fst u)) (committed w))
        | [] =>
            sql_limit limit
              (Returned
                 (recommendations_by_rating (PInt clusterId) (PInt userId)
                    (committed w)))
        end,
        w)).

(** A row of the heatmap query: the columns of [l], [ul.timestamp] and the
    distance column. *)
Record HeatmapRow : Type := mkHeatmapRow {
  hr_location : LocationRow;
  hr_timestamp : nat;
  hr_distance : float
}.

(** [FROM user_locations ul JOIN locations l ... WHERE ul.is_current = TRUE
    HAVING distance < ? ORDER BY distance], with its placeholders [p1] to
    [p4] in the order of the text. *)
Definition heatmap_rows (lm : Libm) (p1 p2 p3 p4 : SqlParam) (t : Tables)
  : Outcome (list HeatmapRow) :=
  rows <~
    select_rows
      (fun r =>
         d <~ distance_to lm p1 p2 p3 (snd r) ;;
         Returned ((snd r, timestamp (fst r)), d))
      (filter (fun r => is_current (fst r))
         (join_locations ul_location_id (user_locations t) (locations t))) ;;
  Returned
    (order_by PrimFloat.leb hr_distance
       (map (fun r => mkHeatmapRow (fst (fst r)) (snd (fst r)) (snd r))
          (having_below (param_double p4) rows))).

Definition select_heatmap (e : Env) (p1 p2 p3 p4 : SqlParam)
  : Js (list HeatmapRow) :=
  attempt e MySelectHeatmap
    (fun w => (heatmap_rows (libm e) p1 p2 p3 p4 (committed w), w)).

(* ===================================================================== *)
(** * The read handlers                                                    *)
(* ===================================================================== *)

(** A query-string parameter that is absent or empty is falsy, so [||] takes
    the default.  [radius] reaches MySQL as text and is compared as a number:
    the model carries that number. *)
Definition radius_or (radius : option Q) (default : Q) : Q :=
  match radius with
  | Some r => r
  | None => default
  end.

(** [parseInt(req.query.limit || default)] *)
Definition limit_or (limit : option string) (default : Z) : Double :=
  match limit with
  | Some "" | None => DNum (inject_Z default)
  | Some s => parseInt s
  end.

(** [app.get("/api/businesses/nearby", authenticateToken, ...)]; the
    parameters are [[userLat, userLng, userLat, radius, parseInt(limit)]]. *)
Definition get_businesses_nearby (e : Env) (userId : Z)
    (radius : option Q) (limit : option string) : Js Response :=
  try_catch
    (userLocations <- select_current_location e userId ;;
     match userLocations with
     | [] => ret (mkResponse 404 (ErrorJson "User location not found" None))
     | u :: _ =>
         businesses <-
           select_nearby_businesses e (PNum (fst u)) (PNum (snd u))
             (PNum (fst u)) (PNum (radius_or radius (10 # 1)))
             (limit_or limit 20) ;;
         ret (mkResponse 200 (Businesses businesses))
     end)
    (fun _ =>
       ret (mkResponse 500
              (ErrorJson "Failed to retrieve nearby businesses" None))).

(** [app.get("/api/recommendations", authenticateToken, ...)] *)
Definition get_recommendations (e : Env) (userId : Z) (limit : option string)
  : Js Response :=
  try_catch
    (userPreferences <- select_preferences e userId ;;
     match userPreferences with
     | [] => ret (mkResponse 404 (ErrorJson "User preferences not found" None))
     | clusterId :: _ =>
         userLocations <- select_current_location e userId ;;
         recommendations <-
           select_recommendations e clusterId userId userLocations
             (limit_or limit 10) ;;
         ret (mkResponse 200 (Recommendations recommendations))
     end)
    (fun _ =>
       ret (mkResponse 500 (ErrorJson "Failed to retrieve recommendations" None))).

(** [locationResults.map((loc) => ({ ..., is_current: true }))] *)
Definition to_model (r : HeatmapRow) : LocationModel :=
  let l := hr_location r in
  mkModel (location_id l) (latitude l) (longitude l) (city l) (state l)
    (country l) (postal_code l) (hr_timestamp r) true.

(** [app.get("/api/user/heatmap", authenticateToken, ...)]; the parameters
    are [[userLat, userLng, userLat, radius]]. *)
Definition get_user_heatmap (e : Env) (userId : Z) (radius : option Q)
  : Js Response :=
  try_catch
    (userLocation <- select_current_location e userId ;;
     match userLocation with
     | [] =>
         ret (mkResponse 200
                (HeatmapJson [] 0 None (Some "No location data available")))
     | u :: _ =>
         locationResults <-
           select_heatmap e (PNum (fst u)) (PNum (snd u)) (PNum (fst u))
             (PNum (radius_or radius (10 # 1))) ;;
         let locs := map to_model locationResults in
         ret (mkResponse 200 (HeatmapJson locs (List.length locs) (Some u) None))
     end)
    (fun _ =>
       ret (mkResponse 500 (ErrorJson "Failed to retrieve heatmap data" None))).

(* ===================================================================== *)
(** * Sequences of update requests                                         *)
(* ===================================================================== *)

(** The number of rows of [user_locations] that are current for a user. *)
Definition count_current (userId : Z) (rows : list UserLocationRow) : nat :=
  List.length
    (filter (fun r => (ul_user_id r =? userId)%Z && is_current r) rows).

(** A location update as one of the two endpoints receives it. *)
Inductive Call : Type :=
| AppUpdate (e : Env) (userId : Z) (body : LocationBody)
| RouteUpdate (e : Env) (user_id : option Z) (body : LocationBody).

Definition call (sch : Schema) (c : Call) : Js Response :=
  match c with
  | AppUpdate e userId body => post_user_location sch e userId body
  | RouteUpdate e user_id body => router_post_location sch e user_id body
  end.

Definition call_user (c : Call) : option Z :=
  match c with
  | AppUpdate _ userId _ => Some userId
  | RouteUpdate _ user_id _ => user_id
  end.

(** The update was reported successful: status 201. *)
Definition succeeded (o : Outcome Response) : bool :=
  match o with
  | Returned r => (status r =? 201)%nat
  | Thrown _ => false
  end.

(** The requests are served one after the other. *)
Fixpoint run_calls (sch : Schema) (cs : list Call) (w : World)
  : list (Outcome Response) * World :=
  match cs with
  | [] => ([], w)
  | c :: rest =>
      let (o, w1) := call sch c w in
      let (os, w2) := run_calls sch rest w1 in
      (o :: os, w2)
  end.



(* ===================================================================== *)
(** * Predicates of the specification                                      *)
(* ===================================================================== *)

(** The specification's ordering of the mirror write: every invocation of
    [upsertUserLocation] in a journal comes after a commit. *)
Definition mirror_after_commit (ops : list Op) : Prop :=
  forall before after,
    ops = before ++ CallUpsertUserLocation :: after -> In MyCommit before.

(** The response of the coordinate check of both update endpoints. *)
Definition validation_error : Response :=
  mkResponse 400 (ErrorJson "Latitude and longitude are required" None).

(** A field that is absent, [null] or empty. *)
Definition missing (v : JsVal) : bool :=
  match v with
  | JUndefined | JNull => true
  | JString s => String.eqb s ""
  | _ => false
  end.

(** A finite number other than zero. *)
Definition nonzero_number (v : JsVal) : bool :=
  match v with
  | JNumber (DNum q) => negb (Qeq_bool q 0)
  | _ => false
  end.

(** A text that is not empty. *)
Definition nonempty_text (v : JsVal) : bool :=
  match v with
  | JString s => negb (String.eqb s "")
  | _ => false
  end.


(** Rows in descending order of a rational key. *)
Definition descending {A : Type} (key : A -> Q) (rows : list A) : Prop :=
  StronglySorted (fun a b => (key b <= key a)%Q) rows.

(** A candidate of the recommendations: a business of the cluster, with its
    location, that the user has not liked. *)
Definition candidate (clusterId userId : Z) (t : Tables) (c : BusinessColumns)
  : Prop :=
  exists b l,
    In b (businesses t) /\ In l (locations t)
    /\ b_location_id b = location_id l /\ c = columns_of b l
    /\ cluster_id b = clusterId
    /\ forall k, In k (user_business_likes t) -> like_user_id k = userId ->
                 like_business_id k <> business_id b.

(** What the query keeps for the parameters [p1] (bound to [b.cluster_id =
    ?]) and [p2] (bound to [user_id = ?]), whatever they are. *)
Definition kept_for (p1 p2 : SqlParam) (t : Tables) (c : BusinessColumns)
  : Prop :=
  exists b l,
    In b (businesses t) /\ In l (locations t)
    /\ b_location_id b = location_id l /\ c = columns_of b l
    /\ int_equals (cluster_id b) p1 = true
    /\ forall k, In k (user_business_likes t) ->
                 int_equals (like_user_id k) p2 = true ->
                 like_business_id k <> business_id b.


(* ===================================================================== *)
(** * Sample data                                                          *)
(* ===================================================================== *)

(** Numeric columns that keep a finite number as it is and reject the rest. *)
Definition exact_column (v : JsVal) : option Q :=
  match v with
  | JNumber (DNum q) => Some q
  | _ => None
  end.

Definition exact_schema : Schema := mkSchema exact_column exact_column.

Definition no_tables : Tables := mkTables [] [] [] [] [].

Definition fresh_world : World := mkWorld no_tables None 1 1 [] [].

(** The values of the C library on the arguments that occur in the examples
    of this file, as glibc returns them on x86-64 (in hexadecimal, exact).
    The cosine is even.  At an argument that is not listed the sample answers
    NaN, which the server would refuse as out of range. *)
Fixpoint measured (table : list (float * float)) (x : float) : float :=
  match table with
  | [] => nan
  | (argument, value) :: rest =>
      if (argument =? x)%float then value else measured rest x
  end.

Definition cos_samples : list (float * float) :=
  [(0x0p+0, 0x1p+0);
   (0x1.6e05a695f8000p-12, 0x1.fffffdf4abd7ep-1);
   (0x1.1df46a2529d38p-6, 0x1.ffec097f5af8ap-1);
   (0x1.1df46a2529d40p-6, 0x1.ffec097f5af8ap-1);
   (0x1.f46bb9c109324p-4, 0x1.fc2f025a23e8bp-1);
   (0x1.657184ae74487p-3, 0x1.f838b8c811c17p-1);
   (0x1.acee9f37bebd6p-3, 0x1.f4cfc327a0080p-1);
   (0x1.657184ae74487p-1, 0x1.8836fa2cf5039p-1);
   (0x1.65e3e6728325fp-1, 0x1.87ed6a6f2dfa4p-1);
   (0x1.6e6127ff9d971p-1, 0x1.82694b4a11c37p-1)]%float.

Definition sin_samples : list (float * float) :=
  [(0x1.41b2f769cf0e0p-3, 0x1.4060b67a85375p-3);
   (0x1.657184ae74487p-3, 0x1.63a1a7e0b7389p-3);
   (0x1.acee9f37bebd6p-3, 0x1.a9cd9ac4258f6p-3);
   (0x1.657184ae74487p-1, 0x1.491b7523c161cp-1);
   (0x1.65e3e6728325fp-1, 0x1.49730c0ee6e6ep-1);
   (0x1.6e6127ff9d971p-1, 0x1.4fe6f81384fd4p-1)]%float.

Definition acos_samples : list (float * float) :=
  [(0x1.ffe07ee7f1fcap-1, 0x1.673b0d15acdcdp-6);
   (0x1.fffff20651932p-1, 0x1.de8281cf25101p-11);
   (0x1.fffffffffffffp-1, 0x1p-26)]%float.

Definition sample_libm : Libm :=
  mkLibm (fun x => measured cos_samples (abs x)) (measured sin_samples)
    (measured acos_samples).

Definition no_faults : Env := mkEnv (fun _ => false) 0 sample_libm.

Definition commit_fails : Env := mkEnv (Op_eqb MyCommit) 0 sample_libm.

Definition mirror_down : Env :=
  mkEnv (Op_eqb PgSelectUserLocation) 0 sample_libm.

Definition coordinates (lat lon : JsVal) : LocationBody :=
  mkBody lat lon None None None None.

Definition num (q : Q) : JsVal := JNumber (DNum q).

(** A user at (40, -75) whose position is the only row of the store. *)
Definition one_user_tables : Tables :=
  mkTables
    [mkLocation 1 (40 # 1) (-75 # 1) None None None None]
    [mkUserLocation 1 5 1 true 0]
    [] [] [].

Definition one_user_world : World := mkWorld one_user_tables None 2 2 [] [].

(** The same user, and two businesses at the user's own position. *)
Definition two_shops_tables : Tables :=
  mkTables
    [mkLocation 1 (40 # 1) (-75 # 1) None None None None]
    [mkUserLocation 1 5 1 true 0]
    [mkBusiness 1 "Cafe" "Coffee" "cafe" (45 # 10) 1 3;
     mkBusiness 2 "Diner" "Food" "restaurant" (40 # 10) 1 3]
    [mkPreference 5 3]
    [mkLike 5 2].

Definition two_shops_world : World := mkWorld two_shops_tables None 2 2 [] [].

(** The same user in a town with a bakery some 5.8 km away, a cafe at the
    user's own coordinates and a diner some 140 km away; user 6 is at the
    bakery, having been at the diner before, and user 9 is at the diner. *)
Definition town_tables : Tables :=
  mkTables
    [mkLocation 1 (40 # 1) (-75 # 1) None None None None;
     mkLocation 2 (4005 # 100) (-7502 # 100) None None None None;
     mkLocation 3 (40 # 1) (-75 # 1) None None None None;
     mkLocation 4 (41 # 1) (-74 # 1) None None None None]
    [mkUserLocation 1 6 4 false 0;
     mkUserLocation 2 9 4 true 1;
     mkUserLocation 3 6 2 true 2;
     mkUserLocation 4 5 1 true 3]
    [mkBusiness 1 "Bakery" "Bread" "bakery" (47 # 10) 2 3;
     mkBusiness 2 "Cafe" "Coffee" "cafe" (45 # 10) 3 3;
     mkBusiness 3 "Diner" "Food" "restaurant" (40 # 10) 4 3]
    [] [].

Definition town_world : World := mkWorld town_tables None 5 5 [] [].

(** A user of cluster 7 at latitude 9 and longitude 3, who has liked the
    kiosk, a business of cluster 3; the bar is of cluster 7. *)
Definition drift_tables : Tables :=
  mkTables
    [mkLocation 1 (9 # 1) (3 # 1) None None None None;
     mkLocation 2 (10 # 1) (4 # 1) None None None None]
    [mkUserLocation 1 5 1 true 0]
    [mkBusiness 1 "Kiosk" "Papers" "shop" (41 # 10) 2 3;
     mkBusiness 2 "Bar" "Drinks" "bar" (44 # 10) 2 7]
    [mkPreference 5 7]
    [mkLike 5 1].

Definition drift_world : World := mkWorld drift_tables None 3 2 [] [].

(** A user at (12, 77) whose position is the only row of the store. *)
Definition south_tables : Tables :=
  mkTables
    [mkLocation 1 (12 # 1) (77 # 1) None None None None]
    [mkUserLocation 1 8 1 true 0]
    [] [] [].

Definition south_world : World := mkWorld south_tables None 2 2 [] [].

(** The scenario of the specification: a user of cluster 3 with no position,
    and three candidates rated 4.8, 3.2 and 4.9. *)
Definition scenario_tables : Tables :=
  mkTables
    [mkLocation 1 (40 # 1) (-75 # 1) None None None None;
     mkLocation 2 (41 # 1) (-74 # 1) None None None None;
     mkLocation 3 (42 # 1) (-73 # 1) None None None None]
    []
    [mkBusiness 1 "A" "a" "cafe" (48 # 10) 1 3;
     mkBusiness 2 "B" "b" "cafe" (32 # 10) 2 3;
     mkBusiness 3 "C" "c" "cafe" (49 # 10) 3 3]
    [mkPreference 7 3]
    [].

Definition scenario_world : World := mkWorld scenario_tables None 4 1 [] [].


(** An update through the mirroring route whose commit fails. *)
Definition failed_commit_run : Outcome Response * World :=
  router_post_location exact_schema commit_fails (Some 5%Z)
    (coordinates (num (40 # 1)) (num (-75 # 1))) fresh_world.

(** The world after a request that the coordinate check turned away: the
    connection was released (by the check, and again by [finally]) and
    nothing else happened. *)
Definition turned_away (w : World) : World :=
  mkWorld (committed w) (pending w) (next_location_id w)
    (next_user_location_id w) (geo w) (journal w ++ [MyRelease; MyRelease]).

(** A handler passes the coordinate check: its response is not the check's,
    and the first thing it does is to open the transaction. *)
Definition passes_validation (h : Js Response) (w : World) : Prop :=
  fst (h w) <> Returned validation_error
  /\ exists rest, journal (snd (h w)) = journal w ++ MyBeginTransaction :: rest.

(* ===================================================================== *)
(** * Further handlers of the server                                       *)
(* ===================================================================== *)

(** The body and the environment of an update request. *)
Definition call_body (c : Call) : LocationBody :=
  match c with
  | AppUpdate _ _ body => body
  | RouteUpdate _ _ body => body
  end.

Definition call_env (c : Call) : Env :=
  match c with
  | AppUpdate e _ _ => e
  | RouteUpdate e _ _ => e
  end.

(** The status of a response, when there is one. *)
Definition status_of (o : Outcome Response) : option nat :=
  match o with
  | Returned r => Some (status r)
  | Thrown _ => None
  end.

(** The JSON bodies of the handlers below: [{ error }], [{ message }], or the
    data itself. *)
Inductive Json (A : Type) : Type :=
| JsonError (error : string)
| JsonMessage (message : string)
| JsonData (data : A).

Arguments JsonError {A} error.
Arguments JsonMessage {A} message.
Arguments JsonData {A} data.

Record Reply (A : Type) : Type := mkReply {
  reply_status : nat;
  reply_body : Json A
}.

(** [pool.query] for a statement the journal has no name for: [fails] says
    whether the store raises; a statement that fails has no effect. *)
Definition pool_query {A : Type} (fails : bool) (run : Js A) : Js A :=
  fun w => if fails then (Thrown "store failure", w) else run w.

(** The pool's connections are in autocommit mode: a write is committed at
    once. *)
Definition set_committed (t : Tables) (w : World) : World :=
  mkWorld t (pending w) (next_location_id w) (next_user_location_id w)
    (geo w) (journal w).

Definition set_likes (l : list UserBusinessLikeRow) (t : Tables) : Tables :=
  mkTables (locations t) (user_locations t) (businesses t)
    (user_preferences t) l.

(** ** [app.get("/api/user/location", authenticateToken, ...)] *)

(** [SELECT l.location_id, l.latitude, l.longitude, l.city, l.state,
    l.country, l.postal_code FROM user_locations ul JOIN locations l ON
    ul.location_id = l.location_id WHERE ul.user_id = ? AND
    ul.is_current = TRUE] *)
Definition current_location_records (userId : Z) (t : Tables)
  : list LocationRow :=
  map snd
    (filter (fun r => (ul_user_id (fst r) =? userId)%Z && is_current (fst r))
       (join_locations ul_location_id (user_locations t) (locations t))).

Definition get_user_location (e : Env) (userId : Z) : Js (Reply LocationRow) :=
  try_catch
    (locs <-
       attempt e MySelectCurrentLocation
         (fun w => (Returned (current_location_records userId (committed w)), w)) ;;
     match locs with
     | [] => ret (mkReply 404 (JsonError "Current location not found"))
     | l :: _ => ret (mkReply 200 (JsonData l))
     end)
    (fun _ => ret (mkReply 500 (JsonError "Failed to retrieve location"))).

(** ** Friendships

    The column [status] holds one of the three words the server writes. *)
Inductive FriendshipStatus : Type :=
| Pending
| Accepted
| Rejected.

Record FriendshipRow : Type := mkFriendship {
  friendship_id : Z;
  user_id_1 : Z;
  user_id_2 : Z;
  f_status : FriendshipStatus
}.

Definition is_pending (s : FriendshipStatus) : bool :=
  match s with
  | Pending => true
  | _ => false
  end.

Definition is_accepted (s : FriendshipStatus) : bool :=
  match s with
  | Accepted => true
  | _ => false
  end.

(** [const { status } = req.body] passes
    [!status || !["accepted", "rejected"].includes(status)] exactly when it is
    one of the two words. *)
Definition requested_status (v : JsVal) : option FriendshipStatus :=
  match v with
  | JString "accepted" => Some Accepted
  | JString "rejected" => Some Rejected
  | _ => None
  end.

Definition status_word (s : FriendshipStatus) : string :=
  match s with
  | Pending => "pending"
  | Accepted => "accepted"
  | Rejected => "rejected"
  end.

(** [SELECT * FROM friendships WHERE friendship_id = ? AND user_id_2 = ? AND
    status = 'pending'] *)
Definition pending_requests (friendshipId userId : Z)
    (fs : list FriendshipRow) : list FriendshipRow :=
  filter
    (fun f =>
       (friendship_id f =? friendshipId)%Z && (user_id_2 f =? userId)%Z
       && is_pending (f_status f))
    fs.

Definition set_status (friendshipId : Z) (s : FriendshipStatus)
    (f : FriendshipRow) : FriendshipRow :=
  if (friendship_id f =? friendshipId)%Z
  then mkFriendship (friendship_id f) (user_id_1 f) (user_id_2 f) s
  else f.

(** [app.put("/api/friends/request/:friendshipId", authenticateToken, ...)]:
    the handler reads and writes the table [friendships] only, so it is a
    function of that table; [select_fails] and [update_fails] say which of its
    two statements the store fails.  The message of a success is
    [`Friend request ${status}`]. *)
Definition put_friend_request (select_fails update_fails : bool)
    (userId friendshipId : Z) (status_field : JsVal) (fs : list FriendshipRow)
  : Reply unit * list FriendshipRow :=
  match requested_status status_field with
  | None =>
      (mkReply 400
         (JsonError "Valid status (accepted or rejected) is required"), fs)
  | Some s =>
      if select_fails
      then (mkReply 500 (JsonError "Failed to respond to friend request"), fs)
      else
        match pending_requests friendshipId userId fs with
        | [] => (mkReply 404 (JsonError "Pending friend request not found"), fs)
        | _ :: _ =>
            if update_fails
            then (mkReply 500 (JsonError "Failed to respond to friend request"),
                  fs)
            else
              (mkReply 200
                 (JsonMessage
                    (match s with
                     | Accepted => "Friend request accepted"
                     | _ => "Friend request rejected"
                     end)),
               map (set_status friendshipId s) fs)
        end
  end.

(** [SELECT * FROM friendships WHERE ((user_id_1 = ? AND user_id_2 = ?) OR
    (user_id_1 = ? AND user_id_2 = ?)) AND status = 'accepted'] with the
    parameters [userId, friendId, friendId, userId]. *)
Definition accepted_friendships (userId friendId : Z)
    (fs : list FriendshipRow) : list FriendshipRow :=
  filter
    (fun f =>
       (((user_id_1 f =? userId)%Z && (user_id_2 f =? friendId)%Z)
        || ((user_id_1 f =? friendId)%Z && (user_id_2 f =? userId)%Z))
       && is_accepted (f_status f))
    fs.

(** [SELECT l.location_id, ..., l.postal_code, ul.timestamp FROM
    user_locations ul JOIN locations l ... WHERE ul.user_id = ? AND
    ul.is_current = TRUE] *)
Definition friend_location_records (friendId : Z) (t : Tables)
  : list (LocationRow * nat) :=
  map (fun r => (snd r, timestamp (fst r)))
    (filter (fun r => (ul_user_id (fst r) =? friendId)%Z && is_current (fst r))
       (join_locations ul_location_id (user_locations t) (locations t))).

(** [app.get("/api/friends/:id/location", authenticateToken, ...)], given the
    table [friendships] as it stands. *)
Definition get_friend_location (e : Env) (friendships_fail : bool)
    (fs : list FriendshipRow) (userId friendId : Z)
  : Js (Reply (LocationRow * nat)) :=
  try_catch
    (friendships <-
       pool_query friendships_fail
         (fun w => (Returned (accepted_friendships userId friendId fs), w)) ;;
     match friendships with
     | [] =>
         ret (mkReply 403
                (JsonError "Not authorized to view this user's location"))
     | _ :: _ =>
         locs <-
           attempt e MySelectCurrentLocation
             (fun w =>
                (Returned (friend_location_records friendId (committed w)), w)) ;;
         match locs with
         | [] => ret (mkReply 404 (JsonError "Friend's location not found"))
         | l :: _ => ret (mkReply 200 (JsonData l))
         end
     end)
    (fun _ =>
       ret (mkReply 500 (JsonError "Failed to retrieve friend's location"))).

(** ** Likes

    A row of [user_business_likes] is carried as its pair of user and
    business. *)
Record LikeFaults : Type := mkLikeFaults {
  select_business_fails : bool;
  select_like_fails : bool;
  insert_like_fails : bool
}.

Definition same_like (userId businessId : Z) (k : UserBusinessLikeRow) : bool :=
  (like_user_id k =? userId)%Z && (like_business_id k =? businessId)%Z.

(** [app.post("/api/business/:id/like", authenticateToken, ...)] *)
Definition post_business_like (f : LikeFaults) (userId businessId : Z)
  : Js (Reply unit) :=
  try_catch
    (found <-
       pool_query (select_business_fails f)
         (fun w =>
            (Returned
               (filter (fun b => (business_id b =? businessId)%Z)
                  (businesses (committed w))), w)) ;;
     match found with
     | [] => ret (mkReply 404 (JsonError "Business not found"))
     | _ :: _ =>
         existingLikes <-
           pool_query (select_like_fails f)
             (fun w =>
                (Returned
                   (filter (same_like userId businessId)
                      (user_business_likes (committed w))), w)) ;;
         match existingLikes with
         | _ :: _ => ret (mkReply 409 (JsonError "Business already liked"))
         | [] =>
             pool_query (insert_like_fails f)
               (fun w =>
                  (Returned tt,
                   set_committed
                     (set_likes
                        (user_business_likes (committed w)
                         ++ [mkLike userId businessId])
                        (committed w))
                     w)) ;;;
             ret (mkReply 201 (JsonMessage "Business liked successfully"))
         end
     end)
    (fun _ => ret (mkReply 500 (JsonError "Failed to like business"))).

(** [app.delete("/api/business/:id/like", authenticateToken, ...)]: the
    statement is [DELETE FROM user_business_likes WHERE user_id = ? AND
    business_id = ?], and [result.affectedRows] the number of rows it
    deleted. *)
Definition delete_business_like (delete_fails : bool) (userId businessId : Z)
  : Js (Reply unit) :=
  try_catch
    (affectedRows <-
       pool_query delete_fails
         (fun w =>
            let likes := user_business_likes (committed w) in
            (Returned
               (List.length (filter (same_like userId businessId) likes)),
             set_committed
               (set_likes
                  (filter (fun k => negb (same_like userId businessId k)) likes)
                  (committed w))
               w)) ;;
     if (affectedRows =? 0)%nat
     then ret (mkReply 404 (JsonError "Like not found"))
     else ret (mkReply 200 (JsonMessage "Business unliked successfully")))
    (fun _ => ret (mkReply 500 (JsonError "Failed to unlike business"))).

(** ** [restrictByIP] *)

(** What the middleware reads of a request.  [req.connection.socket] is
    usually not there: reading [remoteAddress] of it then raises. *)
Record IpRequest : Type := mkIpRequest {
  req_ip : option string;
  req_connection_remoteAddress : option string;
  req_socket_remoteAddress : option string;
  req_connection_socket : option (option string)
}.

(** A string that is there and not empty. *)
Definition truthy_text (s : option string) : bool :=
  match s with
  | Some t => negb (String.eqb t "")
  | None => false
  end.

(** [req.ip || req.connection.remoteAddress || req.socket.remoteAddress ||
    req.connection.socket.remoteAddress] *)
Definition clientIP (r : IpRequest) : Outcome (option string) :=
  if truthy_text (req_ip r) then Returned (req_ip r)
  else if truthy_text (req_connection_remoteAddress r)
  then Returned (req_connection_remoteAddress r)
  else if truthy_text (req_socket_remoteAddress r)
  then Returned (req_socket_remoteAddress r)
  else
    match req_connection_socket r with
    | Some address => Returned address
    | None => Thrown "Cannot read properties of undefined"
    end.

(** What the middleware does with the request. *)
Inductive Gate : Type :=
| Next
| Denied (code : nat) (error : string)
| Raised (message : string).

(** [restrictByIP(allowedIPs)]: [clientIP.startsWith(ip)] raises when
    [clientIP] is [undefined]. *)
Definition restrictByIP (allowedIPs : list string) (r : IpRequest) : Gate :=
  match clientIP r with
  | Thrown message => Raised message
  | Returned (Some ip) =>
      if existsb (String.eqb ip) allowedIPs
         || existsb (fun allowed => String.prefix allowed ip) allowedIPs
      then Next
      else Denied 403 "Access denied"
  | Returned None =>
      match allowedIPs with
      | [] => Denied 403 "Access denied"
      | _ :: _ => Raised "Cannot read properties of undefined"
      end
  end.

(** The list the server installs. *)
Definition allowedIPs : list string := ["127.0.0.1"; "::1"; "192.168.1."].

(** ** Sending a friend request *)

(** The table [friendships] with its AUTO_INCREMENT counter. *)
Record FriendStore : Type := mkFriendStore {
  friendships : list FriendshipRow;
  next_friendship_id : Z
}.

(** The answers of the handler: 201 with the identifier of the request, or
    a refusal; a 409 also carries the status of the friendship found. *)
Inductive FriendRequestReply : Type :=
| RequestSent (friendship_id : Z)
| RequestRefused (code : nat) (error : string)
    (existing : option FriendshipStatus).

Record FriendRequestFaults : Type := mkFriendRequestFaults {
  find_user_fails : bool;
  find_friendship_fails : bool;
  insert_friendship_fails : bool
}.

(** [(user_id_1 = ? AND user_id_2 = ?) OR (user_id_1 = ? AND user_id_2 = ?)]
    with the parameters [a, b, b, a]. *)
Definition between (a b : Z) (f : FriendshipRow) : bool :=
  ((user_id_1 f =? a)%Z && (user_id_2 f =? b)%Z)
  || ((user_id_1 f =? b)%Z && (user_id_2 f =? a)%Z).

(** [app.post("/api/friends/request", authenticateToken, ...)].  The table
    [users] is not modelled: [find_user name] stands for the rows of
    [SELECT user_id FROM users WHERE username = ?]. *)
Definition post_friend_request (faults : FriendRequestFaults)
    (find_user : string -> list Z) (userId : Z) (friendUsername : option string)
    (s : FriendStore) : FriendRequestReply * FriendStore :=
  match friendUsername with
  | Some name =>
      if String.eqb name ""
      then (RequestRefused 400 "Friend username is required" None, s)
      else if find_user_fails faults
      then (RequestRefused 500 "Internal server error" None, s)
      else
        match find_user name with
        | [] => (RequestRefused 404 "User not found" None, s)
        | friendId :: _ =>
            if (userId =? friendId)%Z
            then (RequestRefused 400 "Cannot send friend request to yourself"
                    None, s)
            else if find_friendship_fails faults
            then (RequestRefused 500 "Internal server error" None, s)
            else
              match filter (between userId friendId) (friendships s) with
              | found :: _ =>
                  (RequestRefused 409 "Friendship already exists"
                     (Some (f_status found)), s)
              | [] =>
                  if insert_friendship_fails faults
                  then (RequestRefused 500 "Internal server error" None, s)
                  else
                    (RequestSent (next_friendship_id s),
                     mkFriendStore
                       (friendships s
                        ++ [mkFriendship (next_friendship_id s) userId friendId
                              Pending])
                       (next_friendship_id s + 1)%Z)
              end
        end
  | None => (RequestRefused 400 "Friend username is required" None, s)
  end.

(** ** Survey submission *)

(** An element of [responses]: an object (or any value whose properties can
    be read), or [null]/[undefined], whose properties cannot. *)
Inductive ResponseItem : Type :=
| ResponseObject (questionId answer : JsVal)
| ResponseNullish.

(** The field [responses] of the body: an array, or anything else. *)
Inductive ResponsesField : Type :=
| ResponsesArray (items : list ResponseItem)
| NotAnArray.

(** A row of [initial_survey_responses], with the values as they were
    bound. *)
Record SurveyResponseRow : Type := mkSurveyResponse {
  sr_user_id : Z;
  sr_question_id : JsVal;
  sr_answer : JsVal
}.

(** The two tables the handler writes. *)
Record SurveyStore : Type := mkSurveyStore {
  survey_responses : list SurveyResponseRow;
  survey_preferences : list UserPreferenceRow
}.

(** The two tables as committed, and as the connection that holds the open
    transaction sees them. *)
Record SurveyWorld : Type := mkSurveyWorld {
  survey_committed : SurveyStore;
  survey_pending : option SurveyStore
}.

(** Which statements the store fails; [insert_response_fails i] is about the
    insertion of the [i]-th response. *)
Record SurveyFaults : Type := mkSurveyFaults {
  survey_connection_fails : bool;
  survey_begin_fails : bool;
  insert_response_fails : nat -> bool;
  select_preference_fails : bool;
  write_preference_fails : bool;
  survey_commit_fails : bool
}.

Definition survey_view (w : SurveyWorld) : SurveyStore :=
  match survey_pending w with
  | Some s => s
  | None => survey_committed w
  end.

Definition survey_write (s : SurveyStore) (w : SurveyWorld) : SurveyWorld :=
  match survey_pending w with
  | Some _ => mkSurveyWorld (survey_committed w) (Some s)
  | None => mkSurveyWorld s None
  end.

(** An awaited operation of the connection: it fails as the faults say,
    leaving the tables as they were, or runs. *)
Definition survey_query {A : Type} (fails : bool) (run : Run SurveyWorld A)
  : Run SurveyWorld A :=
  fun w => if fails then (Thrown "store failure", w) else run w.

(** [pool.getConnection()] *)
Definition survey_connection (f : SurveyFaults) : Run SurveyWorld unit :=
  survey_query (survey_connection_fails f) (ret tt).

(** [connection.beginTransaction()] *)
Definition survey_begin (f : SurveyFaults) : Run SurveyWorld unit :=
  survey_query (survey_begin_fails f)
    (fun w =>
       (Returned tt,
        mkSurveyWorld (survey_committed w) (Some (survey_committed w)))).

(** [INSERT INTO initial_survey_responses (user_id, question_id, answer)
    VALUES (?, ?, ?)] with [[userId, response.questionId, response.answer]]:
    reading a property of [null] or [undefined] throws. *)
Definition insert_response (f : SurveyFaults) (userId : Z) (i : nat)
    (item : ResponseItem) : Run SurveyWorld unit :=
  match item with
  | ResponseNullish => throw "Cannot read properties of null"
  | ResponseObject q a =>
      survey_query (insert_response_fails f i)
        (fun w =>
           let s := survey_view w in
           (Returned tt,
            survey_write
              (mkSurveyStore
                 (survey_responses s ++ [mkSurveyResponse userId q a])
                 (survey_preferences s))
              w))
  end.

(** [for (const response of responses) { await connection.query(...) }] *)
Fixpoint insert_responses (f : SurveyFaults) (userId : Z) (i : nat)
    (items : list ResponseItem) : Run SurveyWorld unit :=
  match items with
  | [] => ret tt
  | item :: rest =>
      insert_response f userId i item ;;;
      insert_responses f userId (S i) rest
  end.

(** [SELECT preference_id FROM user_preferences WHERE user_id = ?] *)
Definition select_preference_ids (f : SurveyFaults) (userId : Z)
  : Run SurveyWorld (list UserPreferenceRow) :=
  survey_query (select_preference_fails f)
    (fun w =>
       (Returned
          (filter (fun p => (up_user_id p =? userId)%Z)
             (survey_preferences (survey_view w))),
        w)).

Definition set_cluster (userId clusterId : Z) (p : UserPreferenceRow)
  : UserPreferenceRow :=
  if (up_user_id p =? userId)%Z then mkPreference (up_user_id p) clusterId else p.

Definition set_preferences (prefs : list UserPreferenceRow) (w : SurveyWorld)
  : SurveyWorld :=
  survey_write (mkSurveyStore (survey_responses (survey_view w)) prefs) w.

(** [UPDATE user_preferences SET cluster_id = ? WHERE user_id = ?] *)
Definition update_preference (f : SurveyFaults) (userId clusterId : Z)
  : Run SurveyWorld unit :=
  survey_query (write_preference_fails f)
    (fun w =>
       (Returned tt,
        set_preferences
          (map (set_cluster userId clusterId)
             (survey_preferences (survey_view w)))
          w)).

(** [INSERT INTO user_preferences (user_id, cluster_id) VALUES (?, ?)] *)
Definition insert_preference (f : SurveyFaults) (userId clusterId : Z)
  : Run SurveyWorld unit :=
  survey_query (write_preference_fails f)
    (fun w =>
       (Returned tt,
        set_preferences
          (survey_preferences (survey_view w) ++ [mkPreference userId clusterId])
          w)).

(** [connection.commit()] *)
Definition survey_commit (f : SurveyFaults) : Run SurveyWorld unit :=
  survey_query (survey_commit_fails f)
    (fun w => (Returned tt, mkSurveyWorld (survey_view w) None)).

(** [connection.rollback()]; taken not to fail. *)
Definition survey_rollback : Run SurveyWorld unit :=
  fun w => (Returned tt, mkSurveyWorld (survey_committed w) None).

(** [connection.release()] *)
Definition survey_release : Run SurveyWorld unit := ret tt.

Definition survey_failed : Reply unit :=
  mkReply 500 (JsonError "Failed to submit survey responses").

Definition survey_refused : Reply unit :=
  mkReply 400 (JsonError "Valid responses and clusterId are required").

(** [app.post("/api/survey/submit", authenticateToken, ...)] on the two
    tables it writes.  [clusterId] is [None] when the body has none; the
    number 0 is falsy. *)
Definition post_survey_submit (f : SurveyFaults) (userId : Z)
    (responses : ResponsesField) (clusterId : option Z)
  : Run SurveyWorld (Reply unit) :=
  try_catch
    (match responses, clusterId with
     | ResponsesArray items, Some c =>
         if (c =? 0)%Z then ret survey_refused
         else
           survey_connection f ;;;
           survey_begin f ;;;
           try_finally
             (try_catch
                (insert_responses f userId 0 items ;;;
                 existingPrefs <- select_preference_ids f userId ;;
                 match existingPrefs with
                 | _ :: _ => update_preference f userId c
                 | [] => insert_preference f userId c
                 end ;;;
                 survey_commit f ;;;
                 ret (mkReply 201
                        (JsonMessage "Survey responses submitted successfully")))
                (fun message => survey_rollback ;;; throw message))
             survey_release
     | _, _ => ret survey_refused
     end)
    (fun _ => ret survey_failed).

(** ** The legacy feed *)

(** [app.get("/api/Quad-Update", restrictByIP(allowedIPs), ...)], once the
    filter has let the request through: [SELECT latitude, longitude FROM
    locations ORDER BY location_id], sent as [{ data: locations }]. *)
Definition get_quad_update (fails : bool) : Js (Reply (list (Q * Q))) :=
  try_catch
    (data <-
       pool_query fails
         (fun w =>
            (Returned
               (map (fun l => (latitude l, longitude l))
                  (order_by Z.leb location_id (locations (committed w)))),
             w)) ;;
     ret (mkReply 200 (JsonData data)))
    (fun _ => ret (mkReply 500 (JsonError "Failed to retrieve locations"))).

(** ** [authenticateToken] *)

(** [s.split(" ")]: the pieces between single spaces; [piece] is the piece
    being read. *)
Fixpoint split_on_space (s piece : string) : list string :=
  match s with
  | EmptyString => [piece]
  | String c rest =>
      if Ascii.eqb c " "%char
      then piece :: split_on_space rest EmptyString
      else split_on_space rest (piece ++ String c EmptyString)%string
  end.

(** What the middleware does: it hands the verified user to the handler, or
    answers itself. *)
Inductive AuthOutcome (User : Type) : Type :=
| Authenticated (user : User)
| Unauthenticated (code : nat) (error : string).

Arguments Authenticated {User} user.
Arguments Unauthenticated {User} code error.

(** [const token = authHeader && authHeader.split(" ")[1]] *)
Definition token_of (authHeader : option string) : option string :=
  match authHeader with
  | Some header =>
      if String.eqb header "" then Some header
      else nth_error (split_on_space header EmptyString) 1
  | None => None
  end.

(** [authenticateToken] of the server, where [jwt] is the [jsonwebtoken]
    module; [verify token] stands for [jwt.verify(token,
    process.env.JWT_SECRET, ...)], which is not part of the sources: [None]
    when it reports an error. *)
Definition authenticateToken {User : Type} (verify : string -> option User)
    (authHeader : option string) : AuthOutcome User :=
  if truthy_text (token_of authHeader)
  then
    match token_of authHeader with
    | Some token =>
        match verify token with
        | Some user => Authenticated user
        | None => Unauthenticated 403 "Invalid or expired token"
        end
    | None => Unauthenticated 401 "Authentication required"
    end
  else Unauthenticated 401 "Authentication required".

(** ** Predicates of the further properties *)

(** Every committed location has an identifier below the counter, as
    AUTO_INCREMENT keeps it. *)
Definition ids_below_counter (w : World) : Prop :=
  forall l, In l (locations (committed w)) ->
            (location_id l < next_location_id w)%Z.

(** The row is an accepted friendship of [a] and [b], in either direction. *)
Definition friends (a b : Z) (f : FriendshipRow) : Prop :=
  f_status f = Accepted
  /\ ((user_id_1 f = a /\ user_id_2 f = b)
      \/ (user_id_1 f = b /\ user_id_2 f = a)).

(** The pair of a like. *)
Definition like_pair (k : UserBusinessLikeRow) : Z * Z :=
  (like_user_id k, like_business_id k).

(** The status of a reply, when there is one. *)
Definition reply_code {A : Type} (o : Outcome (Reply A)) : option nat :=
  match o with
  | Returned r => Some (reply_status r)
  | Thrown _ => None
  end.

(** The two users of a friendship, the smaller identifier first. *)
Definition pair_of (f : FriendshipRow) : Z * Z :=
  (Z.min (user_id_1 f) (user_id_2 f), Z.max (user_id_1 f) (user_id_2 f)).

(** No row links a user to themselves, and no two rows link the same two
    users, in whichever direction. *)
Definition one_row_per_pair (fs : list FriendshipRow) : Prop :=
  NoDup (map pair_of fs) /\ forall f, In f fs -> user_id_1 f <> user_id_2 f.

(** What "create or update user preferences" leaves in the table: the
    cluster of the user's rows replaced when there is one, a row added
    otherwise. *)
Definition write_preference (userId clusterId : Z)
    (prefs : list UserPreferenceRow) : list UserPreferenceRow :=
  match filter (fun p => (up_user_id p =? userId)%Z) prefs with
  | _ :: _ => map (set_cluster userId clusterId) prefs
  | [] => prefs ++ [mkPreference userId clusterId]
  end.

(** A word: a text with no space in it. *)
Fixpoint no_space (s : string) : bool :=
  match s with
  | EmptyString => true
  | String c rest => negb (Ascii.eqb c " "%char) && no_space rest
  end.

(** ** Further sample data *)

(** A request from user 1 to user 2, still pending, and an accepted
    friendship of users 3 and 5. *)
Definition sample_friendships : list FriendshipRow :=
  [mkFriendship 1 1 2 Pending; mkFriendship 2 3 5 Accepted].

Definition likes_work : LikeFaults := mkLikeFaults false false false.

Definition from_address (ip : string) : IpRequest :=
  mkIpRequest (Some ip) None None None.

Definition requests_work : FriendRequestFaults :=
  mkFriendRequestFaults false false false.

(** The users table of the samples: "ann" is user 1, "bob" user 2. *)
Definition sample_users (name : string) : list Z :=
  if String.eqb name "ann" then [1%Z]
  else if String.eqb name "bob" then [2%Z]
  else [].

Definition sample_friend_store : FriendStore :=
  mkFriendStore sample_friendships 3.

(** A verifier that knows one token. *)
Definition sample_verify (token : string) : option Z :=
  if String.eqb token "t0k3n" then Some 5%Z else None.

Definition survey_works : SurveyFaults :=
  mkSurveyFaults false false (fun _ => false) false false false.

(** The store fails the insertion of the second response. *)
Definition second_insert_fails : SurveyFaults :=
  mkSurveyFaults false false (Nat.eqb 1) false false false.

Definition sample_survey_store : SurveyStore :=
  mkSurveyStore [mkSurveyResponse 5 (JNumber (DNum 1)) (JString "tea")]
    [mkPreference 5 3].

Definition sample_survey_world : SurveyWorld :=
  mkSurveyWorld sample_survey_store None.

Definition two_answers : ResponsesField :=
  ResponsesArray
    [ResponseObject (JNumber (DNum 1)) (JString "coffee");
     ResponseObject (JNumber (DNum 2)) (JString "jazz")].

(* ===================================================================== *)
(** * Facts about the SQL clauses                                          *)
(* ===================================================================== *)

Section OrderByFacts.
Variables (A K : Type).
Variable leb : K -> K -> bool.
Variable key : A -> K.
Hypothesis leb_total : forall x y, leb x y = false -> leb y x = true.
Hypothesis leb_trans :
  forall x y z, leb x y = true -> leb y z = true -> leb x z = true.

Let le_key (a b : A) : Prop := leb (key a) (key b) = true.

Lemma In_insert_row (a x : A) (l : list A) :
  In a (insert_row leb key x l) <-> a = x \/ In a l.
Proof.
  induction l as [|y rest IH]; simpl.
  - intuition.
  - destruct (leb (key x) (key y)); simpl; rewrite ?IH; intuition.
Qed.

Lemma In_order_by (a : A) (l : list A) :
  In a (order_by leb key l) <-> In a l.
Proof.
  induction l as [|x rest IH]; simpl; [reflexivity|].
  rewrite In_insert_row, IH. intuition.
Qed.

Lemma length_insert_row (x : A) (l : list A) :
  List.length (insert_row leb key x l) = S (List.length l).
Proof.
  induction l as [|y rest IH]; simpl; [reflexivity|].
  destruct (leb (key x) (key y)); simpl; [reflexivity | now rewrite IH].
Qed.

Lemma length_order_by (l : list A) :
  List.length (order_by leb key l) = List.length l.
Proof.
  induction l as [|x rest IH]; simpl; [reflexivity|].
  now rewrite length_insert_row, IH.
Qed.

Lemma Forall_order_by (P : A -> Prop) (l : list A) :
  Forall P l -> Forall P (order_by leb key l).
Proof.
  rewrite !Forall_forall. intros H a Ha. apply H. now apply In_order_by.
Qed.

Lemma insert_row_sorted (x : A) (l : list A) :
  StronglySorted le_key l -> StronglySorted le_key (insert_row leb key x l).
Proof.
  induction 1 as [|y rest Hs IH Hy]; simpl.
  - repeat constructor.
  - destruct (leb (key x) (key y)) eqn:Hxy.
    + constructor; [now constructor|].
      constructor; [exact Hxy|].
      rewrite Forall_forall in *. intros b Hb.
      unfold le_key. eapply leb_trans; [exact Hxy | now apply Hy].
    + constructor; [exact IH|].
      rewrite Forall_forall in *. intros b Hb.
      apply In_insert_row in Hb. destruct Hb as [->|Hb].
      * now apply leb_total.
      * now apply Hy.
Qed.

Lemma order_by_sorted (l : list A) :
  StronglySorted le_key (order_by leb key l).
Proof.
  induction l as [|x rest IH]; simpl; [constructor|].
  now apply insert_row_sorted.
Qed.

Lemma insert_row_Permutation (x : A) (l : list A) :
  Permutation (x :: l) (insert_row leb key x l).
Proof.
  induction l as [|y rest IH]; simpl; [reflexivity|].
  destruct (leb (key x) (key y)); [reflexivity|].
  rewrite perm_swap. now apply perm_skip.
Qed.

(** [ORDER BY] neither drops nor repeats a row. *)
Lemma order_by_Permutation (l : list A) :
  Permutation l (order_by leb key l).
Proof.
  induction l as [|x rest IH]; simpl; [reflexivity|].
  rewrite <- insert_row_Permutation. now apply perm_skip.
Qed.
End OrderByFacts.

Lemma StronglySorted_firstn {A : Type} (R : A -> A -> Prop) (n : nat)
    (l : list A) :
  StronglySorted R l -> StronglySorted R (firstn n l).
Proof.
  intros H. revert n. induction H as [|x rest Hs IH Hx]; intros [|n]; simpl;
    try constructor.
  - apply IH.
  - rewrite Forall_forall in *. intros b Hb. apply Hx.
    rewrite <- (firstn_skipn n rest). apply in_or_app. now left.
Qed.

Lemma StronglySorted_weaken {A : Type} (R S : A -> A -> Prop) (l : list A) :
  (forall a b, R a b -> S a b) -> StronglySorted R l -> StronglySorted S l.
Proof.
  intros HRS. induction 1 as [|x rest Hs IH Hx]; constructor; [exact IH|].
  eapply Forall_impl; [|exact Hx]. intros b. apply HRS.
Qed.

Lemma Forall_firstn_keeps {A : Type} (P : A -> Prop) (n : nat) (l : list A) :
  Forall P l -> Forall P (firstn n l).
Proof.
  rewrite !Forall_forall. intros H a Ha. apply H.
  rewrite <- (firstn_skipn n l). apply in_or_app. now left.
Qed.

(** ** Doubles

    The comparison and the arithmetic of doubles, from their
    specification. *)

Lemma not_nan_spec (x : float) : is_nan x = false -> Prim2SF x <> S754_nan.
Proof.
  unfold is_nan. rewrite eqb_spec. intros H E. rewrite E in H. discriminate.
Qed.

Lemma finite_not_nan (x : float) : is_finite x = true -> is_nan x = false.
Proof.
  unfold is_finite. intros H. apply negb_true_iff in H.
  apply orb_false_iff in H. tauto.
Qed.

Lemma SFcompare_swap (a b : spec_float) (c : comparison) :
  SFcompare a b = Some c -> SFcompare b a = Some (CompOpp c).
Proof.
  destruct a as [sa|sa| |sa ma ea], b as [sb|sb| |sb mb eb]; simpl;
    try discriminate;
    try (destruct sa); try (destruct sb); simpl;
    intros H; inversion H; subst; clear H; try reflexivity;
    rewrite (Z.compare_antisym ea eb);
    destruct (ea ?= eb)%Z; simpl; try reflexivity;
    rewrite !Pos.compare_cont_spec; simpl;
    rewrite (Pos.compare_antisym ma mb); destruct (ma ?= mb)%positive;
    reflexivity.
Qed.

Lemma SFcompare_some (a b : spec_float) :
  a <> S754_nan -> b <> S754_nan -> exists c, SFcompare a b = Some c.
Proof.
  destruct a, b; simpl; intros Ha Hb; try congruence; eauto.
Qed.

(** Two doubles that are numbers compare one way or the other. *)
Lemma float_leb_total (x y : float) :
  is_nan x = false -> is_nan y = false ->
  (x <=? y)%float = false -> (y <=? x)%float = true.
Proof.
  intros Hx Hy. apply not_nan_spec in Hx, Hy.
  rewrite !leb_spec. unfold SFleb.
  destruct (SFcompare_some Hx Hy) as [c Hc].
  rewrite Hc, (SFcompare_swap _ _ Hc).
  destruct c; simpl; congruence.
Qed.

Lemma SFleb_trans (a b c : spec_float) :
  SFleb a b = true -> SFleb b c = true -> SFleb a c = true.
Proof.
  unfold SFleb.
  destruct a as [sa|sa| |sa ma ea], b as [sb|sb| |sb mb eb],
    c as [sc|sc| |sc mc ec]; simpl; try discriminate; try reflexivity;
    repeat match goal with s : bool |- _ => destruct s end; simpl;
    try discriminate; try reflexivity;
    rewrite ?Pos.compare_cont_spec; simpl; unfold Pos.switch_Eq;
    repeat match goal with
      | |- context [(?x ?= ?y)%Z] => destruct (Z.compare_spec x y)
      | |- context [(?x ?= ?y)%positive] => destruct (Pos.compare_spec x y)
      end; simpl; try discriminate; try reflexivity; intros; try lia.
Qed.

Lemma float_leb_trans (x y z : float) :
  (x <=? y)%float = true -> (y <=? z)%float = true -> (x <=? z)%float = true.
Proof. rewrite !leb_spec. apply SFleb_trans. Qed.

Lemma float_mul_comm (x y : float) : (x * y = y * x)%float.
Proof.
  apply Prim2SF_inj. rewrite !mul_spec. unfold SF64mul, SFmul.
  destruct (Prim2SF x) as [sa|sa| |sa ma ea], (Prim2SF y) as [sb|sb| |sb mb eb];
    try reflexivity; rewrite (xorb_comm sa sb); try reflexivity.
  now rewrite (Pos.mul_comm ma mb), (Z.add_comm ea eb).
Qed.

Lemma float_abs_opp (x : float) : abs (- x) = abs x.
Proof.
  apply Prim2SF_inj. rewrite !abs_spec, opp_spec.
  destruct (Prim2SF x); reflexivity.
Qed.

Lemma binary_round_aux_opp (s : bool) (m e : Z) (l : location) :
  binary_round_aux prec emax (negb s) m e l =
  SFopp (binary_round_aux prec emax s m e l).
Proof.
  unfold binary_round_aux.
  destruct (shr_fexp prec emax m e l) as [mrs' e'].
  destruct (shr_fexp prec emax _ e' loc_Exact) as [mrs'' e''].
  destruct (shr_m mrs''); try reflexivity.
  destruct (e'' <=? emax - prec)%Z; reflexivity.
Qed.

Lemma binary_round_opp (s : bool) (m : positive) (e : Z) :
  binary_round prec emax (negb s) m e = SFopp (binary_round prec emax s m e).
Proof.
  unfold binary_round.
  destruct (shl_align m e (fexp prec emax (Z.pos (digits2_pos m) + e)))
    as [mz ez].
  apply binary_round_aux_opp.
Qed.

Lemma binary_normalize_opp (m e : Z) :
  binary_normalize prec emax (- m) e false = binary_normalize prec emax m e false
  \/ binary_normalize prec emax (- m) e false =
       SFopp (binary_normalize prec emax m e false).
Proof.
  destruct m as [|p|p]; simpl; auto; right;
    [apply (binary_round_opp false) | apply (binary_round_opp true)].
Qed.

Lemma SFsub_swap (a b : spec_float) :
  SF64sub b a = SF64sub a b \/ SF64sub b a = SFopp (SF64sub a b).
Proof.
  unfold SF64sub, SFsub.
  destruct a as [sa|sa| |sa ma ea], b as [sb|sb| |sb mb eb];
    try (destruct sa; destruct sb; simpl; auto; fail);
    try (destruct sa; simpl; auto; fail);
    try (destruct sb; simpl; auto; fail); auto.
  cbv zeta. rewrite (Z.min_comm eb ea).
  match goal with
  | |- context [binary_normalize _ _ (?x - ?y)%Z ?e false] =>
      replace (x - y)%Z with (- (y - x))%Z by lia;
      apply binary_normalize_opp
  end.
Qed.

(** [y - x] is [x - y] or its opposite (the first when both are zero). *)
Lemma float_sub_swap (x y : float) :
  (y - x = x - y \/ y - x = - (x - y))%float.
Proof.
  destruct (SFsub_swap (Prim2SF x) (Prim2SF y)) as [H|H].
  - left. apply Prim2SF_inj. now rewrite !sub_spec.
  - right. apply Prim2SF_inj. now rewrite opp_spec, !sub_spec.
Qed.

Lemma is_finite_opp (x : float) : is_finite (- x) = is_finite x.
Proof.
  unfold is_finite, is_nan, is_infinity. rewrite float_abs_opp.
  rewrite !eqb_spec, opp_spec.
  destruct (Prim2SF x) as [s|s| |s m e]; try reflexivity.
  - destruct s; reflexivity.
  - destruct s; simpl; unfold SFeqb; simpl;
      rewrite Z.compare_refl, Pos.compare_cont_refl; reflexivity.
Qed.

Lemma Q_desc_total (x y : Q) : Q_desc x y = false -> Q_desc y x = true.
Proof.
  unfold Q_desc. intros H. apply Qle_bool_iff.
  destruct (Qlt_le_dec x y) as [Hlt|Hle].
  - now apply Qlt_le_weak.
  - apply Qle_bool_iff in Hle. congruence.
Qed.

Lemma Q_desc_trans (x y z : Q) :
  Q_desc x y = true -> Q_desc y z = true -> Q_desc x z = true.
Proof.
  unfold Q_desc. rewrite !Qle_bool_iff. intros H1 H2.
  now apply Qle_trans with y.
Qed.

(** [ORDER BY] on keys that compare one way or the other: the keys of a
    domain [dom], which need not hold every key. *)
Section OrderByOn.
Variables (A K : Type).
Variable leb : K -> K -> bool.
Variable key : A -> K.
Variable dom : K -> Prop.
Hypothesis leb_total :
  forall x y, dom x -> dom y -> leb x y = false -> leb y x = true.
Hypothesis leb_trans :
  forall x y z, leb x y = true -> leb y z = true -> leb x z = true.

Let le_key (a b : A) : Prop := leb (key a) (key b) = true.

Lemma insert_row_sorted_on (x : A) (l : list A) :
  dom (key x) -> Forall (fun a => dom (key a)) l ->
  StronglySorted le_key l -> StronglySorted le_key (insert_row leb key x l).
Proof.
  intros Hx Hl Hs. induction Hs as [|y rest Hs IH Hy]; simpl.
  - repeat constructor.
  - inversion Hl as [|? ? Hdy Hrest]; subst.
    destruct (leb (key x) (key y)) eqn:Hxy.
    + constructor; [now constructor|].
      constructor; [exact Hxy|].
      rewrite Forall_forall in *. intros b Hb.
      unfold le_key. eapply leb_trans; [exact Hxy | now apply Hy].
    + constructor; [now apply IH|].
      rewrite Forall_forall in *. intros b Hb.
      apply In_insert_row in Hb. destruct Hb as [->|Hb].
      * now apply leb_total.
      * now apply Hy.
Qed.

Lemma order_by_sorted_on (l : list A) :
  Forall (fun a => dom (key a)) l ->
  StronglySorted le_key (order_by leb key l).
Proof.
  induction l as [|x rest IH]; simpl; intros H; [constructor|].
  inversion H; subst.
  apply insert_row_sorted_on; auto.
  apply Forall_forall. intros a Ha. apply In_order_by in Ha.
  rewrite Forall_forall in *. auto.
Qed.
End OrderByOn.


(** With [NULL] first, likewise. *)
Lemma order_by_null_first {A : Type} (key : A -> option float) (l : list A) :
  Forall (fun a => forall d, key a = Some d -> is_nan d = false) l ->
  StronglySorted (fun a b => null_first (key a) (key b) = true)
    (order_by null_first key l).
Proof.
  intros H.
  apply (@order_by_sorted_on A (option float) null_first key
           (fun k => forall d, k = Some d -> is_nan d = false)); auto.
  - intros [x|] [y|] Hx Hy; simpl; try reflexivity; try discriminate.
    apply float_leb_total; auto.
  - intros [x|] [y|] [z|]; simpl; try reflexivity; try discriminate.
    apply float_leb_trans.
Qed.

(** [ORDER BY b.rating DESC] leaves the rows in descending order of the key. *)
Lemma order_by_descending {A : Type} (key : A -> Q) (l : list A) :
  descending key (order_by Q_desc key l).
Proof.
  unfold descending.
  eapply StronglySorted_weaken; [| apply (order_by_sorted Q_desc key Q_desc_total Q_desc_trans)].
  intros a b H. now apply Qle_bool_iff.
Qed.

(* ===================================================================== *)
(** * Symbolic execution of the update handlers                            *)
(* ===================================================================== *)

Ltac js_unfold :=
  unfold mirror_location, upsertUserLocation, updateUserLocation,
    insertUserLocation, getUserLocation, validateCoordinates,
    try_catch, bind, ret, throw, attempt, perform_op in *.

Ltac js_split :=
  match goal with
  | |- context [if ?b then _ else _] => destruct b eqn:?
  | |- context [match ?x with Some _ => _ | None => _ end] => destruct x eqn:?
  end.

Ltac journal_shape :=
  unfold record_op, set_geo; simpl; rewrite <- ?app_assoc; simpl.

(** The mirror write always returns to the handler, and touches nothing of the
    primary store: it extends the journal with its own operations and may
    change the PostGIS table. *)
Lemma mirror_location_frame e u lat lon w :
  exists r g j,
    mirror_location e u lat lon w =
      (Returned r,
       mkWorld (committed w) (pending w) (next_location_id w)
         (next_user_location_id w) g (journal w ++ CallUpsertUserLocation :: j))
    /\ Forall (fun op => is_mirror op = true) j.
Proof.
  js_unfold.
  destruct lat as [| | |la| |]; destruct lon as [| | |lo| |]; simpl;
    try (do 3 eexists; split; [reflexivity | constructor]).
  repeat (js_split; simpl);
    do 3 eexists; (split; [journal_shape; reflexivity | repeat constructor]).
Qed.

(** Whether [upsertUserLocation] throws depends on the PostGIS table only;
    when it does, the table is left as it was. *)
Lemma mirror_location_fails e u lat lon w0 w message :
  fst (upsertUserLocation e u lat lon w0) = Thrown message ->
  geo w = geo w0 ->
  exists j,
    mirror_location e u lat lon w =
      (Returned None,
       mkWorld (committed w) (pending w) (next_location_id w)
         (next_user_location_id w) (geo w)
         (journal w ++ CallUpsertUserLocation :: j))
    /\ Forall (fun op => is_mirror op = true) j.
Proof.
  intros H Hg. js_unfold.
  destruct lat as [| | |la| |]; destruct lon as [| | |lo| |]; simpl in *;
    try (eexists; split; [reflexivity | constructor]).
  unfold record_op in H; simpl in H; rewrite <- Hg in H.
  revert H. repeat (js_split; simpl); intros H;
    try discriminate;
    eexists; (split; [journal_shape; reflexivity | repeat constructor]).
Qed.

Ltac handler_unfold E :=
  unfold call, router_post_location, post_user_location, beginTransaction,
    insert_location, clear_current, insert_user_location, commit, rollback,
    release, try_finally, try_catch, bind, ret, throw, attempt, perform_op in E.

Ltac use_mirror E :=
  match type of E with
  | context [mirror_location ?e ?u ?la ?lo ?w] =>
      let r := fresh "r" in
      let g := fresh "g" in
      let j := fresh "j" in
      let H := fresh "Hmirror" in
      let Hj := fresh "Hj" in
      destruct (mirror_location_frame e u la lo w) as (r & g & j & H & Hj);
      rewrite H in E; clear H
  end.

Ltac handler_case E :=
  match type of E with
  | context [if ?b then _ else _] => destruct b eqn:?
  | context [match col_latitude ?s ?v with Some _ => _ | None => _ end] =>
      destruct (col_latitude s v) eqn:?
  | context [match col_longitude ?s ?v with Some _ => _ | None => _ end] =>
      destruct (col_longitude s v) eqn:?
  end.

(** Runs a handler on a symbolic world, one case per path through it. *)
Ltac handler_run E :=
  handler_unfold E; simpl in E;
  repeat first [ handler_case E; simpl in E | use_mirror E; simpl in E ].


Lemma count_current_cleared (userId : Z) (rows : list UserLocationRow) :
  count_current userId (map (clear_row userId) rows) = 0%nat.
Proof.
  unfold count_current. induction rows as [|r rest IH]; simpl; [reflexivity|].
  unfold clear_row at 1 2.
  destruct (ul_user_id r =? userId)%Z eqn:Hr; simpl; rewrite ?Hr; simpl;
    exact IH.
Qed.

Lemma count_current_other (userId other : Z) (rows : list UserLocationRow) :
  other <> userId ->
  count_current userId (map (clear_row other) rows) = count_current userId rows.
Proof.
  intros Hne. unfold count_current.
  induction rows as [|r rest IH]; simpl; [reflexivity|].
  unfold clear_row at 1 2.
  destruct (ul_user_id r =? other)%Z eqn:Hr; simpl.
  - apply Z.eqb_eq in Hr.
    destruct (ul_user_id r =? userId)%Z eqn:Hu; simpl; [|exact IH].
    apply Z.eqb_eq in Hu. congruence.
  - destruct ((ul_user_id r =? userId)%Z && is_current r); simpl; now rewrite IH.
Qed.

Lemma count_current_app (userId : Z) (l1 l2 : list UserLocationRow) :
  count_current userId (l1 ++ l2) =
  (count_current userId l1 + count_current userId l2)%nat.
Proof. unfold count_current. now rewrite filter_app, length_app. Qed.

(** A successful update of [other] leaves [userId] with exactly one current row
    when it is [userId]'s own update, and with as many as before otherwise. *)
Lemma count_current_after_update (userId other : Z) rows new :
  ul_user_id new = other -> is_current new = true ->
  count_current userId (map (clear_row other) rows ++ [new]) =
  if (other =? userId)%Z then 1%nat else count_current userId rows.
Proof.
  intros Hu Hc. rewrite count_current_app.
  destruct (other =? userId)%Z eqn:Heq.
  - apply Z.eqb_eq in Heq. subst other. rewrite <- Heq at 1 2.
    rewrite Heq, count_current_cleared. unfold count_current. simpl.
    rewrite Heq, Z.eqb_refl, Hc. reflexivity.
  - apply Z.eqb_neq in Heq. rewrite count_current_other by exact Heq.
    unfold count_current at 2. simpl. rewrite Hu.
    apply Z.eqb_neq in Heq. rewrite Heq. simpl. lia.
Qed.


(* ===================================================================== *)
(** * The update path                                                      *)
(* ===================================================================== *)



(** C2, as the code has it.  In every execution of the mirroring route,
    either the mirror is not invoked and no commit is attempted, or the mirror
    is invoked right after the three statements of the open transaction and
    all of its queries run before the commit is attempted: nothing of the
    mirror runs after the commit. *)
Theorem mirror_runs_inside_transaction sch e user_id body w :
  exists ops,
    journal (snd (router_post_location sch e user_id body w)) = journal w ++ ops
    /\ ((Forall (fun op => is_mirror op = false) ops /\ ~ In MyCommit ops)
        \/ exists queries rest,
             ops = [MyBeginTransaction; MyInsertLocation; MyClearCurrent;
                    MyInsertUserLocation; CallUpsertUserLocation]
                   ++ queries ++ MyCommit :: rest
             /\ Forall (fun op => is_mirror op = true) queries
             /\ Forall (fun op => is_mirror op = false) rest).
Proof.
  destruct (router_post_location sch e user_id body w) as [o w'] eqn:E.
  destruct user_id as [userId|];
    handler_run E; inversion E; subst; clear E; simpl;
    (eexists; split; [journal_shape; reflexivity|]);
    first
      [ left; split; [repeat constructor | simpl; intuition discriminate]
      | right; do 2 eexists; split; [simpl; reflexivity|];
        split; [assumption | repeat constructor] ].
Qed.

(** C2, refuted as stated: when the commit of an update fails, the mirror has
    already been invoked, before any commit; the primary store is rolled back
    to no row at all while the mirror keeps the coordinates. *)
Lemma mirror_before_commit_counterexample :
  journal (snd failed_commit_run) =
    [MyBeginTransaction; MyInsertLocation; MyClearCurrent; MyInsertUserLocation;
     CallUpsertUserLocation; PgSelectUserLocation; PgInsertUserLocation;
     MyCommit; MyRollback; MyRelease]
  /\ ~ mirror_after_commit (journal (snd failed_commit_run))
  /\ geo (snd failed_commit_run) =
       [mkGeo 5 (DNum (-75 # 1)) (DNum (40 # 1)) 0]
  /\ locations (committed (snd failed_commit_run)) = []
  /\ user_locations (committed (snd failed_commit_run)) = []
  /\ fst failed_commit_run =
       Returned
         (mkResponse 500
            (ErrorJson "Failed to update location" (Some "store failure"))).
Proof.
  assert (Hj : journal (snd failed_commit_run) =
    [MyBeginTransaction; MyInsertLocation; MyClearCurrent; MyInsertUserLocation;
     CallUpsertUserLocation; PgSelectUserLocation; PgInsertUserLocation;
     MyCommit; MyRollback; MyRelease]) by reflexivity.
  split; [exact Hj|]. split; [|repeat split; reflexivity].
  rewrite Hj. intros H.
  specialize
    (H [MyBeginTransaction; MyInsertLocation; MyClearCurrent; MyInsertUserLocation]
       [PgSelectUserLocation; PgInsertUserLocation; MyCommit; MyRollback; MyRelease]
       eq_refl).
  simpl in H. intuition discriminate.
Qed.

Lemma missing_is_falsy (v : JsVal) : missing v = true -> truthy v = false.
Proof.
  destruct v as [| | b | d | s |]; simpl; try discriminate; try reflexivity.
  intros ->. reflexivity.
Qed.

Lemma nonzero_number_is_truthy (v : JsVal) :
  nonzero_number v = true -> truthy v = true.
Proof.
  destruct v as [| | b | [q| |n] | s |]; simpl; try discriminate. exact (fun H => H).
Qed.

Lemma nonempty_text_is_truthy (v : JsVal) :
  nonempty_text v = true -> truthy v = true.
Proof. destruct v; simpl; try discriminate. exact (fun H => H). Qed.

(** What both endpoints do with the coordinate check, zero included: they turn
    the request away exactly when a coordinate is falsy. *)
Lemma falsy_coordinates_turned_away sch e userId body w :
  userId <> 0%Z ->
  negb (truthy (body_latitude body)) || negb (truthy (body_longitude body)) = true ->
  post_user_location sch e userId body w = (Returned validation_error, turned_away w)
  /\ router_post_location sch e (Some userId) body w =
       (Returned validation_error, turned_away w).
Proof.
  intros Hu Hv. apply Z.eqb_neq in Hu.
  unfold post_user_location, router_post_location. rewrite Hv, Hu.
  split; unfold try_finally, try_catch, bind, release, perform_op, ret; simpl;
    unfold turned_away, validation_error; journal_shape; reflexivity.
Qed.

Lemma truthy_coordinates_pass sch e userId body w :
  userId <> 0%Z ->
  truthy (body_latitude body) = true -> truthy (body_longitude body) = true ->
  passes_validation (post_user_location sch e userId body) w
  /\ passes_validation (router_post_location sch e (Some userId) body) w.
Proof.
  intros Hu Hla Hlo. apply Z.eqb_neq in Hu.
  unfold passes_validation. split.
  - destruct (post_user_location sch e userId body w) as [o w'] eqn:E.
    unfold post_user_location in E. rewrite Hla, Hlo in E. simpl in E.
    handler_run E; inversion E; subst; clear E; simpl;
      (split; [discriminate | eexists; journal_shape; reflexivity]).
  - destruct (router_post_location sch e (Some userId) body w) as [o w'] eqn:E.
    unfold router_post_location in E. rewrite Hu, Hla, Hlo in E. simpl in E.
    handler_run E; inversion E; subst; clear E; simpl;
      (split; [discriminate | eexists; journal_shape; reflexivity]).
Qed.

(** C4, as the code has it.  On both endpoints, a request whose latitude or
    longitude is missing (absent, [null] or empty) gets the validation error,
    and nothing is sent to either store: the world is left as it was but for
    the release of the connection.  A request whose coordinates are both
    present, each a non-zero finite number or a non-empty text, passes the
    check, whether numeric or not and whatever the range. *)
Theorem validation_checks_presence_only sch e userId body w :
  userId <> 0%Z ->
  (missing (body_latitude body) || missing (body_longitude body) = true ->
   post_user_location sch e userId body w =
     (Returned validation_error, turned_away w)
   /\ router_post_location sch e (Some userId) body w =
        (Returned validation_error, turned_away w))
  /\ ((nonzero_number (body_latitude body) || nonempty_text (body_latitude body))
      && (nonzero_number (body_longitude body) || nonempty_text (body_longitude body))
      = true ->
      passes_validation (post_user_location sch e userId body) w
      /\ passes_validation (router_post_location sch e (Some userId) body) w).
Proof.
  intros Hu. split.
  - intros H. apply falsy_coordinates_turned_away; [exact Hu|].
    apply orb_true_iff in H. destruct H as [H|H];
      apply missing_is_falsy in H; rewrite H; simpl;
      [reflexivity | apply orb_true_r].
  - intros H. apply andb_true_iff in H. destruct H as [Hla Hlo].
    apply truthy_coordinates_pass; [exact Hu| |].
    + apply orb_true_iff in Hla.
      destruct Hla; [now apply nonzero_number_is_truthy | now apply nonempty_text_is_truthy].
    + apply orb_true_iff in Hlo.
      destruct Hlo; [now apply nonzero_number_is_truthy | now apply nonempty_text_is_truthy].
Qed.

Lemma validation_checks_presence_only_witness :
  5%Z <> 0%Z
  /\ (post_user_location exact_schema no_faults 5
        (coordinates JUndefined (num (-75 # 1))) fresh_world =
        (Returned validation_error, turned_away fresh_world)
      /\ router_post_location exact_schema no_faults (Some 5%Z)
           (coordinates JUndefined (num (-75 # 1))) fresh_world =
           (Returned validation_error, turned_away fresh_world))
  /\ (passes_validation
        (post_user_location exact_schema no_faults 5
           (coordinates (num (40 # 1)) (num (-75 # 1)))) fresh_world
      /\ passes_validation
           (router_post_location exact_schema no_faults (Some 5%Z)
              (coordinates (num (40 # 1)) (num (-75 # 1)))) fresh_world).
Proof.
  split; [discriminate|]. split.
  - apply (@validation_checks_presence_only exact_schema no_faults 5%Z
             (coordinates JUndefined (num (-75 # 1))) fresh_world);
      [discriminate | reflexivity].
  - apply (@validation_checks_presence_only exact_schema no_faults 5%Z
             (coordinates (num (40 # 1)) (num (-75 # 1))) fresh_world);
      [discriminate | reflexivity].
Defined.

(** C4, refuted as stated: coordinates that are not numbers pass the check
    (the request goes on to open the transaction, and is answered by what the
    store makes of the text), and a request on the equator, whose latitude is
    the number 0, is turned away as if the latitude were missing. *)
Lemma validation_counterexample :
  passes_validation
    (post_user_location exact_schema no_faults 5
       (coordinates (JString "north") (JString "east"))) fresh_world
  /\ fst (post_user_location exact_schema no_faults 5
            (coordinates (JString "north") (JString "east")) fresh_world) =
       Returned (mkResponse 500 (ErrorJson "Failed to update location" None))
  /\ post_user_location exact_schema no_faults 5
       (coordinates (num (0 # 1)) (num (-75 # 1))) fresh_world =
       (Returned validation_error, turned_away fresh_world).
Proof.
  split; [|split; reflexivity].
  split; [discriminate | eexists; reflexivity].
Qed.

(** C3.  On the mirroring route, when the request passes the checks, every
    statement of the primary transaction and its commit go through, and
    [upsertUserLocation] throws (its own validation, or a failure of the
    PostGIS store): the response is 201 and reports the two identifiers of
    the primary store beside a failed status for the mirror; the committed
    tables hold the new location and the new current row, the user has exactly
    one current row, no rollback is attempted, and the mirror's table is left
    as it was. *)
Theorem mirror_failure_is_isolated sch e userId body w la lo message :
  userId <> 0%Z ->
  truthy (body_latitude body) = true ->
  truthy (body_longitude body) = true ->
  col_latitude sch (body_latitude body) = Some la ->
  col_longitude sch (body_longitude body) = Some lo ->
  (forall op, is_mirror op = false -> faults e op = false) ->
  fst (upsertUserLocation e userId (body_latitude body) (body_longitude body) w)
    = Thrown message ->
  exists queries w',
    router_post_location sch e (Some userId) body w =
      (Returned
         (mkResponse 201
            (LocationUpdatedDual (next_location_id w) (next_user_location_id w)
               MirrorFailed)),
       w')
    /\ locations (committed w') =
         locations (committed w)
         ++ [mkLocation (next_location_id w) la lo (or_null (body_city body))
               (or_null (body_state body)) (or_null (body_country body))
               (or_null (body_postal_code body))]
    /\ user_locations (committed w') =
         map (clear_row userId) (user_locations (committed w))
         ++ [mkUserLocation (next_user_location_id w) userId
               (next_location_id w) true (now e)]
    /\ count_current userId (user_locations (committed w')) = 1%nat
    /\ pending w' = None
    /\ geo w' = geo w
    /\ journal w' =
         journal w
         ++ [MyBeginTransaction; MyInsertLocation; MyClearCurrent;
             MyInsertUserLocation; CallUpsertUserLocation]
         ++ queries ++ [MyCommit; MyRelease]
    /\ Forall (fun op => is_mirror op = true) queries.
Proof.
  intros Hu Hla Hlo Cla Clo Hf Hthrow. apply Z.eqb_neq in Hu.
  unfold router_post_location. rewrite Hu, Hla, Hlo. simpl.
  unfold beginTransaction, insert_location, clear_current, insert_user_location,
    commit, release, try_finally, try_catch, bind, ret, attempt, perform_op.
  rewrite !Hf by reflexivity. simpl. rewrite Cla, Clo. simpl.
  match goal with
  | |- context [mirror_location e userId ?x ?y ?W] =>
      destruct (@mirror_location_fails e userId x y w W message Hthrow eq_refl)
        as (j & Hm & Hj)
  end.
  rewrite Hm. simpl. rewrite ?Hf by reflexivity. simpl.
  exists j. eexists. split; [reflexivity|]. simpl.
  repeat split; try reflexivity; try exact Hj.
  - erewrite count_current_after_update by reflexivity.
    now rewrite Z.eqb_refl.
  - journal_shape. reflexivity.
Qed.

Lemma mirror_failure_is_isolated_witness :
  exists queries w',
    router_post_location exact_schema mirror_down (Some 5%Z)
      (coordinates (num (40 # 1)) (num (-75 # 1))) one_user_world =
      (Returned (mkResponse 201 (LocationUpdatedDual 2 2 MirrorFailed)), w')
    /\ locations (committed w') =
         locations one_user_tables
         ++ [mkLocation 2 (40 # 1) (-75 # 1) None None None None]
    /\ user_locations (committed w') =
         map (clear_row 5) (user_locations one_user_tables)
         ++ [mkUserLocation 2 5 2 true 0]
    /\ count_current 5 (user_locations (committed w')) = 1%nat
    /\ pending w' = None
    /\ geo w' = []
    /\ journal w' =
         []
         ++ [MyBeginTransaction; MyInsertLocation; MyClearCurrent;
             MyInsertUserLocation; CallUpsertUserLocation]
         ++ queries ++ [MyCommit; MyRelease]
    /\ Forall (fun op => is_mirror op = true) queries.
Proof.
  apply (@mirror_failure_is_isolated exact_schema mirror_down 5%Z
           (coordinates (num (40 # 1)) (num (-75 # 1))) one_user_world
           (40 # 1) (-75 # 1) "store failure");
    try reflexivity; try discriminate.
  intros op; destruct op; simpl; intros; try reflexivity; discriminate.
Defined.

(* ===================================================================== *)
(** * The distance expression                                              *)
(* ===================================================================== *)

Lemma and_then_returned {A B : Type} (o : Outcome A) (k : A -> Outcome B)
    (b : B) :
  and_then o k = Returned b -> exists a, o = Returned a /\ k a = Returned b.
Proof. destruct o as [a|m]; simpl; [eauto | discriminate]. Qed.

Lemma check_float_overflow_returned (x y : float) :
  check_float_overflow x = Returned y -> y = x /\ is_finite x = true.
Proof.
  unfold check_float_overflow. destruct (is_finite x); [|discriminate].
  intros H. inversion H. auto.
Qed.

(** A distance that is a number is a finite one. *)
Lemma distance_finite (lm : Libm) (p1 p2 p3 lat lng d : float) :
  distance lm p1 p2 p3 lat lng = Returned (Some d) -> is_finite d = true.
Proof.
  unfold distance. intros H.
  repeat (apply and_then_returned in H; destruct H as (? & _ & H)).
  destruct (_ || _); [discriminate|].
  apply and_then_returned in H. destruct H as (k & Hk & H).
  inversion H; subst. apply check_float_overflow_returned in Hk.
  destruct Hk as [-> Hk]. exact Hk.
Qed.

(** The distance column is symmetric in its two points, for every C library
    whose cosine is even: multiplication of doubles commutes, and [y - x] is
    [x - y] or its opposite. *)
Lemma distance_symmetric (lm : Libm) (latA lngA latB lngB : float) :
  (forall x, libm_cos lm (- x)%float = libm_cos lm x) ->
  distance lm latA lngA latA latB lngB = distance lm latB lngB latB latA lngA.
Proof.
  intros Heven. unfold distance, sql_radians, check_float_overflow.
  destruct (is_finite (latA * (M_PI / 180) + 0)) eqn:FA;
    destruct (is_finite (latB * (M_PI / 180) + 0)) eqn:FB;
    cbn [and_then]; try reflexivity.
  - rewrite (float_mul_comm (libm_cos lm (latB * (M_PI / 180) + 0))
               (libm_cos lm (latA * (M_PI / 180) + 0))).
    destruct (is_finite (libm_cos lm (latA * (M_PI / 180) + 0)
                         * libm_cos lm (latB * (M_PI / 180) + 0))) eqn:FP;
      cbn [and_then]; try reflexivity.
    destruct (is_finite (lngA * (M_PI / 180) + 0)) eqn:FC;
      destruct (is_finite (lngB * (M_PI / 180) + 0)) eqn:FD;
      cbn [and_then]; try reflexivity.
    assert (Hd : is_finite (lngA * (M_PI / 180) + 0 - (lngB * (M_PI / 180) + 0))
                 = is_finite (lngB * (M_PI / 180) + 0 - (lngA * (M_PI / 180) + 0))
                 /\ libm_cos lm (lngA * (M_PI / 180) + 0 - (lngB * (M_PI / 180) + 0))
                    = libm_cos lm (lngB * (M_PI / 180) + 0 - (lngA * (M_PI / 180) + 0))).
    { destruct (float_sub_swap (lngB * (M_PI / 180) + 0) (lngA * (M_PI / 180) + 0))
        as [->| ->]; [auto|].
      now rewrite is_finite_opp, Heven. }
    destruct Hd as [Hf Hc]. rewrite Hf.
    destruct (is_finite (lngB * (M_PI / 180) + 0 - (lngA * (M_PI / 180) + 0)));
      cbn [and_then]; try reflexivity.
    rewrite Hc.
    rewrite (float_mul_comm (libm_sin lm (latB * (M_PI / 180) + 0))
               (libm_sin lm (latA * (M_PI / 180) + 0))).
    reflexivity.
Qed.

(** C10, the half that holds.  For all coordinate pairs, and so for all
    valid ones (latitude in -90..90, longitude in -180..180), the distance
    the queries compute from A to B is the one they compute from B to A: the
    same number, the same [NULL] or the same error, bit for bit, whatever
    the C library returns, as long as its cosine is even. *)
Theorem distance_is_symmetric (lm : Libm) (A B : Q * Q) :
  (forall x, libm_cos lm (- x)%float = libm_cos lm x) ->
  distance_between lm A B = distance_between lm B A.
Proof.
  intros Heven. unfold distance_between. now apply distance_symmetric.
Qed.

Lemma distance_is_symmetric_witness :
  (forall x, libm_cos sample_libm (- x)%float = libm_cos sample_libm x)
  /\ distance_between sample_libm ((40 # 1)%Q, (-75 # 1)%Q)
       ((41 # 1)%Q, (-74 # 1)%Q) =
     Returned (Some 0x1.176094b51367ep+7%float)
  /\ distance_between sample_libm ((40 # 1)%Q, (-75 # 1)%Q)
       ((41 # 1)%Q, (-74 # 1)%Q) =
     distance_between sample_libm ((41 # 1)%Q, (-74 # 1)%Q)
       ((40 # 1)%Q, (-75 # 1)%Q).
Proof.
  assert (H : forall x,
             libm_cos sample_libm (- x)%float = libm_cos sample_libm x)
    by (intros x; simpl; now rewrite float_abs_opp).
  split; [exact H|]. split; [vm_compute; reflexivity|].
  exact (@distance_is_symmetric sample_libm ((40 # 1)%Q, (-75 # 1)%Q)
           ((41 # 1)%Q, (-74 # 1)%Q) H).
Defined.

(** C10 fails on the code in its other half: the distance from a point to
    itself is not 0.  With the values of [cos], [sin] and [acos] that glibc
    returns, the sum under [ACOS] rounds to 1.0000000000000002 at (12, 77),
    outside the domain of [ACOS], and the distance is [NULL]; at (40, -75)
    it rounds to 0.9999999999999999 and the distance is 2^-26 * 6371 km,
    some 9.5 cm. *)
Lemma distance_to_self_is_not_zero_counterexample :
  distance_between sample_libm ((12 # 1)%Q, (77 # 1)%Q)
    ((12 # 1)%Q, (77 # 1)%Q) = Returned None
  /\ distance_between sample_libm ((40 # 1)%Q, (-75 # 1)%Q)
       ((40 # 1)%Q, (-75 # 1)%Q) = Returned (Some 0x1.8e3p-14%float)
  /\ (0 <? 0x1.8e3p-14)%float = true.
Proof. repeat split; vm_compute; reflexivity. Qed.

(* ===================================================================== *)
(** * The read queries                                                     *)
(* ===================================================================== *)

Arguments nearby_rows : simpl never.
Arguments heatmap_rows : simpl never.
Arguments recommendations_by_rating : simpl never.
Arguments recommendations_by_distance : simpl never.
Arguments current_location_rows : simpl never.
Arguments limit_or : simpl never.
Arguments limit_count : simpl never.

Lemma In_join_locations {A : Type} (location_of : A -> Z) rows locs
    (r : A * LocationRow) :
  In r (join_locations location_of rows locs) <->
  In (fst r) rows /\ In (snd r) locs /\ location_of (fst r) = location_id (snd r).
Proof.
  unfold join_locations. rewrite in_flat_map. split.
  - intros (a & Ha & Hr). apply in_map_iff in Hr. destruct Hr as (l & <- & Hl).
    apply filter_In in Hl. destruct Hl as [Hl Heq]. apply Z.eqb_eq in Heq.
    simpl. auto.
  - intros (Ha & Hl & Heq). destruct r as [a l]. simpl in *.
    exists a. split; [exact Ha|]. apply in_map. apply filter_In.
    split; [exact Hl | now apply Z.eqb_eq].
Qed.

Lemma filter_nothing {A : Type} (p : A -> bool) (l : list A) :
  (forall a, In a l -> p a = false) -> filter p l = [].
Proof.
  induction l as [|x rest IH]; simpl; intros H; [reflexivity|].
  rewrite (H x) by now left. apply IH. intros a Ha. apply H. now right.
Qed.

(** A user none of whose rows is current has no current location: the lookup
    of the read handlers returns no row. *)
Lemma no_current_location (userId : Z) (t : Tables) :
  count_current userId (user_locations t) = 0%nat ->
  current_location_rows userId t = [].
Proof.
  unfold count_current, current_location_rows. intros H.
  apply length_zero_iff_nil in H.
  rewrite filter_nothing; [reflexivity|].
  intros [ul l] Hr. apply In_join_locations in Hr. destruct Hr as (Hul & _ & _).
  simpl in *.
  destruct ((ul_user_id ul =? userId)%Z && is_current ul) eqn:Hp; [|reflexivity].
  assert (Hin : In ul
            (filter (fun r => (ul_user_id r =? userId)%Z && is_current r)
               (user_locations t))) by (apply filter_In; auto).
  rewrite H in Hin. destruct Hin.
Qed.

(** The rows a select list returns, one for each row it was given. *)
Lemma select_rows_returned {A B : Type} (f : A -> Outcome B) (rows : list A)
    (out : list B) :
  select_rows f rows = Returned out ->
  Forall2 (fun r b => f r = Returned b) rows out.
Proof.
  revert out. induction rows as [|r rest IH]; simpl; intros out H.
  - inversion H. constructor.
  - apply and_then_returned in H. destruct H as (b & Hb & H).
    apply and_then_returned in H. destruct H as (bs & Hbs & H).
    inversion H; subst. constructor; auto.
Qed.


Lemma Forall2_In_right {A B : Type} (P : A -> B -> Prop) (l : list A)
    (l' : list B) (b : B) :
  Forall2 P l l' -> In b l' -> exists a, In a l /\ P a b.
Proof.
  induction 1 as [|x y l l' Hxy _ IH]; simpl; [tauto|].
  intros [<-|Hb]; [eauto|]. destruct (IH Hb) as (a & Ha & Hp). eauto.
Qed.

Lemma Forall2_In_left {A B : Type} (P : A -> B -> Prop) (l : list A)
    (l' : list B) (a : A) :
  Forall2 P l l' -> In a l -> exists b, In b l' /\ P a b.
Proof.
  induction 1 as [|x y l l' Hxy _ IH]; simpl; [tauto|].
  intros [<-|Ha]; [eauto|]. destruct (IH Ha) as (b & Hb & Hp). eauto.
Qed.

(** The rows of a select list with a distance column. *)
Lemma In_selected_distances {A C : Type} (lm : Libm) (p1 p2 p3 : SqlParam)
    (location_of : A -> LocationRow) (columns : A -> C) (rows : list A)
    (out : list (C * option float)) (c : C) (d : option float) :
  select_rows
    (fun r =>
       d <~ distance_to lm p1 p2 p3 (location_of r) ;;
       Returned (columns r, d))
    rows = Returned out ->
  (In (c, d) out <->
   exists r, In r rows /\ c = columns r
             /\ distance_to lm p1 p2 p3 (location_of r) = Returned d).
Proof.
  intros H. apply select_rows_returned in H. split.
  - intros Hin. destruct (@Forall2_In_right _ _ _ _ _ _ H Hin) as (r & Hr & Hf).
    apply and_then_returned in Hf. destruct Hf as (d' & Hd & Hf).
    inversion Hf; subst. eauto.
  - intros (r & Hr & -> & Hd).
    destruct (@Forall2_In_left _ _ _ _ _ _ H Hr) as (b & Hb & Hf).
    rewrite Hd in Hf. simpl in Hf. inversion Hf; subst. exact Hb.
Qed.


Lemma limit_count_range (limit : Double) (n : Z) :
  limit_count limit = Some n -> (0 <= n <= 18446744073709551615)%Z.
Proof.
  unfold limit_count. destruct limit as [q| |]; try discriminate.
  destruct (Qden (Qred q) =? 1)%positive; simpl; [|discriminate].
  destruct (0 <=? Qnum (Qred q))%Z eqn:H0; simpl; [|discriminate].
  destruct (Qnum (Qred q) <=? 18446744073709551615)%Z eqn:H1; [|discriminate].
  intros H. inversion H; subst. apply Z.leb_le in H0, H1. lia.
Qed.

Lemma sql_limit_returned {A : Type} (limit : Double) (rows : Outcome (list A))
    (rows' : list A) :
  sql_limit limit rows = Returned rows' ->
  exists n selected,
    limit_count limit = Some n /\ rows = Returned selected
    /\ rows' = firstn (Z.to_nat n) selected.
Proof.
  unfold sql_limit. destruct (limit_count limit) as [n|]; [|discriminate].
  intros H. apply and_then_returned in H. destruct H as (selected & Hs & H).
  inversion H. eauto.
Qed.

Lemma length_firstn_Z {A : Type} (n : Z) (rows : list A) :
  (0 <= n)%Z -> (Z.of_nat (List.length (firstn (Z.to_nat n) rows)) <= n)%Z.
Proof.
  intros Hn. rewrite length_firstn. lia.
Qed.





(** The whole town within 10 km, nearest first: the cafe at the user's own
    coordinates, some 9.5 cm away as the server computes it, then the
    bakery; the diner is too far.  A limit of 10^23, which [parseInt] rounds
    to a double that prints as [1e+23], is refused by the server; a limit
    that starts with a no-break space is read as its digits. *)
Lemma town_nearby :
  fst (get_businesses_nearby no_faults 5 None None town_world) =
    Returned
      (mkResponse 200
         (Businesses
            [(mkColumns 2 "Cafe" "Coffee" "cafe" (45 # 10) (40 # 1) (-75 # 1)
                None None None, 0x1.8e3p-14%float);
             (mkColumns 1 "Bakery" "Bread" "bakery" (47 # 10) (4005 # 100)
                (-7502 # 100) None None None, 0x1.74244f24313afp+2%float)]))
  /\ fst (get_businesses_nearby no_faults 5 None
            (Some "100000000000000000000000") town_world) =
       Returned
         (mkResponse 500
            (ErrorJson "Failed to retrieve nearby businesses" None))
  /\ parseInt (String (ascii_of_nat 194) (String (ascii_of_nat 160) "42")) =
       DNum (42 # 1).
Proof. repeat split; vm_compute; reflexivity. Qed.

(** C6.  For a user none of whose rows is current, the nearby handler runs
    the lookup of the position and nothing else: whatever fails, the only
    operation it journals is that lookup, so the query over the businesses is
    never sent, and the answer is an error, never a list.  When the lookup
    goes through, the answer is 404 "User location not found". *)
Theorem nearby_without_location_is_an_error e userId radius limit w :
  count_current userId (user_locations (committed w)) = 0%nat ->
  journal (snd (get_businesses_nearby e userId radius limit w)) =
    journal w ++ [MySelectCurrentLocation]
  /\ (exists code message,
         fst (get_businesses_nearby e userId radius limit w) =
           Returned (mkResponse code (ErrorJson message None))
         /\ code <> 200%nat)
  /\ (faults e MySelectCurrentLocation = false ->
      fst (get_businesses_nearby e userId radius limit w) =
        Returned (mkResponse 404 (ErrorJson "User location not found" None))).
Proof.
  intros H. apply no_current_location in H.
  unfold get_businesses_nearby, select_current_location, try_catch, bind, ret,
    attempt.
  destruct (faults e MySelectCurrentLocation); simpl; rewrite ?H; simpl.
  - repeat split; try reflexivity.
    + do 2 eexists. split; [reflexivity | discriminate].
    + discriminate.
  - repeat split; try reflexivity.
    do 2 eexists. split; [reflexivity | discriminate].
Qed.

Lemma nearby_without_location_is_an_error_witness :
  count_current 6 (user_locations (committed two_shops_world)) = 0%nat
  /\ fst (get_businesses_nearby no_faults 6 None None two_shops_world) =
       Returned (mkResponse 404 (ErrorJson "User location not found" None)).
Proof.
  split; [reflexivity|].
  apply (@nearby_without_location_is_an_error no_faults 6%Z None None
           two_shops_world); reflexivity.
Defined.

(** C7.  For a user none of whose rows is current, the heatmap handler, once
    its lookup goes through, answers 200 with an empty list of locations, the
    count 0 and no centre: a result, not an error; the heatmap query is not
    sent. *)
Theorem heatmap_without_location_is_empty e userId radius w :
  count_current userId (user_locations (committed w)) = 0%nat ->
  faults e MySelectCurrentLocation = false ->
  get_user_heatmap e userId radius w =
    (Returned
       (mkResponse 200
          (HeatmapJson [] 0 None (Some "No location data available"))),
     record_op MySelectCurrentLocation w).
Proof.
  intros H F. apply no_current_location in H.
  unfold get_user_heatmap, select_current_location, try_catch, bind, ret,
    attempt.
  rewrite F. simpl. rewrite H. reflexivity.
Qed.

Lemma heatmap_without_location_is_empty_witness :
  count_current 6 (user_locations (committed one_user_world)) = 0%nat
  /\ faults no_faults MySelectCurrentLocation = false
  /\ get_user_heatmap no_faults 6 None one_user_world =
       (Returned
          (mkResponse 200
             (HeatmapJson [] 0 None (Some "No location data available"))),
        record_op MySelectCurrentLocation one_user_world).
Proof.
  split; [reflexivity|]. split; [reflexivity|].
  apply (@heatmap_without_location_is_empty no_faults 6%Z None one_user_world);
    reflexivity.
Defined.


Lemma In_current_location_rows (userId : Z) (t : Tables) (u : Q * Q) :
  In u (current_location_rows userId t) ->
  exists ul l,
    In ul (user_locations t) /\ In l (locations t)
    /\ ul_location_id ul = location_id l /\ ul_user_id ul = userId
    /\ is_current ul = true /\ u = (latitude l, longitude l).
Proof.
  unfold current_location_rows. rewrite in_map_iff.
  intros ([ul l] & <- & Hr). apply filter_In in Hr. destruct Hr as [Hr Hp].
  apply In_join_locations in Hr. simpl in *. destruct Hr as (Hul & Hl & Heq).
  apply andb_true_iff in Hp. destruct Hp as [Hu Hcur]. apply Z.eqb_eq in Hu.
  exists ul, l. auto 10.
Qed.





(** The heatmap of the town: the requester's own position, some 9.5 cm
    away as the server computes it, and user 6 at the bakery; user 9 is too
    far, and the row of user 6 that is not current does not count. *)
Lemma town_heatmap :
  fst (get_user_heatmap no_faults 5 None town_world) =
    Returned
      (mkResponse 200
         (HeatmapJson
            [mkModel 1 (40 # 1) (-75 # 1) None None None None 3 true;
             mkModel 2 (4005 # 100) (-7502 # 100) None None None None 2 true]
            2 (Some ((40 # 1)%Q, (-75 # 1)%Q)) None)).
Proof. vm_compute. reflexivity. Qed.

(** At (12, 77) the sum under [ACOS] rounds above 1 for the requester's own
    row: its distance is [NULL] there, and the heatmap of that requester is
    empty. *)
Lemma heatmap_at_12_77 :
  fst (get_user_heatmap no_faults 8 None south_world) =
    Returned
      (mkResponse 200
         (HeatmapJson [] 0 (Some ((12 # 1)%Q, (77 # 1)%Q)) None)).
Proof. vm_compute. reflexivity. Qed.

Lemma not_liked_true (p : SqlParam) (likes : list UserBusinessLikeRow)
    (b : BusinessRow) :
  not_liked p likes b = true <->
  forall k, In k likes -> int_equals (like_user_id k) p = true ->
            like_business_id k <> business_id b.
Proof.
  unfold not_liked. rewrite negb_true_iff. split.
  - intros H k Hk Hu Hb.
    assert (Hex : existsb (fun k => (like_business_id k =? business_id b)%Z)
                    (filter (fun k => int_equals (like_user_id k) p) likes) = true).
    { apply existsb_exists. exists k. split.
      - apply filter_In. split; [exact Hk | exact Hu].
      - now apply Z.eqb_eq. }
    congruence.
  - intros H.
    destruct (existsb (fun k => (like_business_id k =? business_id b)%Z)
                (filter (fun k => int_equals (like_user_id k) p) likes)) eqn:Hex;
      [|reflexivity].
    apply existsb_exists in Hex. destruct Hex as (k & Hk & Hb).
    apply filter_In in Hk. destruct Hk as [Hk Hu].
    apply Z.eqb_eq in Hb.
    exfalso. exact (H k Hk Hu Hb).
Qed.

Lemma In_candidate_rows (p1 p2 : SqlParam) (t : Tables)
    (r : BusinessRow * LocationRow) :
  In r (candidate_rows p1 p2 t) ->
  kept_for p1 p2 t (columns_of (fst r) (snd r)).
Proof.
  unfold candidate_rows. intros H. apply filter_In in H. destruct H as [Hr Hp].
  apply In_join_locations in Hr. destruct Hr as (Hb & Hl & Heq).
  apply andb_true_iff in Hp. destruct Hp as [Hc Hn].
  exists (fst r), (snd r). repeat split; try assumption.
  now apply not_liked_true.
Qed.

(** Bound to the cluster and to the user, both integers, the two
    placeholders keep the candidates. *)
Lemma kept_for_integers (clusterId userId : Z) (t : Tables)
    (c : BusinessColumns) :
  kept_for (PInt clusterId) (PInt userId) t c -> candidate clusterId userId t c.
Proof.
  intros (b & l & Hb & Hl & Heq & Hc & Hcl & Hlikes).
  exists b, l. repeat split; try assumption.
  - now apply Z.eqb_eq.
  - intros k Hk Hu. apply Hlikes; [exact Hk|]. now apply Z.eqb_eq.
Qed.

(** What the recommendation query selects without the distance column,
    before its [LIMIT]. *)
Lemma recommendations_by_rating_spec (clusterId userId : Z) (t : Tables) :
  exists ranked,
    recommendations_by_rating (PInt clusterId) (PInt userId) t =
      map (fun c => (c, None)) ranked
    /\ descending bc_rating ranked
    /\ Forall (candidate clusterId userId t) ranked.
Proof.
  unfold recommendations_by_rating.
  eexists. split; [reflexivity|]. split; [apply order_by_descending|].
  apply Forall_order_by. apply Forall_forall. intros c Hc.
  apply in_map_iff in Hc. destruct Hc as (r & <- & Hr).
  apply kept_for_integers. now apply In_candidate_rows.
Qed.

(** What it selects with the distance column, whatever is bound to its five
    placeholders: the rows that [p4] and [p5] keep, each with the distance
    that [p1], [p2] and [p3] give, [NULL] first. *)
Lemma recommendations_by_distance_spec (lm : Libm) (p1 p2 p3 p4 p5 : SqlParam)
    (t : Tables) (rows : list (BusinessColumns * option (option float))) :
  recommendations_by_distance lm p1 p2 p3 p4 p5 t = Returned rows ->
  exists ranked,
    rows = map (fun r => (fst r, Some (snd r))) ranked
    /\ StronglySorted (fun a b => null_first (snd a) (snd b) = true) ranked
    /\ Forall
         (fun r =>
            kept_for p4 p5 t (fst r)
            /\ distance lm (param_double p1) (param_double p2) (param_double p3)
                 (Q2float (bc_latitude (fst r))) (Q2float (bc_longitude (fst r)))
               = Returned (snd r))
         ranked.
Proof.
  unfold recommendations_by_distance. intros H.
  apply and_then_returned in H. destruct H as (selected & Hs & H).
  inversion H; subst; clear H.
  assert (Hall :
    Forall
      (fun r =>
         kept_for p4 p5 t (fst r)
         /\ distance lm (param_double p1) (param_double p2) (param_double p3)
              (Q2float (bc_latitude (fst r))) (Q2float (bc_longitude (fst r)))
            = Returned (snd r))
      selected).
  { apply Forall_forall. intros [c d] Hr.
    apply (proj1 (@In_selected_distances _ _ lm p1 p2 p3 snd
                    (fun r => columns_of (fst r) (snd r)) _ _ _ _ Hs)) in Hr.
    destruct Hr as (r & Hr & -> & Hd). simpl.
    split; [now apply In_candidate_rows | exact Hd]. }
  eexists. split; [reflexivity|]. split.
  - apply order_by_null_first. eapply Forall_impl; [|exact Hall].
    intros r [_ Hd] d Hsome. rewrite Hsome in Hd.
    apply finite_not_nan. eapply distance_finite; exact Hd.
  - now apply Forall_order_by.
Qed.

(** What a list of recommendations holds.  The cluster is that of the
    user's first preference row and the list is no longer than the limit.
    For a user with no position the rows are candidates of that cluster, in
    descending order of rating.  For a user with a position the parameters
    are bound as the text takes them: the rows are those that the longitude
    (for the cluster) and the latitude (for the user) keep, each with the
    distance that the cluster, the user and the latitude give. *)
Lemma recommendations_listed e userId limit w rows w' :
  get_recommendations e userId limit w =
    (Returned (mkResponse 200 (Recommendations rows)), w') ->
  exists clusterId n,
    hd_error
      (map up_cluster_id
         (filter (fun p => (up_user_id p =? userId)%Z)
            (user_preferences (committed w)))) = Some clusterId
    /\ limit_count (limit_or limit 10) = Some n
    /\ (Z.of_nat (List.length rows) <= n)%Z
    /\ match current_location_rows userId (committed w) with
       | [] =>
           Forall (fun r => candidate clusterId userId (committed w) (fst r)) rows
           /\ exists ranked,
                rows = map (fun c => (c, None)) ranked
                /\ descending bc_rating ranked
       | u :: _ =>
           exists ranked,
             rows = map (fun r => (fst r, Some (snd r))) ranked
             /\ StronglySorted (fun a b => null_first (snd a) (snd b) = true)
                  ranked
             /\ Forall
                  (fun r =>
                     kept_for (PNum (snd u)) (PNum (fst u)) (committed w) (fst r)
                     /\ distance (libm e) (Q2float (inject_Z clusterId))
                          (Q2float (inject_Z userId)) (Q2float (fst u))
                          (Q2float (bc_latitude (fst r)))
                          (Q2float (bc_longitude (fst r))) = Returned (snd r))
                  ranked
       end.
Proof.
  intros E.
  unfold get_recommendations, select_preferences, select_current_location,
    select_recommendations, try_catch, bind, ret, attempt in E.
  destruct (faults e MySelectPreferences); simpl in E; [discriminate|].
  destruct (map up_cluster_id
              (filter (fun p => (up_user_id p =? userId)%Z)
                 (user_preferences (committed w)))) as [|clusterId cs] eqn:Hp;
    simpl in E; [discriminate|].
  destruct (faults e MySelectCurrentLocation); simpl in E; [discriminate|].
  destruct (faults e MySelectRecommendations); simpl in E; [discriminate|].
  destruct (current_location_rows userId (committed w)) as [|u others].
  - match type of E with
    | context [sql_limit ?l ?r] => destruct (sql_limit l r) as [rows0|] eqn:Hl
    end; simpl in E; [|discriminate].
    inversion E; subst; clear E.
    apply sql_limit_returned in Hl.
    destruct Hl as (n & selected & Hlim & Hsel & ->).
    inversion Hsel; subst; clear Hsel.
    pose proof (limit_count_range _ Hlim) as Hn.
    destruct (recommendations_by_rating_spec clusterId userId (committed w))
      as (ranked & -> & Hdesc & Hcand).
    exists clusterId, n. split; [reflexivity|]. split; [exact Hlim|].
    split; [apply length_firstn_Z; lia|].
    rewrite firstn_map. split.
    + apply Forall_forall. intros r Hr. apply in_map_iff in Hr.
      destruct Hr as (c & <- & Hc). simpl.
      apply (Forall_firstn_keeps (Z.to_nat n)) in Hcand.
      rewrite Forall_forall in Hcand. now apply Hcand.
    + eexists. split; [reflexivity|]. now apply StronglySorted_firstn.
  - match type of E with
    | context [sql_limit ?l ?r] => destruct (sql_limit l r) as [rows0|] eqn:Hl
    end; simpl in E; [|discriminate].
    inversion E; subst; clear E.
    apply sql_limit_returned in Hl.
    destruct Hl as (n & selected & Hlim & Hsel & ->).
    pose proof (limit_count_range _ Hlim) as Hn.
    apply recommendations_by_distance_spec in Hsel.
    destruct Hsel as (ranked & -> & Hsorted & Hall).
    exists clusterId, n. split; [reflexivity|]. split; [exact Hlim|].
    split; [apply length_firstn_Z; lia|].
    rewrite firstn_map. eexists. split; [reflexivity|].
    split; [now apply StronglySorted_firstn | now apply Forall_firstn_keeps].
Qed.

(** C9, as the code has it.  (1) A user with no row in [user_preferences]
    gets 404 "User preferences not found", once the lookup goes through.
    (2) Whenever the handler answers with a list, the user has a preference
    row and the list is no longer than the limit (10 by default).  For a
    user with no position every business listed is of the user's cluster and
    not liked by the user, and the list is in descending order of rating.
    For a user with a position the six parameters are bound to the
    placeholders in the order of the text, which is not the order they were
    meant for: the businesses listed are those whose cluster equals the
    user's longitude and that the user whose identifier equals the latitude
    has not liked, each with the distance that the cluster, the user's
    identifier and the latitude give, in ascending order of that distance.
    (3) In the scenario of the specification (cluster 3, no position, ratings
    4.8, 3.2 and 4.9) the order is 4.9, 4.8, 3.2. *)
Theorem recommendations_as_the_query_binds e userId limit w :
  ((forall p, In p (user_preferences (committed w)) -> up_user_id p <> userId) ->
   faults e MySelectPreferences = false ->
   get_recommendations e userId limit w =
     (Returned (mkResponse 404 (ErrorJson "User preferences not found" None)),
      record_op MySelectPreferences w))
  /\ (forall rows w',
         get_recommendations e userId limit w =
           (Returned (mkResponse 200 (Recommendations rows)), w') ->
         exists clusterId n,
           (exists p, In p (user_preferences (committed w))
                      /\ up_user_id p = userId /\ up_cluster_id p = clusterId)
           /\ limit_count (limit_or limit 10) = Some n
           /\ (Z.of_nat (List.length rows) <= n)%Z
           /\ match current_location_rows userId (committed w) with
              | [] =>
                  Forall
                    (fun r => candidate clusterId userId (committed w) (fst r))
                    rows
                  /\ exists ranked,
                       rows = map (fun c => (c, None)) ranked
                       /\ descending bc_rating ranked
              | u :: _ =>
                  exists ranked,
                    rows = map (fun r => (fst r, Some (snd r))) ranked
                    /\ StronglySorted
                         (fun a b => null_first (snd a) (snd b) = true) ranked
                    /\ Forall
                         (fun r =>
                            kept_for (PNum (snd u)) (PNum (fst u)) (committed w)
                              (fst r)
                            /\ distance (libm e) (Q2float (inject_Z clusterId))
                                 (Q2float (inject_Z userId)) (Q2float (fst u))
                                 (Q2float (bc_latitude (fst r)))
                                 (Q2float (bc_longitude (fst r))) =
                                 Returned (snd r))
                         ranked
              end)
  /\ fst (get_recommendations no_faults 7 None scenario_world) =
       Returned
         (mkResponse 200
            (Recommendations
               [(mkColumns 3 "C" "c" "cafe" (49 # 10) (42 # 1) (-73 # 1)
                   None None None, None);
                (mkColumns 1 "A" "a" "cafe" (48 # 10) (40 # 1) (-75 # 1)
                   None None None, None);
                (mkColumns 2 "B" "b" "cafe" (32 # 10) (41 # 1) (-74 # 1)
                   None None None, None)])).
Proof.
  split; [|split; [|vm_compute; reflexivity]].
  - intros Hnone F.
    unfold get_recommendations, select_preferences, try_catch, bind, ret, attempt.
    rewrite F. simpl.
    rewrite filter_nothing; [reflexivity|].
    intros p Hp. apply Z.eqb_neq. now apply Hnone.
  - intros rows w' E. apply recommendations_listed in E.
    destruct E as (clusterId & n & Hhd & Hlim & Hlen & Hrows).
    exists clusterId, n. split; [|auto].
    destruct (filter (fun p => (up_user_id p =? userId)%Z)
                (user_preferences (committed w))) as [|p ps] eqn:Hp;
      [discriminate|].
    simpl in Hhd. inversion Hhd; subst.
    assert (Hin : In p (filter (fun p => (up_user_id p =? userId)%Z)
                          (user_preferences (committed w))))
      by (rewrite Hp; now left).
    apply filter_In in Hin. destruct Hin as [Hin Hu]. apply Z.eqb_eq in Hu.
    exists p. auto.
Qed.

Lemma recommendations_as_the_query_binds_witness :
  get_recommendations no_faults 9 None scenario_world =
    (Returned (mkResponse 404 (ErrorJson "User preferences not found" None)),
     record_op MySelectPreferences scenario_world)
  /\ exists clusterId n,
       (exists p, In p (user_preferences (committed scenario_world))
                  /\ up_user_id p = 7%Z /\ up_cluster_id p = clusterId)
       /\ limit_count (limit_or None 10) = Some n
       /\ (Z.of_nat 3 <= n)%Z
       /\ Forall
            (fun r => candidate clusterId 7 (committed scenario_world) (fst r))
            [(mkColumns 3 "C" "c" "cafe" (49 # 10) (42 # 1) (-73 # 1)
                None None None, @None (option float));
             (mkColumns 1 "A" "a" "cafe" (48 # 10) (40 # 1) (-75 # 1)
                None None None, None);
             (mkColumns 2 "B" "b" "cafe" (32 # 10) (41 # 1) (-74 # 1)
                None None None, None)]
       /\ exists ranked,
            [(mkColumns 3 "C" "c" "cafe" (49 # 10) (42 # 1) (-73 # 1)
                None None None, @None (option float));
             (mkColumns 1 "A" "a" "cafe" (48 # 10) (40 # 1) (-75 # 1)
                None None None, None);
             (mkColumns 2 "B" "b" "cafe" (32 # 10) (41 # 1) (-74 # 1)
                None None None, None)]
            = map (fun c => (c, None)) ranked
            /\ descending bc_rating ranked.
Proof.
  split.
  - apply (proj1 (recommendations_as_the_query_binds no_faults 9 None
                    scenario_world)); [|reflexivity].
    intros p [<-|[]]. discriminate.
  - exact (proj1 (proj2 (recommendations_as_the_query_binds no_faults 7 None
                           scenario_world))
             _
             (mkWorld scenario_tables None 4 1 []
                [MySelectPreferences; MySelectCurrentLocation;
                 MySelectRecommendations])
             eq_refl).
Defined.

(** C9 fails on the code for a user with a position.  User 5 of the sample
    store is at (40, -75), belongs to cluster 3 and has liked the diner: the
    cafe, of cluster 3 and not liked, is a candidate, and the handler lists
    nothing, since it asks for the businesses whose cluster is -75.  User 5
    of the other store is at latitude 9 and longitude 3, belongs to cluster 7
    and has liked the kiosk, of cluster 3: the handler lists the kiosk, with
    a distance that is [NULL], and not the bar, of cluster 7. *)
Lemma recommendations_miss_the_cluster_counterexample :
  (fst (get_recommendations no_faults 5 None two_shops_world) =
     Returned (mkResponse 200 (Recommendations []))
   /\ candidate 3 5 two_shops_tables
        (mkColumns 1 "Cafe" "Coffee" "cafe" (45 # 10) (40 # 1) (-75 # 1)
           None None None)
   /\ In (mkPreference 5 3) (user_preferences two_shops_tables))
  /\ (fst (get_recommendations no_faults 5 None drift_world) =
        Returned
          (mkResponse 200
             (Recommendations
                [(mkColumns 1 "Kiosk" "Papers" "shop" (41 # 10) (10 # 1) (4 # 1)
                    None None None, Some None)]))
      /\ In (mkPreference 5 7) (user_preferences drift_tables)
      /\ In (mkLike 5 1) (user_business_likes drift_tables)
      /\ In (mkBusiness 1 "Kiosk" "Papers" "shop" (41 # 10) 2 3)
           (businesses drift_tables)).
Proof.
  split; [split; [vm_compute; reflexivity | split]
         | split; [vm_compute; reflexivity | simpl; auto 6]].
  - exists (mkBusiness 1 "Cafe" "Coffee" "cafe" (45 # 10) 1 3),
      (mkLocation 1 (40 # 1) (-75 # 1) None None None None).
    simpl. repeat split; auto.
    intros k [<-|[]] _. discriminate.
  - simpl. auto.
Qed.

(* ===================================================================== *)
(** * The PostGIS service on its own                                       *)
(* ===================================================================== *)

Lemma double_in_range (q low high : Q) :
  double_lt (DNum q) low || double_gt (DNum q) high = false <->
  (low <= q /\ q <= high)%Q.
Proof.
  simpl. rewrite orb_false_iff, !negb_false_iff, !Qle_bool_iff. reflexivity.
Qed.

(** [validateCoordinates] lets through exactly the pairs of JavaScript
    numbers that are not below or above the bounds.  For finite numbers that
    is -90 <= latitude <= 90 and -180 <= longitude <= 180, bounds included;
    NaN, for which every comparison is false, is let through as well; the
    infinities and everything that is not a number (a numeric text too) are
    refused.  The world is never touched. *)
Theorem validateCoordinates_accepts (lat lon : JsVal) (w : World) :
  snd (validateCoordinates lat lon w) = w
  /\ (fst (validateCoordinates lat lon w) = Returned tt <->
      exists la lo,
        lat = JNumber la /\ lon = JNumber lo
        /\ match la with
           | DNum q => (-90 # 1 <= q /\ q <= 90 # 1)%Q
           | DNaN => True
           | DInfinity _ => False
           end
        /\ match lo with
           | DNum q => (-180 # 1 <= q /\ q <= 180 # 1)%Q
           | DNaN => True
           | DInfinity _ => False
           end).
Proof.
  unfold validateCoordinates, throw, ret.
  destruct lat as [| | |la| |]; destruct lon as [| | |lo| |];
    try (split; [reflexivity|]; split;
         [discriminate | intros (x & y & H1 & H2 & _); discriminate]).
  destruct (double_lt la (-90 # 1) || double_gt la (90 # 1)) eqn:Hla;
    [|destruct (double_lt lo (-180 # 1) || double_gt lo (180 # 1)) eqn:Hlo];
    (split; [reflexivity|]); split; try discriminate.
  - intros (x & y & Ha & Hb & Hra & _). inversion Ha; subst x.
    destruct la as [q| |n].
    + apply double_in_range in Hra. congruence.
    + discriminate.
    + destruct Hra.
  - intros (x & y & Ha & Hb & _ & Hrb). inversion Hb; subst y.
    destruct lo as [q| |n].
    + apply double_in_range in Hrb. congruence.
    + discriminate.
    + destruct Hrb.
  - intros _. exists la, lo. repeat split.
    + destruct la as [q| |n]; auto.
      * now apply double_in_range.
      * simpl in Hla. destruct n; discriminate.
    + destruct lo as [q| |n]; auto.
      * now apply double_in_range.
      * simpl in Hlo. destruct n; discriminate.
  - reflexivity.
Qed.

Lemma hd_error_nil {A : Type} (l : list A) : hd_error l = None -> l = [].
Proof. destruct l; [reflexivity | discriminate]. Qed.

Lemma hd_error_some {A : Type} (l : list A) (a : A) :
  hd_error l = Some a -> l <> [].
Proof. destruct l; [discriminate | intros _; discriminate]. Qed.

(** The three ways [upsertUserLocation] can end: it throws and the table is
    as before; the user had no row and one is appended; the user had a row
    and the rows of the user are overwritten in place.  The primary store and
    its counters are never touched. *)
Lemma upsert_outcome e u lat lon w :
  committed (snd (upsertUserLocation e u lat lon w)) = committed w
  /\ pending (snd (upsertUserLocation e u lat lon w)) = pending w
  /\ ((exists message,
          fst (upsertUserLocation e u lat lon w) = Thrown message
          /\ geo (snd (upsertUserLocation e u lat lon w)) = geo w)
      \/ (exists la lo,
             lat = JNumber la /\ lon = JNumber lo
             /\ filter (fun r => (geo_user_id r =? u)%Z) (geo w) = []
             /\ geo (snd (upsertUserLocation e u lat lon w)) =
                  geo w ++ [mkGeo u lo la (now e)]
             /\ fst (upsertUserLocation e u lat lon w) =
                  Returned (Some (mkGeo u lo la (now e))))
      \/ (exists la lo,
             lat = JNumber la /\ lon = JNumber lo
             /\ filter (fun r => (geo_user_id r =? u)%Z) (geo w) <> []
             /\ geo (snd (upsertUserLocation e u lat lon w)) =
                  map (move_row e u la lo) (geo w)
             /\ fst (upsertUserLocation e u lat lon w) =
                  Returned
                    (hd_error
                       (filter (fun r => (geo_user_id r =? u)%Z)
                          (map (move_row e u la lo) (geo w)))))).
Proof.
  js_unfold.
  destruct lat as [| | |la| |]; destruct lon as [| | |lo| |]; simpl;
    try (split; [reflexivity|]; split; [reflexivity|]; left; eexists;
         split; reflexivity).
  destruct (double_lt la (-90 # 1) || double_gt la (90 # 1)); simpl;
    [split; [reflexivity|]; split; [reflexivity|]; left; eexists;
     split; reflexivity|].
  destruct (double_lt lo (-180 # 1) || double_gt lo (180 # 1)); simpl;
    [split; [reflexivity|]; split; [reflexivity|]; left; eexists;
     split; reflexivity|].
  destruct (faults e PgSelectUserLocation); simpl;
    [split; [reflexivity|]; split; [reflexivity|]; left; eexists;
     split; reflexivity|].
  destruct (hd_error (filter (fun r => (geo_user_id r =? u)%Z) (geo w)))
    as [existing|] eqn:Hex; simpl.
  - destruct (faults e PgUpdateUserLocation); simpl;
      [split; [reflexivity|]; split; [reflexivity|]; left; eexists;
       split; reflexivity|].
    split; [reflexivity|]. split; [reflexivity|]. right. right.
    exists la, lo. repeat split; try reflexivity.
    eapply hd_error_some. exact Hex.
  - destruct (faults e PgInsertUserLocation); simpl;
      [split; [reflexivity|]; split; [reflexivity|]; left; eexists;
       split; reflexivity|].
    split; [reflexivity|]. split; [reflexivity|]. right. left.
    exists la, lo. repeat split; try reflexivity.
    now apply hd_error_nil.
Qed.

Lemma filter_move_row e u la lo (g : list GeoRow) :
  filter (fun r => (geo_user_id r =? u)%Z) (map (move_row e u la lo) g) =
  map (fun r => mkGeo (geo_user_id r) lo la (now e))
    (filter (fun r => (geo_user_id r =? u)%Z) g).
Proof.
  induction g as [|r rest IH]; simpl; [reflexivity|].
  unfold move_row at 1 2.
  destruct (geo_user_id r =? u)%Z eqn:Hr; simpl; rewrite ?Hr; simpl;
    now rewrite IH.
Qed.

Lemma users_of_move_row e u la lo (g : list GeoRow) :
  map geo_user_id (map (move_row e u la lo) g) = map geo_user_id g.
Proof.
  induction g as [|r rest IH]; simpl; [reflexivity|].
  rewrite IH. unfold move_row. now destruct (geo_user_id r =? u)%Z.
Qed.

Lemma others_of_move_row e u la lo (g : list GeoRow) :
  filter (fun r => negb (geo_user_id r =? u)%Z) (map (move_row e u la lo) g) =
  filter (fun r => negb (geo_user_id r =? u)%Z) g.
Proof.
  induction g as [|r rest IH]; simpl; [reflexivity|].
  unfold move_row at 1 2.
  destruct (geo_user_id r =? u)%Z eqn:Hr; simpl; rewrite ?Hr; simpl;
    now rewrite IH.
Qed.

(** When the coordinates are refused, [upsertUserLocation] throws the
    validation's message before it sends any query: the journal gains the
    call alone and both stores are as they were. *)
Theorem upsert_refuses_before_any_query e u lat lon w message :
  fst (validateCoordinates lat lon w) = Thrown message ->
  upsertUserLocation e u lat lon w =
    (Thrown message, record_op CallUpsertUserLocation w).
Proof.
  js_unfold.
  destruct lat as [| | |la| |]; destruct lon as [| | |lo| |]; simpl;
    try (intros H; inversion H; reflexivity).
  destruct (double_lt la (-90 # 1) || double_gt la (90 # 1)); simpl;
    [intros H; inversion H; reflexivity|].
  destruct (double_lt lo (-180 # 1) || double_gt lo (180 # 1)); simpl;
    [intros H; inversion H; reflexivity | discriminate].
Qed.

Lemma upsert_refuses_before_any_query_witness :
  fst (validateCoordinates (num (91 # 1)) (num (0 # 1)) fresh_world) =
    Thrown "Latitude must be between -90 and 90 degrees"
  /\ upsertUserLocation no_faults 5 (num (91 # 1)) (num (0 # 1)) fresh_world =
       (Thrown "Latitude must be between -90 and 90 degrees",
        record_op CallUpsertUserLocation fresh_world).
Proof.
  split; [reflexivity|].
  apply (@upsert_refuses_before_any_query no_faults 5%Z (num (91 # 1))
           (num (0 # 1)) fresh_world); reflexivity.
Defined.

(** Whatever [upsertUserLocation] returns is what a lookup of the user then
    finds: a row of the user that holds the latitude and the longitude given,
    each in its own column, stamped with the time of the write. *)
Theorem upsert_then_lookup e e' u lat lon w result w' :
  upsertUserLocation e u lat lon w = (Returned result, w') ->
  faults e' PgSelectUserLocation = false ->
  exists la lo row,
    lat = JNumber la /\ lon = JNumber lo /\ result = Some row
    /\ geo_user_id row = u /\ geo_latitude row = la /\ geo_longitude row = lo
    /\ updated_at row = now e
    /\ fst (getUserLocation e' u w') = Returned (Some row).
Proof.
  intros E F.
  destruct (upsert_outcome e u lat lon w) as (_ & _ & H).
  rewrite E in H. simpl in H.
  unfold getUserLocation, try_catch, attempt. rewrite F. simpl.
  destruct H as [(m & Hm & _) | [(la & lo & -> & -> & Hnone & Hg & Hr)
                                | (la & lo & -> & -> & Hsome & Hg & Hr)]];
    [discriminate| |].
  - exists la, lo, (mkGeo u lo la (now e)). inversion Hr; subst result.
    rewrite Hg, filter_app, Hnone. simpl. rewrite Z.eqb_refl.
    repeat split; reflexivity.
  - inversion Hr; subst result. rewrite Hg, filter_move_row.
    destruct (filter (fun r => (geo_user_id r =? u)%Z) (geo w)) as [|r0 rest] eqn:Hf;
      [now destruct Hsome|].
    assert (Hin : In r0 (filter (fun r => (geo_user_id r =? u)%Z) (geo w)))
      by (rewrite Hf; now left).
    apply filter_In in Hin. destruct Hin as [_ Hu]. apply Z.eqb_eq in Hu.
    exists la, lo, (mkGeo (geo_user_id r0) lo la (now e)). simpl.
    repeat split; try reflexivity. exact Hu.
Qed.

Lemma upsert_then_lookup_witness :
  exists la lo row,
    num (40 # 1) = JNumber la /\ num (-75 # 1) = JNumber lo
    /\ Some (mkGeo 5 (DNum (-75 # 1)) (DNum (40 # 1)) 0) = Some row
    /\ geo_user_id row = 5%Z /\ geo_latitude row = la /\ geo_longitude row = lo
    /\ updated_at row = now no_faults
    /\ fst (getUserLocation no_faults 5
              (snd (upsertUserLocation no_faults 5 (num (40 # 1))
                      (num (-75 # 1)) fresh_world))) = Returned (Some row).
Proof.
  apply (@upsert_then_lookup no_faults no_faults 5%Z (num (40 # 1))
           (num (-75 # 1)) fresh_world); reflexivity.
Defined.

(** [upsertUserLocation] keeps the PostGIS table to one row per user: if no
    user has two rows before, none has two after, whether the call returns
    or throws; and after a call that returns the user has a row. *)
Theorem upsert_keeps_one_row_per_user e u lat lon w :
  NoDup (map geo_user_id (geo w)) ->
  NoDup (map geo_user_id (geo (snd (upsertUserLocation e u lat lon w))))
  /\ (forall result,
         fst (upsertUserLocation e u lat lon w) = Returned result ->
         In u (map geo_user_id (geo (snd (upsertUserLocation e u lat lon w))))).
Proof.
  intros Hnd.
  destruct (upsert_outcome e u lat lon w) as (_ & _ & H).
  destruct H as [(m & Hm & Hg) | [(la & lo & _ & _ & Hnone & Hg & Hr)
                                | (la & lo & _ & _ & Hsome & Hg & Hr)]];
    rewrite Hg.
  - split; [exact Hnd|]. intros result Hres. congruence.
  - split.
    + rewrite map_app. simpl.
      apply NoDup_app; [exact Hnd | repeat constructor; intros [] |].
      intros x Hx [<-|[]].
      apply in_map_iff in Hx. destruct Hx as (r & Hu & Hr0).
      assert (Hin : In r (filter (fun r => (geo_user_id r =? u)%Z) (geo w)))
        by (apply filter_In; split; [exact Hr0 | now apply Z.eqb_eq]).
      rewrite Hnone in Hin. destruct Hin.
    + intros _ _. rewrite map_app. apply in_or_app. right. now left.
  - rewrite users_of_move_row. split; [exact Hnd|]. intros _ _.
    destruct (filter (fun r => (geo_user_id r =? u)%Z) (geo w)) as [|r0 rest] eqn:Hf;
      [now destruct Hsome|].
    assert (Hin : In r0 (filter (fun r => (geo_user_id r =? u)%Z) (geo w)))
      by (rewrite Hf; now left).
    apply filter_In in Hin. destruct Hin as [Hin Hu]. apply Z.eqb_eq in Hu.
    apply in_map_iff. exists r0. auto.
Qed.

Lemma upsert_keeps_one_row_per_user_witness :
  NoDup (map geo_user_id (geo fresh_world))
  /\ NoDup
       (map geo_user_id
          (geo (snd (upsertUserLocation no_faults 5 (num (40 # 1))
                       (num (-75 # 1)) fresh_world)))).
Proof.
  split; [constructor|].
  apply (@upsert_keeps_one_row_per_user no_faults 5%Z (num (40 # 1))
           (num (-75 # 1)) fresh_world). constructor.
Defined.

(** [upsertUserLocation] never touches the rows of another user, nor the
    primary store; and when it throws, the PostGIS table is exactly as it
    was. *)
Theorem upsert_touches_one_user_only e u lat lon w :
  filter (fun r => negb (geo_user_id r =? u)%Z)
    (geo (snd (upsertUserLocation e u lat lon w))) =
    filter (fun r => negb (geo_user_id r =? u)%Z) (geo w)
  /\ committed (snd (upsertUserLocation e u lat lon w)) = committed w
  /\ pending (snd (upsertUserLocation e u lat lon w)) = pending w
  /\ (forall message,
         fst (upsertUserLocation e u lat lon w) = Thrown message ->
         geo (snd (upsertUserLocation e u lat lon w)) = geo w).
Proof.
  destruct (upsert_outcome e u lat lon w) as (Hc & Hp & H).
  split; [|split; [exact Hc | split; [exact Hp|]]].
  - destruct H as [(m & Hm & Hg) | [(la & lo & _ & _ & Hnone & Hg & Hr)
                                  | (la & lo & _ & _ & Hsome & Hg & Hr)]];
      rewrite Hg.
    + reflexivity.
    + rewrite filter_app. simpl. rewrite Z.eqb_refl. simpl.
      now rewrite app_nil_r.
    + apply others_of_move_row.
  - intros message Hm.
    destruct H as [(m & _ & Hg) | [(la & lo & _ & _ & _ & _ & Hr)
                                 | (la & lo & _ & _ & _ & _ & Hr)]];
      [exact Hg | congruence | congruence].
Qed.

(* ===================================================================== *)
(** * More on the update path                                              *)
(* ===================================================================== *)

(** An update in full: either it is not reported successful and the
    committed tables are as before, or it is, and the committed tables have
    gained the location as the columns keep it and the current row that
    points at it, both under the identifiers the counters held. *)
Lemma call_detail sch c w o w' :
  call sch c w = (o, w') ->
  (succeeded o = false /\ committed w' = committed w)
  \/ (exists userId la lo,
         call_user c = Some userId /\ succeeded o = true
         /\ col_latitude sch (body_latitude (call_body c)) = Some la
         /\ col_longitude sch (body_longitude (call_body c)) = Some lo
         /\ committed w' =
              mkTables
                (locations (committed w)
                 ++ [mkLocation (next_location_id w) la lo
                       (or_null (body_city (call_body c)))
                       (or_null (body_state (call_body c)))
                       (or_null (body_country (call_body c)))
                       (or_null (body_postal_code (call_body c)))])
                (map (clear_row userId) (user_locations (committed w))
                 ++ [mkUserLocation (next_user_location_id w) userId
                       (next_location_id w) true (now (call_env c))])
                (businesses (committed w)) (user_preferences (committed w))
                (user_business_likes (committed w))).
Proof.
  intros E.
  destruct c as [e userId body | e [userId|] body];
    handler_run E; inversion E; subst; clear E;
    try (left; split; reflexivity);
    right; simpl; do 3 eexists; repeat split; eassumption.
Qed.

(** A location update that is not reported successful (any status but 201,
    on either endpoint, whatever failed and wherever) leaves the committed
    tables of the primary store exactly as they were. *)
Theorem failed_update_changes_nothing sch c w :
  succeeded (fst (call sch c w)) = false ->
  committed (snd (call sch c w)) = committed w.
Proof.
  intros H. destruct (call sch c w) as [o w'] eqn:E. simpl in *.
  destruct (call_detail _ _ _ E) as [[_ Hsame]|(u & la & lo & _ & Hok & _)];
    [exact Hsame | congruence].
Qed.

Lemma failed_update_changes_nothing_witness :
  succeeded
    (fst (call exact_schema
            (RouteUpdate commit_fails (Some 5%Z)
               (coordinates (num (42 # 1)) (num (-73 # 1))))
            one_user_world)) = false
  /\ committed
       (snd (call exact_schema
               (RouteUpdate commit_fails (Some 5%Z)
                  (coordinates (num (42 # 1)) (num (-73 # 1))))
               one_user_world)) = committed one_user_world.
Proof.
  split; [reflexivity|].
  apply (@failed_update_changes_nothing exact_schema
           (RouteUpdate commit_fails (Some 5%Z)
              (coordinates (num (42 # 1)) (num (-73 # 1))))
           one_user_world).
  reflexivity.
Defined.

(** The number of requests of a run that were reported successful. *)
Lemma run_calls_cons sch c rest w :
  run_calls sch (c :: rest) w =
    (fst (call sch c w) :: fst (run_calls sch rest (snd (call sch c w))),
     snd (run_calls sch rest (snd (call sch c w)))).
Proof.
  simpl. destruct (call sch c w) as [o w1]. simpl.
  now destruct (run_calls sch rest w1).
Qed.

(** The history of locations is append-only.  Through any sequence of update
    requests, the location records committed at the start stay in the table,
    unchanged and in place, and exactly one record is appended per successful
    update; the pointer table [user_locations] gains exactly one row per
    successful update and loses none. *)
Theorem location_history_is_append_only sch cs w :
  exists added,
    locations (committed (snd (run_calls sch cs w))) =
      locations (committed w) ++ added
    /\ List.length added =
         List.length (filter succeeded (fst (run_calls sch cs w)))
    /\ List.length (user_locations (committed (snd (run_calls sch cs w)))) =
         (List.length (user_locations (committed w))
          + List.length (filter succeeded (fst (run_calls sch cs w))))%nat.
Proof.
  revert w. induction cs as [|c rest IH]; intros w.
  - exists []. simpl. rewrite app_nil_r. repeat split; lia.
  - rewrite run_calls_cons. simpl.
    destruct (call sch c w) as [o w1] eqn:E. simpl.
    destruct (IH w1) as (added & Hl & Hn & Hu).
    destruct (call_detail _ _ _ E) as [[Hno Hsame]|(u & la & lo & _ & Hok & _ & _ & Hc)].
    + exists added. rewrite Hno, Hl, Hu, Hsame. repeat split; assumption || reflexivity.
    + rewrite Hok, Hl, Hu, Hc. simpl.
      eexists. rewrite <- app_assoc. split; [reflexivity|].
      rewrite !length_app, length_map. simpl. split; lia.
Qed.






(** The mirroring route turns away a request whose [user_id] is missing or
    is the number 0, with status 400, before it looks at the coordinates or
    sends anything to either store. *)
Theorem route_requires_user_id sch e user_id body w :
  user_id = None \/ user_id = Some 0%Z ->
  router_post_location sch e user_id body w =
    (Returned
       (mkResponse 400 (ErrorJson "User ID is required for testing" None)),
     turned_away w).
Proof.
  intros [-> | ->]; unfold router_post_location, try_finally, try_catch, bind,
    release, perform_op, ret; simpl; unfold turned_away; journal_shape;
    reflexivity.
Qed.

Lemma route_requires_user_id_witness :
  (Some 0%Z = None \/ Some 0%Z = Some 0%Z)
  /\ router_post_location exact_schema no_faults (Some 0%Z)
       (coordinates (num (40 # 1)) (num (-75 # 1))) fresh_world =
       (Returned
          (mkResponse 400 (ErrorJson "User ID is required for testing" None)),
        turned_away fresh_world).
Proof.
  split; [now right|].
  apply (@route_requires_user_id exact_schema no_faults (Some 0%Z)
           (coordinates (num (40 # 1)) (num (-75 # 1))) fresh_world).
  now right.
Defined.

Ltac use_mirror_goal :=
  match goal with
  | |- context [mirror_location ?e ?u ?la ?lo ?w] =>
      let r := fresh "r" in
      let g := fresh "g" in
      let j := fresh "j" in
      let H := fresh "Hmirror" in
      let Hj := fresh "Hj" in
      destruct (mirror_location_frame e u la lo w) as (r & g & j & H & Hj);
      rewrite H; clear H
  end.

(** The mirror never changes what the primary store does.  For the same
    request and the same failures of the primary store, the mirroring route
    and the plain endpoint answer with the same status and commit the same
    tables, whatever the PostGIS service does. *)
Theorem mirror_never_changes_primary sch e userId body w :
  userId <> 0%Z ->
  committed (snd (router_post_location sch e (Some userId) body w)) =
    committed (snd (post_user_location sch e userId body w))
  /\ status_of (fst (router_post_location sch e (Some userId) body w)) =
       status_of (fst (post_user_location sch e userId body w)).
Proof.
  intros Hu. apply Z.eqb_neq in Hu.
  unfold router_post_location, post_user_location, beginTransaction,
    insert_location, clear_current, insert_user_location, commit, rollback,
    release, try_finally, try_catch, bind, ret, throw, attempt, perform_op.
  rewrite Hu. simpl.
  repeat (first [js_split | use_mirror_goal]; simpl);
    split; reflexivity.
Qed.

Lemma mirror_never_changes_primary_witness :
  5%Z <> 0%Z
  /\ committed
       (snd (router_post_location exact_schema mirror_down (Some 5%Z)
               (coordinates (num (40 # 1)) (num (-75 # 1))) one_user_world)) =
     committed
       (snd (post_user_location exact_schema mirror_down 5
               (coordinates (num (40 # 1)) (num (-75 # 1))) one_user_world))
  /\ status_of
       (fst (router_post_location exact_schema mirror_down (Some 5%Z)
               (coordinates (num (40 # 1)) (num (-75 # 1))) one_user_world)) =
     status_of
       (fst (post_user_location exact_schema mirror_down 5
               (coordinates (num (40 # 1)) (num (-75 # 1))) one_user_world)).
Proof.
  split; [discriminate|].
  apply (@mirror_never_changes_primary exact_schema mirror_down 5%Z
           (coordinates (num (40 # 1)) (num (-75 # 1))) one_user_world).
  discriminate.
Defined.

(* ===================================================================== *)
(** * Reading the current location back                                    *)
(* ===================================================================== *)

Arguments current_location_records : simpl never.

Lemma call_counter sch c w o w' :
  call sch c w = (o, w') ->
  (next_location_id w <= next_location_id w')%Z
  /\ (succeeded o = true -> next_location_id w' = (next_location_id w + 1)%Z).
Proof.
  intros E.
  destruct c as [e userId body | e [userId|] body];
    handler_run E; inversion E; subst; clear E; simpl;
    split; try lia; try discriminate; reflexivity.
Qed.

Lemma call_keeps_ids_below sch c w :
  ids_below_counter w -> ids_below_counter (snd (call sch c w)).
Proof.
  intros H. destruct (call sch c w) as [o w'] eqn:E. simpl.
  destruct (call_counter _ _ _ E) as [Hle Hsucc].
  destruct (call_detail _ _ _ E) as [[_ Hsame]|(u & la & lo & _ & Hok & _ & _ & Hc)];
    intros l Hl.
  - rewrite Hsame in Hl. apply H in Hl. lia.
  - rewrite Hc in Hl. simpl in Hl. rewrite (Hsucc Hok).
    apply in_app_or in Hl. destruct Hl as [Hl|[<-|[]]].
    + apply H in Hl. lia.
    + simpl. lia.
Qed.

Lemma run_calls_keeps_ids_below sch cs : forall w,
  ids_below_counter w -> ids_below_counter (snd (run_calls sch cs w)).
Proof.
  induction cs as [|c rest IH]; intros w H; [exact H|].
  rewrite run_calls_cons. simpl. apply IH. now apply call_keeps_ids_below.
Qed.

Lemma join_locations_app {A : Type} (location_of : A -> Z) (r1 r2 : list A) locs :
  join_locations location_of (r1 ++ r2) locs =
  join_locations location_of r1 locs ++ join_locations location_of r2 locs.
Proof. unfold join_locations. apply flat_map_app. Qed.

(** After an update of [u], the lookup of [u]'s current location finds the
    new record and nothing else, provided the identifier of the record is
    new to the table. *)
Lemma current_records_after_update (u : Z) rows locs new_ul new_loc bs ps ks :
  ul_user_id new_ul = u -> is_current new_ul = true ->
  ul_location_id new_ul = location_id new_loc ->
  (forall l, In l locs -> location_id l <> location_id new_loc) ->
  current_location_records u
    (mkTables (locs ++ [new_loc]) (map (clear_row u) rows ++ [new_ul]) bs ps ks)
  = [new_loc].
Proof.
  intros Hu Hc Hid Hfresh. unfold current_location_records. simpl.
  rewrite join_locations_app, filter_app, map_app.
  rewrite filter_nothing.
  - simpl. unfold join_locations. simpl. rewrite app_nil_r, filter_app.
    rewrite (filter_nothing _ locs).
    + simpl. rewrite Hid, Z.eqb_refl. simpl. rewrite Hu, Z.eqb_refl, Hc.
      reflexivity.
    + intros l Hl. apply Z.eqb_neq. rewrite Hid. intros Heq.
      apply (Hfresh l Hl). now symmetry.
  - intros [ul l] Hr. apply In_join_locations in Hr. simpl in *.
    destruct Hr as (Hul & _ & _). apply in_map_iff in Hul.
    destruct Hul as (r & <- & _). unfold clear_row.
    destruct (ul_user_id r =? u)%Z eqn:Hr; simpl; rewrite Hr;
      [apply andb_false_r | reflexivity].
Qed.

(** The last successful update is the current location.  Start from a store
    whose location identifiers are below the counter, serve any sequence of
    update requests, then an update of user [u] that succeeds: a lookup of
    [u]'s current location then answers 200 with the record of that last
    update (its coordinates as the columns keep them, its address fields),
    whatever [u] or anybody else had reported before. *)
Theorem last_update_is_the_current_location sch cs c w e' u :
  ids_below_counter w ->
  call_user c = Some u ->
  succeeded (fst (call sch c (snd (run_calls sch cs w)))) = true ->
  faults e' MySelectCurrentLocation = false ->
  exists la lo id,
    col_latitude sch (body_latitude (call_body c)) = Some la
    /\ col_longitude sch (body_longitude (call_body c)) = Some lo
    /\ fst (get_user_location e' u
              (snd (call sch c (snd (run_calls sch cs w))))) =
         Returned
           (mkReply 200
              (JsonData
                 (mkLocation id la lo
                    (or_null (body_city (call_body c)))
                    (or_null (body_state (call_body c)))
                    (or_null (body_country (call_body c)))
                    (or_null (body_postal_code (call_body c)))))).
Proof.
  intros Hids Hu Hok F.
  pose proof (run_calls_keeps_ids_below sch cs Hids) as Hbelow.
  set (w1 := snd (run_calls sch cs w)) in *.
  destruct (call sch c w1) as [o w2] eqn:E. simpl in *.
  destruct (call_detail _ _ _ E) as [[Hno _]|(v & la & lo & Hv & _ & Hla & Hlo & Hc)];
    [congruence|].
  assert (v = u) by congruence. subst v.
  exists la, lo, (next_location_id w1). split; [exact Hla|]. split; [exact Hlo|].
  unfold get_user_location, try_catch, bind, ret, attempt. rewrite F. simpl.
  rewrite Hc, current_records_after_update; try reflexivity.
  intros l Hl. apply Hbelow in Hl. simpl. lia.
Qed.

Lemma last_update_is_the_current_location_witness :
  ids_below_counter fresh_world
  /\ exists la lo id,
       col_latitude exact_schema (num (41 # 1)) = Some la
       /\ col_longitude exact_schema (num (-74 # 1)) = Some lo
       /\ fst (get_user_location no_faults 5
                 (snd (call exact_schema
                         (AppUpdate no_faults 5
                            (coordinates (num (41 # 1)) (num (-74 # 1))))
                         (snd (run_calls exact_schema
                                 [AppUpdate no_faults 5
                                    (coordinates (num (40 # 1)) (num (-75 # 1)))]
                                 fresh_world))))) =
            Returned
              (mkReply 200 (JsonData (mkLocation id la lo None None None None))).
Proof.
  split; [intros l []|].
  apply (@last_update_is_the_current_location exact_schema
           [AppUpdate no_faults 5 (coordinates (num (40 # 1)) (num (-75 # 1)))]
           (AppUpdate no_faults 5 (coordinates (num (41 # 1)) (num (-74 # 1))))
           fresh_world no_faults 5%Z);
    try reflexivity.
  intros l [].
Defined.

(** A user none of whose rows is current gets 404 "Current location not
    found" from the lookup, once the query goes through; the lookup never
    changes either store. *)
Theorem get_location_without_current_row e userId w :
  count_current userId (user_locations (committed w)) = 0%nat ->
  faults e MySelectCurrentLocation = false ->
  get_user_location e userId w =
    (Returned (mkReply 404 (JsonError "Current location not found")),
     record_op MySelectCurrentLocation w).
Proof.
  intros H F. apply no_current_location in H.
  unfold get_user_location, try_catch, bind, ret, attempt. rewrite F. simpl.
  assert (Hrec : current_location_records userId (committed w) = []).
  { unfold current_location_records. unfold current_location_rows in H.
    apply map_eq_nil in H. now rewrite H. }
  now rewrite Hrec.
Qed.

Lemma get_location_without_current_row_witness :
  count_current 6 (user_locations (committed one_user_world)) = 0%nat
  /\ get_user_location no_faults 6 one_user_world =
       (Returned (mkReply 404 (JsonError "Current location not found")),
        record_op MySelectCurrentLocation one_user_world).
Proof.
  split; [reflexivity|].
  apply (@get_location_without_current_row no_faults 6%Z one_user_world);
    reflexivity.
Defined.

(* ===================================================================== *)
(** * Friendships and the location of a friend                             *)
(* ===================================================================== *)

Lemma accepted_friendships_spec (a b : Z) (fs : list FriendshipRow)
    (f : FriendshipRow) :
  In f (accepted_friendships a b fs) <-> In f fs /\ friends a b f.
Proof.
  unfold accepted_friendships, friends. rewrite filter_In.
  rewrite andb_true_iff, orb_true_iff, !andb_true_iff, !Z.eqb_eq.
  destruct (f_status f); simpl; intuition discriminate.
Qed.

Lemma friends_symmetric (a b : Z) (f : FriendshipRow) :
  friends a b f <-> friends b a f.
Proof. unfold friends. intuition. Qed.

(** The location of a user is disclosed to friends only.  Whenever the
    handler answers 200 with a location, the table holds an accepted
    friendship between the requester and that user (a pending or rejected
    request does not count), and the location sent is a current location of
    that user, with the time it was reported. *)
Theorem friend_location_is_for_friends_only e fails fs userId friendId w l t w' :
  get_friend_location e fails fs userId friendId w =
    (Returned (mkReply 200 (JsonData (l, t))), w') ->
  (exists f, In f fs /\ friends userId friendId f)
  /\ exists ul,
       In ul (user_locations (committed w)) /\ In l (locations (committed w))
       /\ ul_user_id ul = friendId /\ is_current ul = true
       /\ ul_location_id ul = location_id l /\ t = timestamp ul.
Proof.
  intros E.
  unfold get_friend_location, try_catch, bind, ret, pool_query, attempt in E.
  destruct fails; simpl in E; [discriminate|].
  destruct (accepted_friendships userId friendId fs) as [|f others] eqn:Hf;
    simpl in E; [discriminate|].
  destruct (faults e MySelectCurrentLocation); simpl in E; [discriminate|].
  destruct (friend_location_records friendId (committed w)) as [|r rs] eqn:Hr;
    simpl in E; [discriminate|].
  inversion E; subst; clear E. split.
  - exists f. apply accepted_friendships_spec. rewrite Hf. now left.
  - assert (Hin : In (l, t) (friend_location_records friendId (committed w)))
      by (rewrite Hr; now left).
    unfold friend_location_records in Hin. apply in_map_iff in Hin.
    destruct Hin as ([ul l0] & Heq & Hin). inversion Heq; subst; clear Heq.
    apply filter_In in Hin. destruct Hin as [Hin Hp].
    apply In_join_locations in Hin. simpl in *.
    destruct Hin as (Hul & Hl & Hid).
    apply andb_true_iff in Hp. destruct Hp as [Hu Hc]. apply Z.eqb_eq in Hu.
    exists ul. auto 10.
Qed.

Lemma friend_location_is_for_friends_only_witness :
  get_friend_location no_faults false sample_friendships 3 5 one_user_world =
    (Returned
       (mkReply 200
          (JsonData
             (mkLocation 1 (40 # 1) (-75 # 1) None None None None, 0%nat))),
     record_op MySelectCurrentLocation one_user_world)
  /\ (exists f, In f sample_friendships /\ friends 3 5 f)
  /\ exists ul,
       In ul (user_locations (committed one_user_world))
       /\ In (mkLocation 1 (40 # 1) (-75 # 1) None None None None)
            (locations (committed one_user_world))
       /\ ul_user_id ul = 5%Z /\ is_current ul = true
       /\ ul_location_id ul =
            location_id (mkLocation 1 (40 # 1) (-75 # 1) None None None None)
       /\ 0%nat = timestamp ul.
Proof.
  split; [reflexivity|].
  apply (@friend_location_is_for_friends_only no_faults false sample_friendships
           3%Z 5%Z one_user_world _ _ _ eq_refl).
Defined.

(** Without an accepted friendship between the two users (in either
    direction) the handler answers 403 and stops there: the location of the
    other user is not even read. *)
Theorem strangers_get_no_location e fs userId friendId w :
  (forall f, In f fs -> ~ friends userId friendId f) ->
  get_friend_location e false fs userId friendId w =
    (Returned
       (mkReply 403 (JsonError "Not authorized to view this user's location")),
     w).
Proof.
  intros H.
  unfold get_friend_location, try_catch, bind, ret, pool_query.
  destruct (accepted_friendships userId friendId fs) as [|f others] eqn:Hf;
    [reflexivity|].
  exfalso.
  assert (Hin : In f (accepted_friendships userId friendId fs))
    by (rewrite Hf; now left).
  apply accepted_friendships_spec in Hin. destruct Hin as [Hin Hfr].
  exact (H f Hin Hfr).
Qed.

Lemma strangers_get_no_location_witness :
  (forall f, In f sample_friendships -> ~ friends 2 1 f)
  /\ get_friend_location no_faults false sample_friendships 2 1 one_user_world =
       (Returned
          (mkReply 403
             (JsonError "Not authorized to view this user's location")),
        one_user_world).
Proof.
  assert (H : forall f, In f sample_friendships -> ~ friends 2 1 f).
  { intros f [<-|[<-|[]]] [Hs Hu]; simpl in *;
      [discriminate | destruct Hu as [[Hu _]|[Hu _]]; discriminate]. }
  split; [exact H|].
  apply (@strangers_get_no_location no_faults sample_friendships 2%Z 1%Z
           one_user_world H).
Defined.

Lemma pending_requests_spec (friendshipId userId : Z) fs (f : FriendshipRow) :
  In f (pending_requests friendshipId userId fs) <->
  In f fs /\ friendship_id f = friendshipId /\ user_id_2 f = userId
  /\ f_status f = Pending.
Proof.
  unfold pending_requests. rewrite filter_In, !andb_true_iff, !Z.eqb_eq.
  destruct (f_status f); simpl; intuition discriminate.
Qed.

(** Only the recipient of a pending request can decide it.  Whatever the
    request, either the table of friendships is left as it was, or the answer
    is 200, the friendship named is a pending request addressed to the
    requester, the status asked for is "accepted" or "rejected", and the rows
    with that identifier take that status. *)
Theorem only_the_recipient_decides select_fails update_fails userId
    friendshipId status_field fs :
  snd (put_friend_request select_fails update_fails userId friendshipId
         status_field fs) = fs
  \/ exists f s,
       In f fs /\ friendship_id f = friendshipId /\ user_id_2 f = userId
       /\ f_status f = Pending
       /\ requested_status status_field = Some s /\ s <> Pending
       /\ reply_status
            (fst (put_friend_request select_fails update_fails userId
                    friendshipId status_field fs)) = 200%nat
       /\ snd (put_friend_request select_fails update_fails userId
                 friendshipId status_field fs) =
            map (set_status friendshipId s) fs.
Proof.
  unfold put_friend_request.
  destruct (requested_status status_field) as [s|] eqn:Hs; [|now left].
  destruct select_fails; [now left|].
  destruct (pending_requests friendshipId userId fs) as [|f others] eqn:Hp;
    [now left|].
  destruct update_fails; [now left|].
  right. exists f, s.
  assert (Hin : In f (pending_requests friendshipId userId fs))
    by (rewrite Hp; now left).
  apply pending_requests_spec in Hin. destruct Hin as (Hin & Hid & Hu & Hst).
  repeat split; try assumption; try reflexivity.
  intros ->. unfold requested_status in Hs.
  destruct status_field as [| | | |t|]; try discriminate.
  destruct (String.eqb t "accepted") eqn:Ha;
    [apply String.eqb_eq in Ha; subst; discriminate|].
  destruct (String.eqb t "rejected") eqn:Hr;
    [apply String.eqb_eq in Hr; subst; discriminate|].
  revert Hs.
  repeat (match goal with
          | |- context [match ?x with _ => _ end] => destruct x
          end; try discriminate).
Qed.

Lemma ids_of_set_status (friendshipId : Z) (s : FriendshipStatus) fs :
  map friendship_id (map (set_status friendshipId s) fs) = map friendship_id fs.
Proof.
  induction fs as [|f rest IH]; simpl; [reflexivity|].
  rewrite IH. unfold set_status. now destruct (friendship_id f =? friendshipId)%Z.
Qed.

Lemma same_id_same_row (fs : list FriendshipRow) (f g : FriendshipRow) :
  NoDup (map friendship_id fs) -> In f fs -> In g fs ->
  friendship_id f = friendship_id g -> f = g.
Proof.
  induction fs as [|h rest IH]; simpl; intros Hnd Hf Hg Heq; [destruct Hf|].
  inversion Hnd as [|x xs Hnotin Hnd']; subst.
  destruct Hf as [<-|Hf]; destruct Hg as [<-|Hg]; try reflexivity.
  - exfalso. apply Hnotin. rewrite Heq. now apply in_map.
  - exfalso. apply Hnotin. rewrite <- Heq. now apply in_map.
  - now apply IH.
Qed.

(** A decided request is final.  When friendship identifiers are unique, a
    row that is accepted or rejected stays in the table as it is through any
    answer to a friend request: only pending rows ever change, and the
    identifiers stay unique. *)
Theorem decided_requests_are_final select_fails update_fails userId
    friendshipId status_field fs g :
  NoDup (map friendship_id fs) ->
  In g fs -> f_status g <> Pending ->
  In g (snd (put_friend_request select_fails update_fails userId friendshipId
               status_field fs))
  /\ NoDup
       (map friendship_id
          (snd (put_friend_request select_fails update_fails userId
                  friendshipId status_field fs))).
Proof.
  intros Hnd Hg Hdecided. unfold put_friend_request.
  destruct (requested_status status_field) as [s|]; [|now split].
  destruct select_fails; [now split|].
  destruct (pending_requests friendshipId userId fs) as [|f others] eqn:Hp;
    [now split|].
  destruct update_fails; [now split|].
  simpl. rewrite ids_of_set_status. split; [|exact Hnd].
  assert (Hin : In f (pending_requests friendshipId userId fs))
    by (rewrite Hp; now left).
  apply pending_requests_spec in Hin. destruct Hin as (Hin & Hid & _ & Hst).
  apply in_map_iff. exists g. split; [|exact Hg].
  unfold set_status.
  destruct (friendship_id g =? friendshipId)%Z eqn:Heq; [|reflexivity].
  apply Z.eqb_eq in Heq.
  assert (g = f) by (apply (same_id_same_row fs); congruence).
  subst g. congruence.
Qed.

Lemma decided_requests_are_final_witness :
  NoDup (map friendship_id sample_friendships)
  /\ In (mkFriendship 2 3 5 Accepted)
       (snd (put_friend_request false false 2 1 (JString "rejected")
               sample_friendships)).
Proof.
  assert (Hnd : NoDup (map friendship_id sample_friendships)).
  { simpl. repeat constructor; simpl; intuition discriminate. }
  split; [exact Hnd|].
  apply (@decided_requests_are_final false false 2%Z 1%Z (JString "rejected")
           sample_friendships (mkFriendship 2 3 5 Accepted) Hnd).
  - simpl. auto.
  - discriminate.
Defined.

(** Accepting opens both directions.  Once the recipient has accepted a
    request (the answer is 200), neither of the two users is answered 403
    any more when asking for the other's location: the store is asked for
    the location, whoever of the two had sent the request. *)
Theorem accepting_opens_both_directions userId friendshipId fs :
  reply_status
    (fst (put_friend_request false false userId friendshipId
            (JString "accepted") fs)) = 200%nat ->
  exists sender,
    (exists f, In f fs /\ friendship_id f = friendshipId
               /\ user_id_1 f = sender /\ user_id_2 f = userId
               /\ f_status f = Pending)
    /\ forall e w,
         reply_code
           (fst (get_friend_location e false
                   (snd (put_friend_request false false userId friendshipId
                           (JString "accepted") fs))
                   userId sender w)) <> Some 403%nat
         /\ reply_code
              (fst (get_friend_location e false
                      (snd (put_friend_request false false userId friendshipId
                              (JString "accepted") fs))
                      sender userId w)) <> Some 403%nat.
Proof.
  unfold put_friend_request. simpl.
  destruct (pending_requests friendshipId userId fs) as [|f others] eqn:Hp;
    simpl; [discriminate|]. intros _.
  assert (Hin : In f (pending_requests friendshipId userId fs))
    by (rewrite Hp; now left).
  apply pending_requests_spec in Hin. destruct Hin as (Hin & Hid & Hu & Hst).
  exists (user_id_1 f). split; [exists f; auto|].
  set (fs' := map (set_status friendshipId Accepted) fs).
  assert (Hg : In (mkFriendship (friendship_id f) (user_id_1 f) (user_id_2 f)
                     Accepted) fs').
  { apply in_map_iff. exists f. split; [|exact Hin].
    unfold set_status. apply Z.eqb_eq in Hid. now rewrite Hid. }
  assert (Hopen : forall a b,
             friends a b
               (mkFriendship (friendship_id f) (user_id_1 f) (user_id_2 f)
                  Accepted) ->
             forall e w,
               reply_code (fst (get_friend_location e false fs' a b w))
               <> Some 403%nat).
  { intros a b Hfr e w.
    unfold get_friend_location, try_catch, bind, ret, pool_query, attempt.
    destruct (accepted_friendships a b fs') as [|h hs] eqn:Hacc.
    - exfalso.
      assert (Hx : In (mkFriendship (friendship_id f) (user_id_1 f)
                         (user_id_2 f) Accepted)
                     (accepted_friendships a b fs'))
        by (apply accepted_friendships_spec; auto).
      rewrite Hacc in Hx. destruct Hx.
    - destruct (faults e MySelectCurrentLocation); simpl; [discriminate|].
      destruct (friend_location_records b (committed w)); simpl; discriminate. }
  intros e w. split; apply Hopen; unfold friends; simpl; auto.
Qed.

Lemma accepting_opens_both_directions_witness :
  exists sender,
    (exists f, In f sample_friendships /\ friendship_id f = 1%Z
               /\ user_id_1 f = sender /\ user_id_2 f = 2%Z
               /\ f_status f = Pending)
    /\ forall e w,
         reply_code
           (fst (get_friend_location e false
                   (snd (put_friend_request false false 2 1
                           (JString "accepted") sample_friendships))
                   2 sender w)) <> Some 403%nat
         /\ reply_code
              (fst (get_friend_location e false
                      (snd (put_friend_request false false 2 1
                              (JString "accepted") sample_friendships))
                      sender 2 w)) <> Some 403%nat.
Proof.
  apply (@accepting_opens_both_directions 2%Z 1%Z sample_friendships).
  reflexivity.
Defined.

(* ===================================================================== *)
(** * Likes                                                                *)
(* ===================================================================== *)

Lemma same_like_spec (userId businessId : Z) (k : UserBusinessLikeRow) :
  same_like userId businessId k = true <-> like_pair k = (userId, businessId).
Proof.
  unfold same_like, like_pair. rewrite andb_true_iff, !Z.eqb_eq.
  split; [intros [-> ->]; reflexivity | intros H; inversion H; auto].
Qed.

(** The two ways a like can end: the table is as before, or the answer is
    201, the business exists, the user had no like of it, and one row is
    appended. *)
Lemma post_business_like_cases f userId businessId w :
  snd (post_business_like f userId businessId w) = w
  \/ (fst (post_business_like f userId businessId w) =
        Returned (mkReply 201 (JsonMessage "Business liked successfully"))
      /\ filter (same_like userId businessId)
           (user_business_likes (committed w)) = []
      /\ (exists b, In b (businesses (committed w))
                    /\ business_id b = businessId)
      /\ snd (post_business_like f userId businessId w) =
           set_committed
             (set_likes
                (user_business_likes (committed w) ++ [mkLike userId businessId])
                (committed w))
             w).
Proof.
  unfold post_business_like, try_catch, bind, ret, pool_query.
  destruct (select_business_fails f); simpl; [now left|].
  destruct (filter (fun b => (business_id b =? businessId)%Z)
              (businesses (committed w))) as [|b bs] eqn:Hb; simpl; [now left|].
  destruct (select_like_fails f); simpl; [now left|].
  destruct (filter (same_like userId businessId)
              (user_business_likes (committed w))) as [|k ks] eqn:Hk; simpl;
    [|now left].
  destruct (insert_like_fails f); simpl; [now left|].
  right. repeat split; try reflexivity.
  assert (Hin : In b (filter (fun b => (business_id b =? businessId)%Z)
                        (businesses (committed w))))
    by (rewrite Hb; now left).
  apply filter_In in Hin. destruct Hin as [Hin Hid]. apply Z.eqb_eq in Hid.
  exists b. auto.
Qed.

(** A like is never stored twice.  If no pair of user and business occurs
    twice among the likes, none does after a request to like a business,
    whatever its answer: a second like of the same business is answered 409
    and stores nothing. *)
Theorem like_is_never_stored_twice f userId businessId w :
  NoDup (map like_pair (user_business_likes (committed w))) ->
  NoDup
    (map like_pair
       (user_business_likes
          (committed (snd (post_business_like f userId businessId w))))).
Proof.
  intros Hnd.
  destruct (post_business_like_cases f userId businessId w)
    as [-> | (_ & Hnone & _ & ->)]; [exact Hnd|].
  simpl. rewrite map_app. simpl.
  apply NoDup_app; [exact Hnd | repeat constructor; intros [] |].
  intros p Hp [<-|[]].
  apply in_map_iff in Hp. destruct Hp as (k & Hk & Hin).
  assert (Hx : In k (filter (same_like userId businessId)
                       (user_business_likes (committed w))))
    by (apply filter_In; split; [exact Hin | now apply same_like_spec]).
  rewrite Hnone in Hx. destruct Hx.
Qed.

Lemma like_is_never_stored_twice_witness :
  NoDup (map like_pair (user_business_likes (committed two_shops_world)))
  /\ NoDup
       (map like_pair
          (user_business_likes
             (committed (snd (post_business_like likes_work 5 1 two_shops_world))))).
Proof.
  assert (H : NoDup (map like_pair (user_business_likes (committed two_shops_world))))
    by (simpl; repeat constructor; simpl; intuition).
  split; [exact H|].
  apply (@like_is_never_stored_twice likes_work 5%Z 1%Z two_shops_world H).
Defined.

(** Whatever the recommendation handler lists for a user with no position
    is a candidate of the user's cluster: a business that the user has not
    liked. *)
Lemma recommended_rows_are_candidates e userId limit w rows w' :
  current_location_rows userId (committed w) = [] ->
  get_recommendations e userId limit w =
    (Returned (mkResponse 200 (Recommendations rows)), w') ->
  exists clusterId,
    hd_error
      (map up_cluster_id
         (filter (fun p => (up_user_id p =? userId)%Z)
            (user_preferences (committed w)))) = Some clusterId
    /\ Forall (fun r => candidate clusterId userId (committed w) (fst r)) rows.
Proof.
  intros Hloc E. apply recommendations_listed in E.
  destruct E as (clusterId & n & Hhd & _ & _ & Hrows).
  rewrite Hloc in Hrows. destruct Hrows as [Hcand _].
  exists clusterId. auto.
Qed.

(** A like that is answered 201 has appended its row, for a business that
    exists and that the user had not liked. *)
Lemma post_business_like_created f userId businessId w m w' :
  post_business_like f userId businessId w = (Returned (mkReply 201 m), w') ->
  filter (same_like userId businessId) (user_business_likes (committed w)) = []
  /\ w' =
       set_committed
         (set_likes
            (user_business_likes (committed w) ++ [mkLike userId businessId])
            (committed w))
         w.
Proof.
  unfold post_business_like, try_catch, bind, ret, pool_query.
  destruct (select_business_fails f); simpl; [discriminate|].
  destruct (filter (fun b => (business_id b =? businessId)%Z)
              (businesses (committed w))); simpl; [discriminate|].
  destruct (select_like_fails f); simpl; [discriminate|].
  destruct (filter (same_like userId businessId)
              (user_business_likes (committed w))); simpl; [|discriminate].
  destruct (insert_like_fails f); simpl; [discriminate|].
  intros H. inversion H. split; reflexivity.
Qed.

(** A liked business is not recommended again to a user with no position.
    After a like that was answered 201, no list of recommendations served
    to that user from the resulting store holds the business, as long as the
    user has no current location there.  (With one, the query looks up the
    likes of the user whose identifier is the latitude.) *)
Theorem liked_business_is_not_recommended f e userId businessId limit w m w'
    rows w'' :
  post_business_like f userId businessId w = (Returned (mkReply 201 m), w') ->
  current_location_rows userId (committed w') = [] ->
  get_recommendations e userId limit w' =
    (Returned (mkResponse 200 (Recommendations rows)), w'') ->
  Forall (fun r => bc_business_id (fst r) <> businessId) rows.
Proof.
  intros Hlike Hloc Hrec.
  apply post_business_like_created in Hlike. destruct Hlike as [_ ->].
  destruct (recommended_rows_are_candidates _ _ _ _ Hloc Hrec) as (c & _ & Hcand).
  eapply Forall_impl; [|exact Hcand].
  intros r (b & l & _ & _ & _ & Hcols & _ & Hnot). rewrite Hcols. simpl.
  intros Heq. apply (Hnot (mkLike userId businessId)); simpl; auto.
  apply in_or_app. right. now left.
Qed.

(** User 7 of the scenario, who has no position, likes business 1 and is
    then recommended the other two businesses of the cluster. *)
Lemma liked_business_is_not_recommended_witness :
  post_business_like likes_work 7 1 scenario_world =
    (Returned (mkReply 201 (JsonMessage "Business liked successfully")),
     snd (post_business_like likes_work 7 1 scenario_world))
  /\ current_location_rows 7
       (committed (snd (post_business_like likes_work 7 1 scenario_world))) = []
  /\ fst (get_recommendations no_faults 7 None
            (snd (post_business_like likes_work 7 1 scenario_world))) =
       Returned
         (mkResponse 200
            (Recommendations
               [(mkColumns 3 "C" "c" "cafe" (49 # 10) (42 # 1) (-73 # 1)
                   None None None, None);
                (mkColumns 2 "B" "b" "cafe" (32 # 10) (41 # 1) (-74 # 1)
                   None None None, None)]))
  /\ Forall (fun r => bc_business_id (fst r) <> 1%Z)
       [(mkColumns 3 "C" "c" "cafe" (49 # 10) (42 # 1) (-73 # 1)
           None None None, @None (option float));
        (mkColumns 2 "B" "b" "cafe" (32 # 10) (41 # 1) (-74 # 1)
           None None None, None)].
Proof.
  assert (H1 : post_business_like likes_work 7 1 scenario_world =
    (Returned (mkReply 201 (JsonMessage "Business liked successfully")),
     snd (post_business_like likes_work 7 1 scenario_world))) by reflexivity.
  assert (H2 : current_location_rows 7
       (committed (snd (post_business_like likes_work 7 1 scenario_world))) = [])
    by reflexivity.
  assert (H3 : get_recommendations no_faults 7 None
       (snd (post_business_like likes_work 7 1 scenario_world)) =
       (Returned
          (mkResponse 200
             (Recommendations
                [(mkColumns 3 "C" "c" "cafe" (49 # 10) (42 # 1) (-73 # 1)
                    None None None, None);
                 (mkColumns 2 "B" "b" "cafe" (32 # 10) (41 # 1) (-74 # 1)
                    None None None, None)])),
        snd (get_recommendations no_faults 7 None
               (snd (post_business_like likes_work 7 1 scenario_world)))))
    by (vm_compute; reflexivity).
  split; [exact H1|]. split; [exact H2|]. split; [now rewrite H3|].
  exact (@liked_business_is_not_recommended likes_work no_faults 7%Z 1%Z None
           scenario_world _ _ _ _ H1 H2 H3).
Defined.

Lemma filter_everything {A : Type} (p : A -> bool) (l : list A) :
  (forall a, In a l -> p a = true) -> filter p l = l.
Proof.
  induction l as [|x rest IH]; simpl; intros H; [reflexivity|].
  rewrite (H x) by now left. f_equal. apply IH. intros a Ha. apply H. now right.
Qed.

Lemma set_likes_same (t : Tables) : set_likes (user_business_likes t) t = t.
Proof. now destruct t. Qed.

(** Like, then unlike, and the store is as it was: after a like answered 201,
    removing the like is answered 200 and leaves the committed tables exactly
    as they were before the like. *)
Theorem like_then_unlike_restores f userId businessId w m w' :
  post_business_like f userId businessId w = (Returned (mkReply 201 m), w') ->
  fst (delete_business_like false userId businessId w') =
    Returned (mkReply 200 (JsonMessage "Business unliked successfully"))
  /\ committed (snd (delete_business_like false userId businessId w')) =
       committed w.
Proof.
  intros Hlike. apply post_business_like_created in Hlike.
  destruct Hlike as [Hnone ->].
  unfold delete_business_like, try_catch, bind, ret, pool_query. simpl.
  rewrite !filter_app, Hnone. simpl.
  assert (Hs : same_like userId businessId (mkLike userId businessId) = true)
    by (apply same_like_spec; reflexivity).
  rewrite Hs. simpl. split; [reflexivity|].
  rewrite app_nil_r, filter_everything;
    [destruct (committed w); reflexivity|].
  intros k Hk.
  destruct (same_like userId businessId k) eqn:Hsame; [|reflexivity].
  assert (Hx : In k (filter (same_like userId businessId)
                       (user_business_likes (committed w))))
    by (apply filter_In; auto).
  rewrite Hnone in Hx. destruct Hx.
Qed.

Lemma like_then_unlike_restores_witness :
  post_business_like likes_work 5 1 two_shops_world =
    (Returned (mkReply 201 (JsonMessage "Business liked successfully")),
     snd (post_business_like likes_work 5 1 two_shops_world))
  /\ fst (delete_business_like false 5 1
            (snd (post_business_like likes_work 5 1 two_shops_world))) =
       Returned (mkReply 200 (JsonMessage "Business unliked successfully"))
  /\ committed
       (snd (delete_business_like false 5 1
               (snd (post_business_like likes_work 5 1 two_shops_world)))) =
       committed two_shops_world.
Proof.
  assert (H1 : post_business_like likes_work 5 1 two_shops_world =
    (Returned (mkReply 201 (JsonMessage "Business liked successfully")),
     snd (post_business_like likes_work 5 1 two_shops_world))) by reflexivity.
  split; [exact H1|].
  exact (@like_then_unlike_restores likes_work 5%Z 1%Z two_shops_world _ _ H1).
Defined.

Lemma delete_business_like_world userId businessId w :
  snd (delete_business_like false userId businessId w) =
    set_committed
      (set_likes
         (filter (fun k => negb (same_like userId businessId k))
            (user_business_likes (committed w)))
         (committed w))
      w.
Proof.
  unfold delete_business_like, try_catch, bind, ret, pool_query. simpl.
  now destruct (List.length _ =? 0)%nat.
Qed.

Lemma delete_business_like_reply userId businessId w :
  fst (delete_business_like false userId businessId w) =
    Returned
      (if (List.length
             (filter (same_like userId businessId)
                (user_business_likes (committed w))) =? 0)%nat
       then mkReply 404 (JsonError "Like not found")
       else mkReply 200 (JsonMessage "Business unliked successfully")).
Proof.
  unfold delete_business_like, try_catch, bind, ret, pool_query. simpl.
  now destruct (List.length _ =? 0)%nat.
Qed.

(** Removing a like that is not there is answered 404 and changes nothing;
    removing one that is there is answered 200.  Either way the table loses
    exactly the rows of that user and business and keeps every other row, in
    its place. *)
Theorem unlike_removes_that_like_only userId businessId w :
  (forall k,
      In k (user_business_likes
              (committed (snd (delete_business_like false userId businessId w))))
      <-> In k (user_business_likes (committed w))
          /\ like_pair k <> (userId, businessId))
  /\ ((forall k, In k (user_business_likes (committed w)) ->
                 like_pair k <> (userId, businessId)) ->
      fst (delete_business_like false userId businessId w) =
        Returned (mkReply 404 (JsonError "Like not found"))
      /\ committed (snd (delete_business_like false userId businessId w)) =
           committed w)
  /\ ((exists k, In k (user_business_likes (committed w))
                 /\ like_pair k = (userId, businessId)) ->
      fst (delete_business_like false userId businessId w) =
        Returned (mkReply 200 (JsonMessage "Business unliked successfully"))).
Proof.
  rewrite delete_business_like_world, delete_business_like_reply. simpl.
  split; [|split].
  - intros k. rewrite filter_In, negb_true_iff.
    split; intros [Hin Hk]; (split; [exact Hin|]).
    + intros Hp. apply same_like_spec in Hp. congruence.
    + destruct (same_like userId businessId k) eqn:Hs; [|reflexivity].
      apply same_like_spec in Hs. contradiction.
  - intros Hnone.
    rewrite (filter_nothing (same_like userId businessId)).
    + simpl. split; [reflexivity|].
      rewrite filter_everything; [destruct (committed w); reflexivity|].
      intros k Hk. apply negb_true_iff.
      destruct (same_like userId businessId k) eqn:Hs; [|reflexivity].
      apply same_like_spec in Hs. exfalso. exact (Hnone k Hk Hs).
    + intros k Hk.
      destruct (same_like userId businessId k) eqn:Hs; [|reflexivity].
      apply same_like_spec in Hs. exfalso. exact (Hnone k Hk Hs).
  - intros (k & Hk & Hp).
    destruct (filter (same_like userId businessId)
                (user_business_likes (committed w))) as [|k0 ks] eqn:Hf;
      [|reflexivity].
    exfalso.
    assert (Hx : In k (filter (same_like userId businessId)
                         (user_business_likes (committed w))))
      by (apply filter_In; split; [exact Hk | now apply same_like_spec]).
    rewrite Hf in Hx. destruct Hx.
Qed.

Lemma unlike_removes_that_like_only_witness :
  fst (delete_business_like false 5 1 two_shops_world) =
    Returned (mkReply 404 (JsonError "Like not found"))
  /\ committed (snd (delete_business_like false 5 1 two_shops_world)) =
       committed two_shops_world.
Proof.
  apply (proj1 (proj2 (@unlike_removes_that_like_only 5%Z 1%Z two_shops_world))).
  intros k [<-|[]]. discriminate.
Defined.

(* ===================================================================== *)
(** * The address filter                                                   *)
(* ===================================================================== *)

Lemma prefix_refl (s : string) : String.prefix s s = true.
Proof.
  induction s as [|c s IH]; simpl; [reflexivity|].
  destruct (ascii_dec c c) as [_|Hne]; [exact IH | now destruct Hne].
Qed.

Lemma prefix_append (p s t : string) :
  String.prefix p s = true -> String.prefix p (s ++ t) = true.
Proof.
  revert p. induction s as [|c s IH]; intros p H.
  - destruct p; [now destruct t | discriminate].
  - destruct p as [|a p]; [reflexivity|]. simpl in *.
    destruct (ascii_dec a c); [now apply IH | discriminate].
Qed.

Lemma admitted_iff_prefix (allowed : list string) (ip : string) :
  existsb (String.eqb ip) allowed
  || existsb (fun a => String.prefix a ip) allowed = true <->
  exists a, In a allowed /\ String.prefix a ip = true.
Proof.
  rewrite orb_true_iff, !existsb_exists. split.
  - intros [(a & Ha & Heq) | (a & Ha & Hp)].
    + apply String.eqb_eq in Heq. subst a. exists ip. split; [exact Ha|].
      apply prefix_refl.
    + exists a. auto.
  - intros (a & Ha & Hp). right. exists a. auto.
Qed.

Lemma address_filter_admits_by_prefix_aux (allowed : list string)
    (r : IpRequest) (ip : string) :
  clientIP r = Returned (Some ip) ->
  (restrictByIP allowed r = Next <->
   exists a, In a allowed /\ String.prefix a ip = true).
Proof.
  intros H. unfold restrictByIP. rewrite H.
  pose proof (admitted_iff_prefix allowed ip) as Hiff.
  destruct (existsb (String.eqb ip) allowed
            || existsb (fun a => String.prefix a ip) allowed).
  - split; [intros _; now apply Hiff | reflexivity].
  - split; [discriminate|]. intros Hex. apply Hiff in Hex. discriminate.
Qed.

(** The filter admits by prefix.  A request that carries an address passes
    exactly when some entry of the list is a prefix of that address (the
    test for an exact match adds nothing); every other such request is
    answered 403. *)
Theorem address_filter_admits_by_prefix (allowed : list string) (r : IpRequest)
    (ip : string) :
  clientIP r = Returned (Some ip) ->
  (restrictByIP allowed r = Next <->
   exists a, In a allowed /\ String.prefix a ip = true)
  /\ (restrictByIP allowed r = Next
      \/ restrictByIP allowed r = Denied 403 "Access denied").
Proof.
  intros H. unfold restrictByIP. rewrite H.
  pose proof (admitted_iff_prefix allowed ip) as Hiff.
  destruct (existsb (String.eqb ip) allowed
            || existsb (fun a => String.prefix a ip) allowed).
  - split; [|now left]. split; [intros _; now apply Hiff | reflexivity].
  - split; [|now right]. split; [discriminate|].
    intros Hex. apply Hiff in Hex. discriminate.
Qed.

Lemma address_filter_admits_by_prefix_witness :
  clientIP (from_address "192.168.1.77") = Returned (Some "192.168.1.77")
  /\ (restrictByIP allowedIPs (from_address "192.168.1.77") = Next <->
      exists a, In a allowedIPs /\ String.prefix a "192.168.1.77" = true).
Proof.
  split; [reflexivity|].
  apply (@address_filter_admits_by_prefix allowedIPs
           (from_address "192.168.1.77") "192.168.1.77" eq_refl).
Defined.

(** Whatever extends an admitted address is admitted: if a request from [ip]
    passes the filter, so does a request from [ip] followed by any further
    characters.  With the list the server installs, every address that
    begins with 127.0.0.1 passes, 127.0.0.13 for one. *)
Theorem address_filter_admits_extensions (allowed : list string)
    (r r' : IpRequest) (ip rest : string) :
  clientIP r = Returned (Some ip) ->
  clientIP r' = Returned (Some (ip ++ rest)%string) ->
  restrictByIP allowed r = Next ->
  restrictByIP allowed r' = Next.
Proof.
  intros H H' Hnext.
  apply (proj1 (@address_filter_admits_by_prefix_aux allowed r ip H)) in Hnext.
  destruct Hnext as (a & Ha & Hp).
  apply (proj2 (@address_filter_admits_by_prefix_aux allowed r' (ip ++ rest)%string H')).
  exists a. split; [exact Ha | now apply prefix_append].
Qed.

Lemma address_filter_admits_extensions_witness :
  clientIP (from_address "127.0.0.1") = Returned (Some "127.0.0.1")
  /\ clientIP (from_address "127.0.0.13") = Returned (Some ("127.0.0.1" ++ "3")%string)
  /\ restrictByIP allowedIPs (from_address "127.0.0.1") = Next
  /\ restrictByIP allowedIPs (from_address "127.0.0.13") = Next.
Proof.
  split; [reflexivity|]. split; [reflexivity|]. split; [reflexivity|].
  apply (@address_filter_admits_extensions allowedIPs
           (from_address "127.0.0.1") (from_address "127.0.0.13")
           "127.0.0.1" "3"); reflexivity.
Defined.

(* ===================================================================== *)
(** * Sending friend requests                                              *)
(* ===================================================================== *)

(** The two ways a friend request can end: the store is as before, or the
    answer is 201 and one pending row from the sender to the user found is
    appended, for two different users that no row linked yet. *)
Lemma post_friend_request_cases faults find_user userId friendUsername s :
  snd (post_friend_request faults find_user userId friendUsername s) = s
  \/ exists friendId,
       userId <> friendId
       /\ filter (between userId friendId) (friendships s) = []
       /\ post_friend_request faults find_user userId friendUsername s =
            (RequestSent (next_friendship_id s),
             mkFriendStore
               (friendships s
                ++ [mkFriendship (next_friendship_id s) userId friendId Pending])
               (next_friendship_id s + 1)%Z).
Proof.
  unfold post_friend_request.
  destruct friendUsername as [name|]; [|now left].
  destruct (String.eqb name ""); [now left|].
  destruct (find_user_fails faults); [now left|].
  destruct (find_user name) as [|friendId others]; [now left|].
  destruct (userId =? friendId)%Z eqn:Hself; [now left|].
  destruct (find_friendship_fails faults); [now left|].
  destruct (filter (between userId friendId) (friendships s)) eqn:Hf;
    [|now left].
  destruct (insert_friendship_fails faults); [now left|].
  right. exists friendId. apply Z.eqb_neq in Hself. auto.
Qed.

(** Sending a friend request authorizes nothing.  Whatever the request and
    its answer, the accepted friendships between any two users are the same
    after as before: the sender sees nobody's location that was not visible
    already, until the other user accepts. *)
Theorem sending_a_request_authorizes_nothing faults find_user userId
    friendUsername s a b :
  accepted_friendships a b
    (friendships
       (snd (post_friend_request faults find_user userId friendUsername s))) =
  accepted_friendships a b (friendships s).
Proof.
  destruct (post_friend_request_cases faults find_user userId friendUsername s)
    as [-> | (friendId & _ & _ & ->)]; [reflexivity|].
  simpl. unfold accepted_friendships. rewrite filter_app. simpl.
  rewrite andb_false_r. apply app_nil_r.
Qed.

Lemma pair_of_between (a b : Z) (f : FriendshipRow) :
  between a b f = true <-> pair_of f = (Z.min a b, Z.max a b).
Proof.
  unfold between, pair_of.
  rewrite orb_true_iff, !andb_true_iff, !Z.eqb_eq. split.
  - intros [[-> ->]|[-> ->]]; [reflexivity|].
    now rewrite Z.min_comm, Z.max_comm.
  - intros H. inversion H as [[Hmin Hmax]]. lia.
Qed.

Lemma pairs_of_set_status (friendshipId : Z) (st : FriendshipStatus) fs :
  map pair_of (map (set_status friendshipId st) fs) = map pair_of fs.
Proof.
  induction fs as [|f rest IH]; simpl; [reflexivity|].
  rewrite IH. unfold set_status. now destruct (friendship_id f =? friendshipId)%Z.
Qed.

(** One friendship per pair.  If no row links a user to themselves and no
    two rows link the same two users (in either direction), the same holds
    after a friend request is sent and after one is answered, whatever the
    answers. *)
Theorem one_friendship_per_pair faults find_user userId friendUsername s
    select_fails update_fails friendshipId status_field :
  one_row_per_pair (friendships s) ->
  one_row_per_pair
    (friendships
       (snd (post_friend_request faults find_user userId friendUsername s)))
  /\ one_row_per_pair
       (snd (put_friend_request select_fails update_fails userId friendshipId
               status_field (friendships s))).
Proof.
  intros [Hnd Hself]. split.
  - destruct (post_friend_request_cases faults find_user userId friendUsername s)
      as [-> | (friendId & Hne & Hnone & ->)]; [now split|].
    simpl. split.
    + rewrite map_app. simpl.
      apply NoDup_app; [exact Hnd | repeat constructor; intros [] |].
      intros p Hp [<-|[]].
      apply in_map_iff in Hp. destruct Hp as (f & Hf & Hin).
      assert (Hx : In f (filter (between userId friendId) (friendships s))).
      { apply filter_In. split; [exact Hin|]. apply pair_of_between.
        rewrite Hf. reflexivity. }
      rewrite Hnone in Hx. destruct Hx.
    + intros f Hf. apply in_app_or in Hf. destruct Hf as [Hf|[<-|[]]];
        [now apply Hself | exact Hne].
  - unfold put_friend_request.
    destruct (requested_status status_field) as [st|]; [|now split].
    destruct select_fails; [now split|].
    destruct (pending_requests friendshipId userId (friendships s))
      as [|f0 others]; [now split|].
    destruct update_fails; [now split|].
    simpl. split; [now rewrite pairs_of_set_status|].
    intros f Hf. apply in_map_iff in Hf. destruct Hf as (g & <- & Hg).
    unfold set_status. destruct (friendship_id g =? friendshipId)%Z; simpl;
      now apply Hself.
Qed.

Lemma one_friendship_per_pair_witness :
  one_row_per_pair (friendships sample_friend_store)
  /\ one_row_per_pair
       (friendships
          (snd (post_friend_request requests_work sample_users 2 (Some "ann")
                  sample_friend_store)))
  /\ fst (post_friend_request requests_work sample_users 2 (Some "ann")
            sample_friend_store) =
       RequestRefused 409 "Friendship already exists" (Some Pending).
Proof.
  assert (H : one_row_per_pair (friendships sample_friend_store)).
  { split.
    - simpl. repeat constructor; simpl; intuition discriminate.
    - intros f [<-|[<-|[]]]; simpl; discriminate. }
  split; [exact H|]. split; [|reflexivity].
  apply (@one_friendship_per_pair requests_work sample_users 2%Z (Some "ann")
           sample_friend_store false false 0%Z JNull H).
Defined.

(* ===================================================================== *)
(** * Survey submission                                                    *)
(* ===================================================================== *)

(** Inside the transaction the insertions of the responses touch the view of
    the connection only: when they all go through, the view has gained one
    row of the user per response; when one fails, what was inserted before
    it is still in the view, and the committed tables are as they were. *)
Lemma insert_responses_run f userId items : forall i c s,
  match insert_responses f userId i items (mkSurveyWorld c (Some s)) with
  | (Returned _, w') =>
      exists added,
        w' = mkSurveyWorld c
               (Some (mkSurveyStore (survey_responses s ++ added)
                        (survey_preferences s)))
        /\ List.length added = List.length items
        /\ Forall (fun r => sr_user_id r = userId) added
  | (Thrown _, w') => exists s', w' = mkSurveyWorld c (Some s')
  end.
Proof.
  induction items as [|item rest IH]; intros i c s; simpl.
  - exists []. rewrite app_nil_r. destruct s. repeat split. constructor.
  - unfold bind, insert_response.
    destruct item as [q a|]; [|unfold throw; eauto].
    unfold survey_query. destruct (insert_response_fails f i); [eauto|].
    unfold survey_write, survey_view. simpl.
    specialize (IH (S i) c
                  (mkSurveyStore (survey_responses s ++ [mkSurveyResponse userId q a])
                     (survey_preferences s))).
    destruct (insert_responses f userId (S i) rest _) as [[u|m] w']; [|exact IH].
    destruct IH as (added & -> & Hlen & Hall).
    exists (mkSurveyResponse userId q a :: added). simpl.
    rewrite <- app_assoc. simpl. repeat split; [now rewrite Hlen|].
    constructor; [reflexivity | exact Hall].
Qed.

(** The two ways a survey submission can end, on a connection that comes
    with no open transaction. *)
Lemma post_survey_submit_cases f userId responses clusterId c0 :
  (exists reply,
      post_survey_submit f userId responses clusterId (mkSurveyWorld c0 None) =
        (Returned reply, mkSurveyWorld c0 None)
      /\ reply_status reply <> 201%nat)
  \/ (exists items c added,
         responses = ResponsesArray items /\ clusterId = Some c /\ c <> 0%Z
         /\ List.length added = List.length items
         /\ Forall (fun r => sr_user_id r = userId) added
         /\ post_survey_submit f userId responses clusterId
              (mkSurveyWorld c0 None) =
              (Returned
                 (mkReply 201
                    (JsonMessage "Survey responses submitted successfully")),
               mkSurveyWorld
                 (mkSurveyStore (survey_responses c0 ++ added)
                    (write_preference userId c (survey_preferences c0)))
                 None)).
Proof.
  unfold post_survey_submit.
  destruct responses as [items|];
    [|left; eexists; split; [reflexivity | discriminate]].
  destruct clusterId as [c|];
    [|left; eexists; split; [reflexivity | discriminate]].
  destruct (c =? 0)%Z eqn:Hc;
    [left; eexists; split; [reflexivity | discriminate]|].
  apply Z.eqb_neq in Hc.
  unfold try_catch, try_finally, bind, survey_connection, survey_begin,
    select_preference_ids, insert_preference, update_preference,
    survey_commit, survey_rollback, survey_release, survey_query, ret, throw.
  destruct (survey_connection_fails f);
    [left; eexists; split; [reflexivity | discriminate]|].
  destruct (survey_begin_fails f);
    [left; eexists; split; [reflexivity | discriminate]|].
  simpl.
  pose proof (insert_responses_run f userId items 0 c0 c0) as Hins.
  destruct (insert_responses f userId 0 items (mkSurveyWorld c0 (Some c0)))
    as [[u|m] w1].
  - destruct Hins as (added & -> & Hlen & Hall).
    destruct (select_preference_fails f);
      [left; eexists; split; [reflexivity | discriminate]|].
    unfold write_preference, set_preferences, survey_write, survey_view. simpl.
    destruct (filter (fun p => (up_user_id p =? userId)%Z)
                (survey_preferences c0)) as [|p0 ps];
      (destruct (write_preference_fails f);
       [left; eexists; split; [reflexivity | discriminate]|]);
      (destruct (survey_commit_fails f);
       [left; eexists; split; [reflexivity | discriminate]|]);
      right; exists items, c, added; repeat split; auto.
  - destruct Hins as (s' & ->).
    left. eexists. split; [reflexivity | discriminate].
Qed.

(** A survey submission is all or nothing.  On a connection that comes with
    no open transaction the handler always answers and leaves none open.
    Either the answer is not 201 and both tables are committed exactly as
    they were (whatever was inserted before a failure is rolled back), or it
    is 201, the cluster given is not 0, one row per response of the user
    has been appended to the answers, and the preferences have been
    written. *)
Theorem survey_is_all_or_nothing f userId responses clusterId w :
  survey_pending w = None ->
  exists reply,
    fst (post_survey_submit f userId responses clusterId w) = Returned reply
    /\ survey_pending (snd (post_survey_submit f userId responses clusterId w))
       = None
    /\ ((reply_status reply <> 201%nat
         /\ survey_committed
              (snd (post_survey_submit f userId responses clusterId w)) =
              survey_committed w)
        \/ exists items c added,
             responses = ResponsesArray items /\ clusterId = Some c
             /\ c <> 0%Z /\ reply_status reply = 201%nat
             /\ survey_responses
                  (survey_committed
                     (snd (post_survey_submit f userId responses clusterId w))) =
                  survey_responses (survey_committed w) ++ added
             /\ List.length added = List.length items
             /\ Forall (fun r => sr_user_id r = userId) added
             /\ survey_preferences
                  (survey_committed
                     (snd (post_survey_submit f userId responses clusterId w))) =
                  write_preference userId c
                    (survey_preferences (survey_committed w))).
Proof.
  destruct w as [c0 p]. simpl. intros ->.
  destruct (post_survey_submit_cases f userId responses clusterId c0)
    as [(reply & E & Hno) | (items & c & added & Hr & Hc & Hc0 & Hlen & Hall & E)];
    rewrite E; simpl.
  - exists reply. auto.
  - eexists. split; [reflexivity|]. split; [reflexivity|].
    right. exists items, c, added. simpl. auto 10.
Qed.

(** The store fails the insertion of the second of two responses: the first,
    already inserted, is rolled back. *)
Lemma survey_is_all_or_nothing_witness :
  survey_pending sample_survey_world = None
  /\ post_survey_submit second_insert_fails 5 two_answers (Some 7%Z)
       sample_survey_world = (Returned survey_failed, sample_survey_world)
  /\ exists reply,
       fst (post_survey_submit second_insert_fails 5 two_answers (Some 7%Z)
              sample_survey_world) = Returned reply
       /\ survey_pending
            (snd (post_survey_submit second_insert_fails 5 two_answers
                    (Some 7%Z) sample_survey_world)) = None
       /\ ((reply_status reply <> 201%nat
            /\ survey_committed
                 (snd (post_survey_submit second_insert_fails 5 two_answers
                         (Some 7%Z) sample_survey_world)) =
                 survey_committed sample_survey_world)
           \/ exists items c added,
                two_answers = ResponsesArray items /\ Some 7%Z = Some c
                /\ c <> 0%Z /\ reply_status reply = 201%nat
                /\ survey_responses
                     (survey_committed
                        (snd (post_survey_submit second_insert_fails 5
                                two_answers (Some 7%Z) sample_survey_world))) =
                     survey_responses (survey_committed sample_survey_world)
                     ++ added
                /\ List.length added = List.length items
                /\ Forall (fun r => sr_user_id r = 5%Z) added
                /\ survey_preferences
                     (survey_committed
                        (snd (post_survey_submit second_insert_fails 5
                                two_answers (Some 7%Z) sample_survey_world))) =
                     write_preference 5 c
                       (survey_preferences
                          (survey_committed sample_survey_world))).
Proof.
  split; [reflexivity|]. split; [reflexivity|].
  exact (@survey_is_all_or_nothing second_insert_fails 5%Z two_answers
           (Some 7%Z) sample_survey_world eq_refl).
Defined.

Lemma users_of_set_cluster (userId clusterId : Z) prefs :
  map up_user_id (map (set_cluster userId clusterId) prefs) =
  map up_user_id prefs.
Proof.
  induction prefs as [|p rest IH]; simpl; [reflexivity|].
  rewrite IH. unfold set_cluster. now destruct (up_user_id p =? userId)%Z.
Qed.

(** Writing the preference of a user leaves the user with a row, gives every
    row of the user the new cluster, keeps the rows of the other users as
    they were, and keeps the table to one row per user. *)
Lemma write_preference_spec (userId clusterId : Z) prefs :
  (exists p, In p (write_preference userId clusterId prefs)
             /\ up_user_id p = userId)
  /\ (forall p, In p (write_preference userId clusterId prefs) ->
                up_user_id p = userId -> up_cluster_id p = clusterId)
  /\ (forall p, up_user_id p <> userId ->
                (In p (write_preference userId clusterId prefs) <-> In p prefs))
  /\ (NoDup (map up_user_id prefs) ->
      NoDup (map up_user_id (write_preference userId clusterId prefs))).
Proof.
  unfold write_preference.
  destruct (filter (fun p => (up_user_id p =? userId)%Z) prefs) as [|p0 ps] eqn:Hf.
  - assert (Hnone : forall p, In p prefs -> up_user_id p <> userId).
    { intros p Hp Hu.
      assert (Hx : In p (filter (fun p => (up_user_id p =? userId)%Z) prefs))
        by (apply filter_In; split; [exact Hp | now apply Z.eqb_eq]).
      rewrite Hf in Hx. destruct Hx. }
    split; [|split; [|split]].
    + exists (mkPreference userId clusterId). split; [|reflexivity].
      apply in_or_app. right. now left.
    + intros p Hp Hu. apply in_app_or in Hp. destruct Hp as [Hp|[<-|[]]];
        [|reflexivity].
      exfalso. exact (Hnone p Hp Hu).
    + intros p Hne. split; intros Hp.
      * apply in_app_or in Hp. destruct Hp as [Hp|[<-|[]]]; [exact Hp|].
        simpl in Hne. now destruct Hne.
      * apply in_or_app. now left.
    + intros Hnd. rewrite map_app. simpl.
      apply NoDup_app; [exact Hnd | repeat constructor; intros [] |].
      intros u Hu [<-|[]]. apply in_map_iff in Hu. destruct Hu as (p & Hp & Hin).
      exact (Hnone p Hin Hp).
  - assert (Hin0 : In p0 (filter (fun p => (up_user_id p =? userId)%Z) prefs))
      by (rewrite Hf; now left).
    apply filter_In in Hin0. destruct Hin0 as [Hin0 Hu0].
    split; [|split; [|split]].
    + exists (set_cluster userId clusterId p0). split; [now apply in_map|].
      unfold set_cluster. rewrite Hu0. simpl. now apply Z.eqb_eq.
    + intros p Hp Hu. apply in_map_iff in Hp. destruct Hp as (q & <- & _).
      unfold set_cluster in *.
      destruct (up_user_id q =? userId)%Z eqn:Hq; [reflexivity|].
      apply Z.eqb_neq in Hq. contradiction.
    + intros p Hne. split; intros Hp.
      * apply in_map_iff in Hp. destruct Hp as (q & <- & Hq).
        unfold set_cluster in *.
        destruct (up_user_id q =? userId)%Z eqn:Hqu; [|exact Hq].
        simpl in Hne. apply Z.eqb_eq in Hqu. contradiction.
      * apply in_map_iff. exists p. split; [|exact Hp].
        unfold set_cluster. apply Z.eqb_neq in Hne. now rewrite Hne.
    + intros Hnd. now rewrite users_of_set_cluster.
Qed.

(** The survey decides what is recommended.  After a submission answered
    201 with cluster [c], in any state of the primary store whose preferences
    are the table the submission committed: the user is never answered "User
    preferences not found" once the lookup goes through, and, as long as the
    user has no current location, every business the recommendation handler
    lists belongs to cluster [c].  (With a location the query compares the
    cluster of a business with the longitude.)  The table keeps one row per
    user, and the preferences of the other users are as they were. *)
Theorem survey_decides_the_recommendations sf userId responses c s reply s'
    e limit w :
  survey_pending s = None ->
  post_survey_submit sf userId responses (Some c) s = (Returned reply, s') ->
  reply_status reply = 201%nat ->
  user_preferences (committed w) = survey_preferences (survey_committed s') ->
  (current_location_rows userId (committed w) = [] ->
   forall rows w',
     get_recommendations e userId limit w =
       (Returned (mkResponse 200 (Recommendations rows)), w') ->
     Forall (fun r => candidate c userId (committed w) (fst r)) rows)
  /\ (faults e MySelectPreferences = false ->
      fst (get_recommendations e userId limit w) <>
        Returned (mkResponse 404 (ErrorJson "User preferences not found" None)))
  /\ (NoDup (map up_user_id (survey_preferences (survey_committed s))) ->
      NoDup (map up_user_id (survey_preferences (survey_committed s'))))
  /\ (forall p, up_user_id p <> userId ->
                (In p (survey_preferences (survey_committed s')) <->
                 In p (survey_preferences (survey_committed s)))).
Proof.
  intros Hpending Hsubmit Hok Hprefs.
  destruct s as [c0 p0]. simpl in Hpending. subst p0.
  assert (Hw : survey_preferences (survey_committed s') =
               write_preference userId c (survey_preferences c0)).
  { destruct (post_survey_submit_cases sf userId responses (Some c) c0)
      as [(r & E & Hno) | (items & c' & added & _ & Hc & _ & _ & _ & E)];
      rewrite E in Hsubmit; inversion Hsubmit; subst.
    - contradiction.
    - inversion Hc; subst. reflexivity. }
  destruct (write_preference_spec userId c (survey_preferences c0))
    as (Hhas & Hall & Hothers & Hnd).
  rewrite <- Hw in Hhas, Hall, Hothers, Hnd. simpl.
  assert (Hfirst : forall q qs,
    filter (fun p => (up_user_id p =? userId)%Z)
      (survey_preferences (survey_committed s')) = q :: qs ->
    up_cluster_id q = c).
  { intros q qs Hf.
    assert (Hin : In q (filter (fun p => (up_user_id p =? userId)%Z)
                          (survey_preferences (survey_committed s'))))
      by (rewrite Hf; now left).
    apply filter_In in Hin. destruct Hin as [Hin Hu]. apply Z.eqb_eq in Hu.
    now apply Hall. }
  split; [|split; [|split; assumption]].
  - intros Hloc rows w' Hrec.
    destruct (recommended_rows_are_candidates _ _ _ _ Hloc Hrec)
      as (clusterId & Hhd & Hcand).
    rewrite Hprefs in Hhd.
    destruct (filter (fun p => (up_user_id p =? userId)%Z)
                (survey_preferences (survey_committed s'))) as [|q qs] eqn:Hf;
      [discriminate|].
    simpl in Hhd. inversion Hhd; subst.
    now rewrite (Hfirst q qs eq_refl) in Hcand.
  - intros F.
    unfold get_recommendations, select_preferences, select_current_location,
      select_recommendations, try_catch, bind, ret, attempt.
    rewrite F. simpl. rewrite Hprefs.
    destruct Hhas as (p & Hp & Hu).
    destruct (filter (fun p0 => (up_user_id p0 =? userId)%Z)
                (survey_preferences (survey_committed s'))) as [|q qs] eqn:Hf.
    + exfalso.
      assert (Hx : In p (filter (fun p0 => (up_user_id p0 =? userId)%Z)
                           (survey_preferences (survey_committed s'))))
        by (apply filter_In; split; [exact Hp | now apply Z.eqb_eq]).
      rewrite Hf in Hx. destruct Hx.
    + simpl.
      destruct (faults e MySelectCurrentLocation); simpl; [discriminate|].
      destruct (faults e MySelectRecommendations); simpl; [discriminate|].
      destruct (current_location_rows userId (committed w)) as [|u us];
        match goal with
        | |- context [sql_limit ?l ?r] => destruct (sql_limit l r)
        end; simpl; discriminate.
Qed.

(** User 7, whose preference said cluster 1, submits a survey with cluster 3
    and is then, in the store of the scenario, recommended the three
    businesses of cluster 3. *)
Lemma survey_decides_the_recommendations_witness :
  post_survey_submit survey_works 7 two_answers (Some 3%Z)
    (mkSurveyWorld (mkSurveyStore [] [mkPreference 7 1]) None) =
    (Returned (mkReply 201 (JsonMessage "Survey responses submitted successfully")),
     mkSurveyWorld
       (mkSurveyStore
          [mkSurveyResponse 7 (JNumber (DNum 1)) (JString "coffee");
           mkSurveyResponse 7 (JNumber (DNum 2)) (JString "jazz")]
          [mkPreference 7 3])
       None)
  /\ current_location_rows 7 (committed scenario_world) = []
  /\ Forall (fun r => candidate 3 7 (committed scenario_world) (fst r))
       [(mkColumns 3 "C" "c" "cafe" (49 # 10) (42 # 1) (-73 # 1)
           None None None, @None (option float));
        (mkColumns 1 "A" "a" "cafe" (48 # 10) (40 # 1) (-75 # 1)
           None None None, None);
        (mkColumns 2 "B" "b" "cafe" (32 # 10) (41 # 1) (-74 # 1)
           None None None, None)].
Proof.
  assert (H : post_survey_submit survey_works 7 two_answers (Some 3%Z)
    (mkSurveyWorld (mkSurveyStore [] [mkPreference 7 1]) None) =
    (Returned (mkReply 201 (JsonMessage "Survey responses submitted successfully")),
     mkSurveyWorld
       (mkSurveyStore
          [mkSurveyResponse 7 (JNumber (DNum 1)) (JString "coffee");
           mkSurveyResponse 7 (JNumber (DNum 2)) (JString "jazz")]
          [mkPreference 7 3])
       None)) by reflexivity.
  split; [exact H|]. split; [reflexivity|].
  exact (proj1
    (@survey_decides_the_recommendations survey_works 7%Z two_answers 3%Z
       (mkSurveyWorld (mkSurveyStore [] [mkPreference 7 1]) None) _ _ no_faults
       None scenario_world eq_refl H eq_refl eq_refl)
    eq_refl _
    (mkWorld scenario_tables None 4 1 []
       [MySelectPreferences; MySelectCurrentLocation; MySelectRecommendations])
    eq_refl).
Defined.

(* ===================================================================== *)
(** * The legacy feed                                                      *)
(* ===================================================================== *)

Section OrderByLast.
Variables (A K : Type).
Variable leb : K -> K -> bool.
Variable key : A -> K.

Lemma insert_row_before_last (x last : A) (l : list A) :
  leb (key x) (key last) = true ->
  insert_row leb key x (l ++ [last]) = insert_row leb key x l ++ [last].
Proof.
  intros H. induction l as [|y rest IH]; simpl.
  - now rewrite H.
  - destruct (leb (key x) (key y)); [reflexivity | now rewrite IH].
Qed.

(** A row whose key is not below any other stays last under [ORDER BY]. *)
Lemma order_by_last (last : A) (l : list A) :
  (forall x, In x l -> leb (key x) (key last) = true) ->
  order_by leb key (l ++ [last]) = order_by leb key l ++ [last].
Proof.
  induction l as [|x rest IH]; intros H; simpl; [reflexivity|].
  rewrite IH by (intros y Hy; apply H; now right).
  apply insert_row_before_last. apply H. now left.
Qed.
End OrderByLast.

(** The feed follows the history.  In a store whose location identifiers
    are below the counter, a successful location update, of any user and on
    either endpoint, adds exactly its own coordinates at the end of the list
    that [/api/Quad-Update] serves, and leaves the rest of the list as it
    was. *)
Theorem feed_follows_the_history sch c w :
  ids_below_counter w ->
  succeeded (fst (call sch c w)) = true ->
  exists la lo old,
    col_latitude sch (body_latitude (call_body c)) = Some la
    /\ col_longitude sch (body_longitude (call_body c)) = Some lo
    /\ fst (get_quad_update false w) = Returned (mkReply 200 (JsonData old))
    /\ fst (get_quad_update false (snd (call sch c w))) =
         Returned (mkReply 200 (JsonData (old ++ [(la, lo)]))).
Proof.
  intros Hids Hok.
  destruct (call sch c w) as [o w'] eqn:E. simpl in *.
  destruct (call_detail _ _ _ E) as [[Hno _]|(u & la & lo & _ & _ & Hla & Hlo & Hc)];
    [congruence|].
  exists la, lo. eexists. split; [exact Hla|]. split; [exact Hlo|].
  unfold get_quad_update, try_catch, bind, ret, pool_query. simpl.
  split; [reflexivity|].
  rewrite Hc. simpl. rewrite order_by_last, map_app; [reflexivity|].
  intros x Hx. apply Hids in Hx. simpl. apply Z.leb_le. lia.
Qed.

Lemma feed_follows_the_history_witness :
  ids_below_counter one_user_world
  /\ exists la lo old,
       col_latitude exact_schema (num (41 # 1)) = Some la
       /\ col_longitude exact_schema (num (-74 # 1)) = Some lo
       /\ fst (get_quad_update false one_user_world) =
            Returned (mkReply 200 (JsonData old))
       /\ fst (get_quad_update false
                 (snd (call exact_schema
                         (AppUpdate no_faults 6
                            (coordinates (num (41 # 1)) (num (-74 # 1))))
                         one_user_world))) =
            Returned (mkReply 200 (JsonData (old ++ [(la, lo)]))).
Proof.
  assert (H : ids_below_counter one_user_world).
  { intros l [<-|[]]. simpl. lia. }
  split; [exact H|].
  apply (@feed_follows_the_history exact_schema
           (AppUpdate no_faults 6 (coordinates (num (41 # 1)) (num (-74 # 1))))
           one_user_world H).
  reflexivity.
Defined.

(* ===================================================================== *)
(** * Authentication                                                       *)
(* ===================================================================== *)

Lemma append_empty (s : string) : (s ++ "")%string = s.
Proof. induction s as [|a s IH]; simpl; [reflexivity | now rewrite IH]. Qed.

Lemma append_one (piece : string) (c : ascii) (word : string) :
  ((piece ++ String c EmptyString) ++ word)%string =
    (piece ++ String c word)%string.
Proof.
  induction piece as [|a p IH]; simpl; [reflexivity | now rewrite IH].
Qed.

Lemma split_word (word rest piece : string) :
  no_space word = true ->
  split_on_space (word ++ String " " rest) piece =
    (piece ++ word)%string :: split_on_space rest EmptyString.
Proof.
  revert piece. induction word as [|c word IH]; intros piece H; simpl in *.
  - now rewrite append_empty.
  - apply andb_true_iff in H. destruct H as [Hc Hw].
    apply negb_true_iff in Hc. rewrite Hc, IH by exact Hw.
    now rewrite append_one.
Qed.

Lemma split_last_word (word piece : string) :
  no_space word = true ->
  split_on_space word piece = [(piece ++ word)%string].
Proof.
  revert piece. induction word as [|c word IH]; intros piece H; simpl in *.
  - now rewrite append_empty.
  - apply andb_true_iff in H. destruct H as [Hc Hw].
    apply negb_true_iff in Hc. rewrite Hc, IH by exact Hw.
    now rewrite append_one.
Qed.

(** The middleware reads the second word of the header and nothing else.
    For a header made of a first word, a space and a token (non-empty, with
    no space in it), the request is decided by [jwt.verify] on that token
    alone: the first word, "Bearer" or any other, is never looked at.  A
    request with no header, or with a header of one word only, is answered
    401 and the verifier is not consulted. *)
Theorem authentication_reads_the_second_word (User : Type)
    (verify : string -> option User) (scheme token : string) :
  no_space scheme = true -> no_space token = true -> token <> "" ->
  authenticateToken verify (Some (scheme ++ String " " token)%string) =
    match verify token with
    | Some user => Authenticated user
    | None => Unauthenticated 403 "Invalid or expired token"
    end
  /\ authenticateToken verify None =
       Unauthenticated 401 "Authentication required"
  /\ authenticateToken verify (Some token) =
       Unauthenticated 401 "Authentication required".
Proof.
  intros Hs Ht Hne. unfold authenticateToken, token_of. split; [|split].
  - assert (Hh : String.eqb (scheme ++ String " " token) "" = false).
    { apply String.eqb_neq. destruct scheme; discriminate. }
    rewrite Hh, split_word by exact Hs. simpl.
    rewrite split_last_word by exact Ht. simpl.
    apply String.eqb_neq in Hne. rewrite Hne. reflexivity.
  - reflexivity.
  - apply String.eqb_neq in Hne. rewrite Hne.
    rewrite split_last_word by exact Ht. reflexivity.
Qed.

Lemma authentication_reads_the_second_word_witness :
  no_space "Basic" = true /\ no_space "t0k3n" = true /\ "t0k3n" <> ""
  /\ authenticateToken sample_verify (Some "Basic t0k3n") = Authenticated 5%Z.
Proof.
  split; [reflexivity|]. split; [reflexivity|]. split; [discriminate|].
  exact (proj1 (@authentication_reads_the_second_word Z sample_verify "Basic"
                  "t0k3n" eq_refl eq_refl ltac:(discriminate))).
Defined.
